(** * Steam status plugin (plugin.py): alias store and identity resolution

    A shallow embedding of [plugin.py] and the properties of its command
    handlers.

    Modelling conventions.
    - A Python [str] is a [string]: the UTF-8 bytes of the text, as the
      literals of the source file are stored.  [str.strip], [str.lower],
      [str.isdigit] and [int] depend on the Unicode tables of the
      interpreter: they are functions of the runtime, of which the theorems
      use only what [RuntimeLaws] states, their values on ASCII text and
      that lowering twice is lowering once.  [len] counts the characters,
      not the bytes.
    - A decoded JSON document (what [json.load] and [Response.json] return)
      is a [json] value; a Python [dict] is an association list in insertion
      order, whose keys are unique.  JSON numbers with a fraction are not
      represented.
    - An operation that raises in Python returns [Raise] here; handlers run
      in a state-and-exception monad over the [World]: the content of
      [data.json] and the trace of the effects performed.
    - The remote Steam Web API is an oracle from requests to decoded
      response bodies; the wall clock is an argument of the handler that
      reads it; the chat key ([_get_chat_key(self.context)], a total
      function of the host's context object) is an argument [chat]. *)

From Stdlib Require Import ZArith List Bool Ascii String Lia.
From Stdlib Require Import Decimal DecimalString DecimalZ DecimalFacts.
Import ListNotations.

Local Open Scope string_scope.
Local Open Scope Z_scope.

(* ================================================================== *)
(** ** Python string primitives *)
(* ================================================================== *)

Module PyStr.

(** The empty [str]. *)
Definition empty : string := EmptyString.

Definition is_empty (s : string) : bool :=
  match s with EmptyString => true | String _ _ => false end.

(** [bool(s)] for a [str]. *)
Definition truthy (s : string) : bool := negb (is_empty s).

(** The newline character, as in ["\n".join(parts)]. *)
Definition nl : string := String (ascii_of_nat 10) EmptyString.

(** The methods of [str] that consult the Unicode character database
    ([strip], [lower], [isdigit]) and [int] are taken from the runtime (see
    [Runtime] below).  The functions [ascii_...] and [decimal_int] that follow
    say what those do on ASCII text; the model of the program does not call
    them. *)

(** An ASCII character: a byte below 0x80. *)
Definition is_ascii_char (c : ascii) : bool := (nat_of_ascii c <? 128)%nat.

(** The ASCII whitespace: TAB, LF, VT, FF, CR, FS, GS, RS, US, SPACE. *)
Definition ascii_isspace (c : ascii) : bool :=
  let n := nat_of_ascii c in
  ((9 <=? n) && (n <=? 13) || (28 <=? n) && (n <=? 32))%nat.

(** One of the characters '0'..'9'. *)
Definition is_decimal_char (c : ascii) : bool :=
  let n := nat_of_ascii c in ((48 <=? n) && (n <=? 57))%nat.

(** [s.lstrip()] for an ASCII [s] *)
Fixpoint ascii_lstrip (s : string) : string :=
  match s with
  | EmptyString => EmptyString
  | String c r => if ascii_isspace c then ascii_lstrip r else s
  end.

(** [s.rstrip()] for an ASCII [s] *)
Fixpoint ascii_rstrip (s : string) : string :=
  match s with
  | EmptyString => EmptyString
  | String c r =>
      let r' := ascii_rstrip r in
      if ascii_isspace c && is_empty r' then EmptyString else String c r'
  end.

(** [s.strip()] for an ASCII [s] *)
Definition ascii_strip (s : string) : string := ascii_rstrip (ascii_lstrip s).

(** [s.lstrip("@")]: every leading '@' is removed. *)
Fixpoint lstrip_at (s : string) : string :=
  match s with
  | EmptyString => EmptyString
  | String c r => if Ascii.eqb c "@" then lstrip_at r else s
  end.

Definition ascii_lower_char (c : ascii) : ascii :=
  let n := nat_of_ascii c in
  if ((65 <=? n) && (n <=? 90))%nat then ascii_of_nat (n + 32) else c.

(** [s.lower()] for an ASCII [s] *)
Fixpoint ascii_lower (s : string) : string :=
  match s with
  | EmptyString => EmptyString
  | String c r => String (ascii_lower_char c) (ascii_lower r)
  end.

Fixpoint all_chars (p : ascii -> bool) (s : string) : bool :=
  match s with
  | EmptyString => true
  | String c r => p c && all_chars p r
  end.

(** Every character of [s] is an ASCII character. *)
Definition is_ascii (s : string) : bool := all_chars is_ascii_char s.

(** [s.isdigit()] for an ASCII [s]: at least one character, and all of
    them among '0'..'9'. *)
Definition ascii_isdigit (s : string) : bool :=
  negb (is_empty s) && all_chars is_decimal_char s.

(** A byte that continues a UTF-8 sequence: 0x80..0xBF. *)
Definition is_continuation (c : ascii) : bool :=
  let n := nat_of_ascii c in ((128 <=? n) && (n <? 192))%nat.

(** The number of characters (code points) of [s]: the bytes that start a
    UTF-8 sequence. *)
Fixpoint code_points (s : string) : nat :=
  match s with
  | EmptyString => 0%nat
  | String c r => ((if is_continuation c then 0 else 1) + code_points r)%nat
  end.

(** [len(s)] *)
Definition len (s : string) : Z := Z.of_nat (code_points s).

Definition digit_value (c : ascii) : Z := Z.of_nat (nat_of_ascii c) - 48.

Fixpoint decimal_acc (acc : Z) (s : string) : option Z :=
  match s with
  | EmptyString => Some acc
  | String c r =>
      if is_decimal_char c then decimal_acc (10 * acc + digit_value c) r else None
  end.

(** [int(s)] for an [s] made of the characters '0'..'9'; [None] is
    [ValueError]. *)
Definition decimal_int (s : string) : option Z :=
  if is_empty s then None else decimal_acc 0 s.

(** [str(n)] for an [int]. *)
Definition of_int (n : Z) : string := NilZero.string_of_int (Z.to_int n).

(** [s.startswith(pfx)] *)
Fixpoint startswith (pfx s : string) : bool :=
  match pfx with
  | EmptyString => true
  | String a pfx' =>
      match s with
      | EmptyString => false
      | String b s' => Ascii.eqb a b && startswith pfx' s'
      end
  end.

(** [needle in s] for two [str]. *)
Fixpoint contains (needle s : string) : bool :=
  startswith needle s ||
  match s with
  | EmptyString => false
  | String _ r => contains needle r
  end.

(** Number of bytes of the UTF-8 sequence that starts with [c]. *)
Definition utf8_width (c : ascii) : nat :=
  let n := nat_of_ascii c in
  if (n <? 192)%nat then 1%nat
  else if (n <? 224)%nat then 2%nat
  else if (n <? 240)%nat then 3%nat else 4%nat.

(** [s[0]] for a non-empty [str]: its first character. *)
Definition first_char (s : string) : string :=
  match s with
  | EmptyString => EmptyString
  | String c _ => String.substring 0 (utf8_width c) s
  end.

End PyStr.

(* ================================================================== *)
(** ** Decoded JSON values and Python's operations on them *)
(* ================================================================== *)

Set Warnings "-register-all".

Inductive json : Type :=
| JNull
| JBool (b : bool)
| JInt (n : Z)
| JStr (s : string)
| JList (l : list json)
| JDict (d : list (string * json)).

(** The exceptions the modelled operations raise. *)
Inductive exn : Type :=
| AttributeError | TypeError | KeyError | IndexError | ValueError.

Inductive res (A : Type) : Type :=
| Ok (a : A)
| Raise (e : exn).

Arguments Ok {A} a.
Arguments Raise {A} e.

Definition rbind {A B : Type} (r : res A) (k : A -> res B) : res B :=
  match r with
  | Ok a => k a
  | Raise e => Raise e
  end.

Notation "x <-- r ;; k" := (rbind r (fun x => k))
  (at level 61, r at next level, right associativity).

Fixpoint rmap {A B : Type} (f : A -> res B) (l : list A) : res (list B) :=
  match l with
  | [] => Ok []
  | a :: l' => b <-- f a ;; bs <-- rmap f l' ;; Ok (b :: bs)
  end.

Module PyDict.

(** [d.get(k)] as an option: the value of the first (the only) entry. *)
Fixpoint get (k : string) (d : list (string * json)) : option json :=
  match d with
  | [] => None
  | (k', v) :: d' => if String.eqb k k' then Some v else get k d'
  end.

(** [d[k] = v]: an existing key keeps its position, a new key goes last. *)
Fixpoint set (k : string) (v : json) (d : list (string * json))
  : list (string * json) :=
  match d with
  | [] => [(k, v)]
  | (k', v') :: d' =>
      if String.eqb k k' then (k, v) :: d' else (k', v') :: set k v d'
  end.

(** [del d[k]] for a key that is present; keys are unique, so this drops
    one entry. *)
Definition del (k : string) (d : list (string * json))
  : list (string * json) :=
  filter (fun e => negb (String.eqb k (fst e))) d.

(** Number of entries of [d] under the key [k]. *)
Definition count (k : string) (d : list (string * json)) : nat :=
  List.length (filter (fun e => String.eqb k (fst e)) d).

(** The keys of a Python dict are pairwise distinct. *)
Definition unique_keys (d : list (string * json)) : Prop :=
  NoDup (map fst d).

End PyDict.

(** [bool(v)] *)
Definition py_truthy (v : json) : bool :=
  match v with
  | JNull => false
  | JBool b => b
  | JInt n => negb (n =? 0)
  | JStr s => PyStr.truthy s
  | JList l => match l with [] => false | _ :: _ => true end
  | JDict d => match d with [] => false | _ :: _ => true end
  end.

(** [v == n] for an [int] literal [n] ([True == 1] and [False == 0] hold in
    Python). *)
Definition py_eq_int (v : json) (n : Z) : bool :=
  match v with
  | JInt m => m =? n
  | JBool b => (if b then 1 else 0) =? n
  | _ => false
  end.

(** [v.get(k, default)]; only a dict has the method. *)
Definition py_get (v : json) (k : string) (default : json) : res json :=
  match v with
  | JDict d => Ok (match PyDict.get k d with Some x => x | None => default end)
  | _ => Raise AttributeError
  end.

(** [v[k]] for a [str] key [k]. *)
Definition py_getitem (v : json) (k : string) : res json :=
  match v with
  | JDict d => match PyDict.get k d with Some x => Ok x | None => Raise KeyError end
  | _ => Raise TypeError
  end.

(** [v[0]] *)
Definition py_index0 (v : json) : res json :=
  match v with
  | JList (x :: _) => Ok x
  | JList [] => Raise IndexError
  | JStr s => if PyStr.is_empty s then Raise IndexError
              else Ok (JStr (PyStr.first_char s))
  | JDict _ => Raise KeyError
  | _ => Raise TypeError
  end.

(** [k in v] for a [str] [k] *)
Definition py_contains (k : string) (v : json) : res bool :=
  match v with
  | JDict d => Ok (match PyDict.get k d with Some _ => true | None => false end)
  | JList l =>
      Ok (existsb (fun x => match x with JStr s => String.eqb k s | _ => false end) l)
  | JStr s => Ok (PyStr.contains k s)
  | _ => Raise TypeError
  end.

(** [del v[k]] for a [str] [k] *)
Definition py_delitem (v : json) (k : string) : res json :=
  match v with
  | JDict d =>
      match PyDict.get k d with
      | Some _ => Ok (JDict (PyDict.del k d))
      | None => Raise KeyError
      end
  | _ => Raise TypeError
  end.

(** [v.items()] *)
Definition py_items (v : json) : res (list (string * json)) :=
  match v with
  | JDict d => Ok d
  | _ => Raise AttributeError
  end.

(* ================================================================== *)
(** ** The host runtime *)
(* ================================================================== *)

(** What the program takes from the Python runtime and the host machine:
    - [document]: the content of a file; [json_load] is [json.load] on it
      ([None] when it raises), [json_dump] is [json.dump(..,
      ensure_ascii=False, indent=2)];
    - [local_time ts]: the body of the [try] of [fmt_ts],
      [datetime.fromtimestamp(int(ts), tz=utc).astimezone().strftime(..)],
      [None] when a step of it raises;
    - [py_repr]: [str(v)] of a list or a dict;
    - [str_strip], [str_lower], [str_isdigit]: [s.strip()], [s.lower()] and
      [s.isdigit()], which follow the Unicode character database of the
      interpreter; [str_int]: [int(s)], [None] when it raises
      [ValueError]. *)
Class Runtime : Type := {
  document : Type;
  json_load : document -> option json;
  json_dump : json -> document;
  local_time : json -> option string;
  py_repr : json -> string;
  str_strip : string -> string;
  str_lower : string -> string;
  str_isdigit : string -> bool;
  str_int : string -> option Z
}.

(** What is used of Python's [str] methods: their values on ASCII text, and
    that lowering a lowered string changes nothing.  [int] reads a decimal
    numeral of any length the interpreter accepts (4300 digits by
    default). *)
Class RuntimeLaws (RT : Runtime) : Prop := {
  str_strip_ascii : forall s,
    PyStr.is_ascii s = true -> str_strip s = PyStr.ascii_strip s;
  str_lower_ascii : forall s,
    PyStr.is_ascii s = true -> str_lower s = PyStr.ascii_lower s;
  str_lower_idem : forall s, str_lower (str_lower s) = str_lower s;
  str_isdigit_ascii : forall s,
    PyStr.is_ascii s = true -> str_isdigit s = PyStr.ascii_isdigit s;
  str_int_decimal : forall s,
    PyStr.ascii_isdigit s = true -> (String.length s <= 4300)%nat ->
    str_int s = PyStr.decimal_int s
}.

(** A runtime whose files hold either a decoded value or garbage, and whose
    [str] methods are the ASCII ones: Python's on the ASCII text the
    examples use. *)
Definition sample_runtime : Runtime := {|
  document := option json;
  json_load := fun d => d;
  json_dump := fun j => Some j;
  local_time := fun ts =>
    match ts with JInt n => Some ("t=" ++ PyStr.of_int n) | _ => None end;
  py_repr := fun _ => "<repr>";
  str_strip := PyStr.ascii_strip;
  str_lower := PyStr.ascii_lower;
  str_isdigit := PyStr.ascii_isdigit;
  str_int := PyStr.decimal_int
|}.

(** A file of [sample_runtime] that does not parse. *)
Definition sample_garbage : @document sample_runtime := None.

Section Plugin.

Context {RT : Runtime}.

(** [str(v)], also what an f-string field [{v}] renders. *)
Definition py_str (v : json) : string :=
  match v with
  | JNull => "None"
  | JBool true => "True"
  | JBool false => "False"
  | JInt n => PyStr.of_int n
  | JStr s => s
  | JList _ | JDict _ => py_repr v
  end.

(* ---------------------------------------------------------------- *)
(** *** Effects *)

(** A request to the Steam Web API ([STEAM_API_HOST]). *)
Inductive Request : Type :=
| ResolveVanityURL (key vanityurl : string)
| GetPlayerSummaries (key : string) (steamids : json).

(** The remote API: the decoded body of the response, or [None] when
    [requests.get], [raise_for_status] or [r.json()] raises. *)
Definition Remote : Type := Request -> option json.

Inductive Event : Type :=
| HttpGet (req : Request)
| FileWrite (doc : document).

(** [disk]: the content of [DATA_FILE], [None] when the file does not
    exist.  [trace]: the effects performed so far, the latest first. *)
Record World : Type := mkWorld {
  disk : option document;
  trace : list Event
}.

Definition M (A : Type) : Type := World -> res A * World.

Definition ret {A : Type} (a : A) : M A := fun w => (Ok a, w).

Definition bind {A B : Type} (m : M A) (k : A -> M B) : M B :=
  fun w =>
    match m w with
    | (Ok a, w') => k a w'
    | (Raise e, w') => (Raise e, w')
    end.

Definition lift {A : Type} (r : res A) : M A := fun w => (r, w).

Notation "x <- m ;; k" := (bind m (fun x => k))
  (at level 61, m at next level, right associativity).

(** [requests.get(..)] followed by [raise_for_status()] and [r.json()] *)
Definition http_get (remote : Remote) (req : Request) : M (option json) :=
  fun w => (Ok (remote req), mkWorld (disk w) (HttpGet req :: trace w)).

(* ---------------------------------------------------------------- *)
(** *** Data store *)

Definition _load_store : M json :=
  fun w =>
    match disk w with
    | None => (Ok (JDict []), w)
    | Some doc =>
        match json_load doc with
        | Some store => (Ok store, w)
        | None => (Ok (JDict []), w)
        end
    end.

(** The temporary file is written and then renamed over [DATA_FILE]. *)
Definition _save_store (store : json) : M unit :=
  fun w =>
    let doc := json_dump store in
    (Ok tt, mkWorld (Some doc) (FileWrite doc :: trace w)).

(** [store.get(chat, {}).get("aliases", {})] *)
Definition chat_aliases (store : json) (chat : string) : res json :=
  scope <-- py_get store chat (JDict []) ;;
  py_get scope "aliases" (JDict []).

(* ---------------------------------------------------------------- *)
(** *** SteamService *)

Record SteamService : Type := mkSteamService { api_key : string }.

(** [SteamService.__init__]: the configured key, stripped; a missing key is
    the empty string. *)
Definition new_service (key : string) : SteamService :=
  mkSteamService (str_strip key).

(** The body of the [try] of [resolve_vanity], from the decoded response. *)
Definition vanity_of_response (body : json) : res (option string) :=
  resp <-- py_get body "response" (JDict []) ;;
  success <-- py_get resp "success" JNull ;;
  steamid <-- py_get resp "steamid" JNull ;;
  if py_eq_int success 1 && py_truthy steamid
  then sid <-- py_getitem resp "steamid" ;; Ok (Some (py_str sid))
  else Ok None.

Definition resolve_vanity (remote : Remote) (service : SteamService)
    (vanity : string) : M (option string) :=
  if negb (PyStr.truthy (api_key service)) then ret None
  else
    r <- http_get remote (ResolveVanityURL (api_key service) vanity) ;;
    ret match r with
        | None => None
        | Some body =>
            match vanity_of_response body with
            | Ok (Some sid) => Some sid
            | Ok None => None
            | Raise _ => None
            end
        end.

(** The body of the [try] of [get_summary], from the decoded response. *)
Definition summary_of_response (body : json) : res json :=
  resp <-- py_get body "response" (JDict []) ;;
  players <-- py_get resp "players" (JList []) ;;
  if py_truthy players then py_index0 players else Ok (JDict []).

Definition get_summary (remote : Remote) (service : SteamService)
    (steamid64 : json) : M json :=
  if negb (PyStr.truthy (api_key service)) then ret (JDict [])
  else
    r <- http_get remote (GetPlayerSummaries (api_key service) steamid64) ;;
    ret match r with
        | None => JDict []
        | Some body =>
            match summary_of_response body with
            | Ok info => info
            | Raise _ => JDict []
            end
        end.

Definition fmt_ts (ts : json) : string :=
  match local_time ts with
  | Some text => text
  | None => py_str ts
  end.

Definition norm_alias (s : string) : string :=
  str_lower (PyStr.lstrip_at (str_strip s)).

(** The offset between a SteamID32 and its SteamID64. *)
Definition STEAMID64_BASE : Z := 76561197960265728.

Definition norm_identifier (remote : Remote) (service : SteamService)
    (s : string) : M (option string) :=
  let s := PyStr.lstrip_at (str_strip s) in
  if PyStr.is_empty s then ret None
  else if str_isdigit s then
    if 16 <=? PyStr.len s then ret (Some s)
    else
      match str_int s with
      | Some n => ret (Some (PyStr.of_int (n + STEAMID64_BASE)))
      | None => ret None
      end
  else resolve_vanity remote service s.

(** [bool(x)] for an [Optional[str]] *)
Definition opt_truthy (x : option string) : bool :=
  match x with
  | Some s => PyStr.truthy s
  | None => false
  end.

(* ---------------------------------------------------------------- *)
(** *** SteamCommand *)

Definition PERSONA_STATE : list (Z * string) :=
  [ (0, "离线"); (1, "在线"); (2, "忙碌"); (3, "离开");
    (4, "暂离（打盹）"); (5, "寻找交易"); (6, "寻找玩伴") ].

Fixpoint table_get (k : Z) (t : list (Z * string)) : option string :=
  match t with
  | [] => None
  | (k', v) :: t' => if k =? k' then Some v else table_get k t'
  end.

(** [PERSONA_STATE.get(state, default)]: a list or a dict is not hashable;
    [True] and [False] are the keys 1 and 0. *)
Definition persona_state_get (state : json) (default : string) : res string :=
  match state with
  | JInt n => Ok (match table_get n PERSONA_STATE with Some t => t | None => default end)
  | JBool b =>
      Ok (match table_get (if b then 1 else 0) PERSONA_STATE with
          | Some t => t
          | None => default
          end)
  | JList _ | JDict _ => Raise TypeError
  | JNull | JStr _ => Ok default
  end.

Definition MSG_NO_API_KEY : string := "请先配置 steam.api_key。".

Definition MSG_NO_BINDINGS : string :=
  "本群未绑定任何别名。" ++ PyStr.nl ++ "请使用：/steam link <别名> <steamid|vanity>".

Definition msg_unresolved (ident : string) : string :=
  "无法解析为 SteamID：" ++ ident.

Definition msg_bind_failed (steamid : string) : string :=
  "绑定失败：未能获取该账号信息（steamid: " ++ steamid ++ "）。".

Definition msg_alias_not_found (alias : string) : string :=
  "未找到别名：" ++ alias.

Definition msg_status_unavailable (sid : string) : string :=
  "未能获取到用户信息（steamid: " ++ sid ++ "），可能是隐私设置或 API 出错。".

Definition msg_whois_unavailable (alias sid : string) : string :=
  alias ++ " -> " ++ sid ++ PyStr.nl
    ++ "无法获取详细信息，可能隐私未公开或 API 出错。".

Definition msg_bound (alias personaname steamid : string) : string :=
  "已绑定：" ++ alias ++ " -> " ++ personaname ++ " (" ++ steamid ++ ")".

Definition msg_unbound (alias : string) : string := "已解除绑定：" ++ alias.

(** The record [do_link] stores under an alias. *)
Definition alias_record (steamid : string) (profileurl personaname : json)
    (created_at : Z) : json :=
  JDict [ ("steamid", JStr steamid);
          ("profileurl", profileurl);
          ("personaname", personaname);
          ("created_at", JInt created_at) ].

(** [store.setdefault(chat, {}).setdefault("aliases", {})] followed by
    [aliases[alias] = record]: the three dicts are updated in place, so the
    result is the store with the record under [alias]. *)
Definition store_bind (store : json) (chat alias : string) (record : res json)
  : res json :=
  match store with
  | JDict sd =>
      match (match PyDict.get chat sd with Some v => v | None => JDict [] end) with
      | JDict cd =>
          let aliases :=
            match PyDict.get "aliases" cd with Some v => v | None => JDict [] end in
          rec <-- record ;;
          match aliases with
          | JDict ad =>
              Ok (JDict (PyDict.set chat
                    (JDict (PyDict.set "aliases" (JDict (PyDict.set alias rec ad)) cd))
                    sd))
          | _ => Raise TypeError
          end
      | _ => Raise AttributeError
      end
  | _ => Raise AttributeError
  end.

(** The dict literal that [do_link] stores. *)
Definition link_record (steamid : string) (info : json) (now : Z) : res json :=
  profileurl <-- py_get info "profileurl" (JStr PyStr.empty) ;;
  personaname <-- py_get info "personaname" (JStr PyStr.empty) ;;
  Ok (alias_record steamid profileurl personaname now).

(** [now] is [int(datetime.now(timezone.utc).timestamp())]. *)
Definition do_link (remote : Remote) (now : Z) (chat : string)
    (alias ident : string) (service : SteamService) : M string :=
  if negb (PyStr.truthy (api_key service)) then ret MSG_NO_API_KEY
  else
    let alias := norm_alias alias in
    steamid <- norm_identifier remote service ident ;;
    if negb (opt_truthy steamid) then ret (msg_unresolved ident)
    else
      let steamid := match steamid with Some sid => sid | None => PyStr.empty end in
      info <- get_summary remote service (JStr steamid) ;;
      if negb (py_truthy info) then ret (msg_bind_failed steamid)
      else
        store <- _load_store ;;
        store' <- lift (store_bind store chat alias (link_record steamid info now)) ;;
        _ <- _save_store store' ;;
        personaname <- lift (py_get info "personaname" (JStr PyStr.empty)) ;;
        ret (msg_bound alias (py_str personaname) steamid).

(** [del aliases[alias]] inside the store: [aliases] is the dict held by the
    chat's scope, so the store loses the entry. *)
Definition store_unbind (store : json) (chat alias : string) : res json :=
  match store with
  | JDict sd =>
      match PyDict.get chat sd with
      | Some (JDict cd) =>
          match PyDict.get "aliases" cd with
          | Some aliases =>
              aliases' <-- py_delitem aliases alias ;;
              Ok (JDict (PyDict.set chat
                    (JDict (PyDict.set "aliases" aliases' cd)) sd))
          | None => Raise KeyError
          end
      | Some _ => Raise AttributeError
      | None => Raise KeyError
      end
  | _ => Raise AttributeError
  end.

Definition do_unlink (chat : string) (alias : string) : M string :=
  let alias := str_lower (PyStr.lstrip_at (str_strip alias)) in
  store <- _load_store ;;
  aliases <- lift (chat_aliases store chat) ;;
  present <- lift (py_contains alias aliases) ;;
  if negb present then ret (msg_alias_not_found alias)
  else
    store' <- lift (store_unbind store chat alias) ;;
    _ <- _save_store store' ;;
    ret (msg_unbound alias).

Definition list_line (entry : string * json) : res string :=
  let (a, v) := entry in
  personaname <-- py_get v "personaname" (JStr "-") ;;
  steamid <-- py_get v "steamid" JNull ;;
  Ok ("- " ++ a ++ " -> " ++ py_str personaname ++ " (" ++ py_str steamid ++ ")").

Definition do_list (chat : string) : M string :=
  store <- _load_store ;;
  aliases <- lift (chat_aliases store chat) ;;
  if negb (py_truthy aliases) then ret MSG_NO_BINDINGS
  else
    items <- lift (py_items aliases) ;;
    out <- lift (rmap list_line items) ;;
    ret (String.concat PyStr.nl ("本群绑定列表：" :: out)).

(** [... .get("aliases", {}).get(alias)] *)
Definition lookup_alias (store : json) (chat alias : string) : res json :=
  aliases <-- chat_aliases store chat ;;
  py_get aliases alias JNull.

(** The lines of [do_whois] once the summary is there. *)
Definition whois_lines (alias : string) (sid info : json) : res (list string) :=
  vis <-- py_get info "communityvisibilitystate" JNull ;;
  let privacy :=
    if py_eq_int vis 3 then PyStr.empty else "该用户资料未公开或部分未公开。" in
  personaname <-- py_get info "personaname" (JStr "<未公开>") ;;
  profileurl <-- py_get info "profileurl" JNull ;;
  Ok ((alias ++ " -> " ++ py_str personaname ++ "（" ++ py_str sid ++ "）")
      :: List.app (if py_truthy profileurl then ["档案: " ++ py_str profileurl] else [])
                  (if PyStr.truthy privacy then [privacy] else [])).

Definition do_whois (remote : Remote) (chat : string) (alias : string)
    (service : SteamService) : M string :=
  let alias := str_lower (PyStr.lstrip_at (str_strip alias)) in
  store <- _load_store ;;
  rec <- lift (lookup_alias store chat alias) ;;
  if negb (py_truthy rec) then ret (msg_alias_not_found alias)
  else
    sid <- lift (py_getitem rec "steamid") ;;
    info <- get_summary remote service sid ;;
    if negb (py_truthy info)
    then ret (msg_whois_unavailable alias (py_str sid))
    else
      lines <- lift (whois_lines alias sid info) ;;
      ret (String.concat PyStr.nl lines).

Definition STATUS_PRIVACY : string := "该用户的个人资料未公开，可用信息受限。".

Definition STATUS_UNDETERMINED : string := "状态: 无法判断（可能因隐私未公开）".

(** The list [parts] of [do_status] once the summary is there. *)
Definition status_parts (sid info : json) : res (list string) :=
  vis <-- py_get info "communityvisibilitystate" JNull ;;
  let privacy := if py_eq_int vis 3 then PyStr.empty else STATUS_PRIVACY in
  name <-- py_get info "personaname" (JStr "<未公开昵称>") ;;
  state <-- py_get info "personastate" JNull ;;
  profileurl <-- py_get info "profileurl" JNull ;;
  let head := "玩家: " ++ py_str name ++ "（" ++ py_str sid ++ "）" in
  let tail :=
    List.app (if py_truthy profileurl then ["档案: " ++ py_str profileurl] else [])
             (if PyStr.truthy privacy then [privacy] else []) in
  match state with
  | JNull => Ok (head :: STATUS_UNDETERMINED :: tail)
  | _ =>
      s_text <-- persona_state_get state ("未知状态(" ++ py_str state ++ ")") ;;
      gameextrainfo <-- py_get info "gameextrainfo" JNull ;;
      lastlogoff <-- py_get info "lastlogoff" JNull ;;
      Ok (head :: ("状态: " ++ s_text)
          :: List.app
               (if py_truthy gameextrainfo
                then ["当前游戏: " ++ py_str gameextrainfo] else [])
               (List.app
                  (if py_eq_int state 0 && py_truthy lastlogoff
                   then ["最后下线时间: " ++ fmt_ts lastlogoff] else [])
                  tail))
  end.

(** [do_status] from the point where [sid] is known. *)
Definition status_of (remote : Remote) (target : string)
    (service : SteamService) (sid : json) : M string :=
  if negb (py_truthy sid) then ret (msg_unresolved target)
  else
    info <- get_summary remote service sid ;;
    if negb (py_truthy info)
    then ret (msg_status_unavailable (py_str sid))
    else
      parts <- lift (status_parts sid info) ;;
      ret (String.concat PyStr.nl parts).

(** [norm_identifier]'s [Optional[str]] as a value *)
Definition of_optional (x : option string) : json :=
  match x with
  | Some s => JStr s
  | None => JNull
  end.

Definition do_status (remote : Remote) (chat : string) (target : string)
    (service : SteamService) : M string :=
  store <- _load_store ;;
  rec <- lift (lookup_alias store chat (norm_alias target)) ;;
  sid <- (if py_truthy rec then lift (py_getitem rec "steamid")
          else x <- norm_identifier remote service target ;; ret (of_optional x)) ;;
  status_of remote target service sid.

End Plugin.

(* ================================================================== *)
(** ** Specification-side definitions *)
(* ================================================================== *)

(** The integer a decimal numeral denotes, read by the standard library. *)
Definition decimal_value (s : string) : Z :=
  match NilZero.uint_of_string s with
  | Some d => Z.of_uint d
  | None => 0
  end.

(** The value of the digits [d] after the digits already read as [acc]. *)
Fixpoint uint_value (acc : Z) (d : uint) : Z :=
  match d with
  | Nil => acc
  | D0 l => uint_value (10 * acc + 0) l
  | D1 l => uint_value (10 * acc + 1) l
  | D2 l => uint_value (10 * acc + 2) l
  | D3 l => uint_value (10 * acc + 3) l
  | D4 l => uint_value (10 * acc + 4) l
  | D5 l => uint_value (10 * acc + 5) l
  | D6 l => uint_value (10 * acc + 6) l
  | D7 l => uint_value (10 * acc + 7) l
  | D8 l => uint_value (10 * acc + 8) l
  | D9 l => uint_value (10 * acc + 9) l
  end.

(** The store a handler reads from the world: what [_load_store] returns. *)
Definition current_store {RT : Runtime} (w : World) : json :=
  match disk w with
  | None => JDict []
  | Some doc =>
      match json_load doc with
      | Some store => store
      | None => JDict []
      end
  end.

(** The documents written to [DATA_FILE] along a trace. *)
Fixpoint file_writes {RT : Runtime} (t : list Event) : list document :=
  match t with
  | [] => []
  | FileWrite doc :: t' => doc :: file_writes t'
  | HttpGet _ :: t' => file_writes t'
  end.

(** The requests sent to the remote API along a trace. *)
Fixpoint http_requests {RT : Runtime} (t : list Event) : list Request :=
  match t with
  | [] => []
  | HttpGet req :: t' => req :: http_requests t'
  | FileWrite _ :: t' => http_requests t'
  end.

Definition is_vanity_request (req : Request) : bool :=
  match req with
  | ResolveVanityURL _ _ => true
  | GetPlayerSummaries _ _ => false
  end.

(** A world reached without writing the store. *)
Definition reads_only {RT : Runtime} (w w' : World) : Prop :=
  disk w' = disk w /\ file_writes (trace w') = file_writes (trace w).

(** Some line of [parts] starts with [pfx]. *)
Definition has_line (pfx : string) (parts : list string) : bool :=
  existsb (PyStr.startswith pfx) parts.

Definition LINE_PLAYING : string := "当前游戏: ".
Definition LINE_LAST_LOGOFF : string := "最后下线时间: ".
Definition LINE_STATE : string := "状态: ".

(** The persona-state table of the specification: the codes 0..6, and the
    label of a code outside it. *)
Definition persona_label (code : Z) : string :=
  match code with
  | 0 => "离线"
  | 1 => "在线"
  | 2 => "忙碌"
  | 3 => "离开"
  | 4 => "暂离（打盹）"
  | 5 => "寻找交易"
  | 6 => "寻找玩伴"
  | _ => "未知状态(" ++ PyStr.of_int code ++ ")"
  end.

(** [info.get(k, default)] with the empty string as default, for a summary
    that is a dict. *)
Definition summary_field (k : string) (info : list (string * json)) : json :=
  match PyDict.get k info with
  | Some v => v
  | None => JStr PyStr.empty
  end.

(** A store with one binding, "foo", in the chat "g". *)
Definition sample_store : json :=
  JDict [ ("g", JDict [ ("aliases",
      JDict [ ("foo", alias_record "76561197960265729"
                        (JStr "https://steamcommunity.com/id/foo/")
                        (JStr "Foo") 100) ]) ]) ].

(** The service of a command configured with [key], on [sample_runtime]. *)
Definition sample_service (key : string) : SteamService :=
  new_service (RT := sample_runtime) key.

Definition sample_world : World (RT := sample_runtime) :=
  mkWorld (Some (json_dump sample_store)) [].

(** A public, offline player. *)
Definition sample_player (sid : json) : list (string * json) :=
  [ ("steamid", sid);
    ("communityvisibilitystate", JInt 3);
    ("personaname", JStr "Gabe");
    ("profileurl", JStr "https://steamcommunity.com/id/gabe/");
    ("personastate", JInt 0);
    ("lastlogoff", JInt 1700000000) ].

(** An offline player whose [lastlogoff] is 0 and [gameextrainfo] is the
    empty string. *)
Definition blank_player : list (string * json) :=
  [ ("personaname", JStr "Gabe");
    ("personastate", JInt 0);
    ("lastlogoff", JInt 0);
    ("gameextrainfo", JStr EmptyString) ].



Definition blank_remote : Remote :=
  fun _ => Some (JDict [ ("response", JDict [ ("players",
                   JList [ JDict blank_player ]) ]) ]).

(** [info.get(k)] is present and truthy. *)
Definition field_truthy (k : string) (info : list (string * json)) : bool :=
  match PyDict.get k info with
  | Some v => py_truthy v
  | None => false
  end.

(** [info.get(k)] *)
Definition field (k : string) (info : list (string * json)) : json :=
  match PyDict.get k info with
  | Some v => v
  | None => JNull
  end.

(** A remote API that knows the vanity name "gabe" and answers every
    summary request with one public, offline player. *)
Definition sample_remote : Remote :=
  fun req =>
    match req with
    | ResolveVanityURL _ v =>
        if String.eqb v "gabe"
        then Some (JDict [ ("response",
               JDict [ ("success", JInt 1);
                       ("steamid", JStr "76561197960287930") ]) ])
        else Some (JDict [ ("response", JDict [ ("success", JInt 42) ]) ])
    | GetPlayerSummaries _ sid =>
        Some (JDict [ ("response", JDict [ ("players",
          JList [ JDict (sample_player sid) ]) ]) ])
    end.

(** How [do_status] comes to the SteamID it queries, and the world [w1] it
    is then in: the [steamid] of the record bound to the normalized target,
    or else, the target not being bound, what [norm_identifier] makes of
    the raw target. *)
Definition resolves_target {RT : Runtime} (remote : Remote)
    (chat target : string) (service : SteamService) (w : World)
    (sid : json) (w1 : World) : Prop :=
  (exists r,
      lookup_alias (current_store w) chat (norm_alias target) = Ok (JDict r) /\
      PyDict.get "steamid" r = Some sid /\
      w1 = w) \/
  (exists recv x,
      lookup_alias (current_store w) chat (norm_alias target) = Ok recv /\
      py_truthy recv = false /\
      norm_identifier remote service target w = (Ok x, w1) /\
      sid = of_optional x).



(** The shape of the stores the plugin writes: a dict of chat scopes, each
    a dict whose "aliases", when there, is a dict. *)
Definition scope_shaped (scope : json) : Prop :=
  exists cd, scope = JDict cd /\
    forall al, PyDict.get "aliases" cd = Some al -> exists d, al = JDict d.

Definition store_shaped (store : json) : Prop :=
  exists sd, store = JDict sd /\
    forall chat scope, PyDict.get chat sd = Some scope -> scope_shaped scope.

(** A string made of the characters '0'..'9', at least one. *)
Definition decimal_digits (s : string) : Prop :=
  s <> EmptyString /\ PyStr.all_chars PyStr.is_decimal_char s = true.

(* ================================================================== *)
(** ** Chat key and command dispatch *)
(* ================================================================== *)

(** What [_get_chat_key] is called with: a plain value (a dict, or a value
    of a built-in type, which has no attribute [context]), or an object of
    another class, with its attribute [context] when it has one.  The
    values held are JSON-like. *)
Inductive PyObject : Type :=
| Value (v : json)
| Instance (context : option json).

(** The keys [_get_chat_key] tries, in this order. *)
Definition CHAT_KEYS : list string :=
  [ "chat_id"; "chat"; "group_id"; "room_id"; "channel_id";
    "conversation_id" ].

(** [ctx_or_msg if isinstance(ctx_or_msg, dict) else
    getattr(ctx_or_msg, "context", {})] *)
Definition chat_candidate (c : PyObject) : json :=
  match c with
  | Value (JDict d) => JDict d
  | Value _ => JDict []
  | Instance (Some v) => v
  | Instance None => JDict []
  end.

Section ChatKey.

Context {RT : Runtime}.

(** The [for] loop of [_get_chat_key]: [(candidate or {}).get(k)] raises
    when the candidate is truthy and not a dict. *)
Fixpoint first_chat_id (keys : list string) (candidate : json)
  : res (option string) :=
  match keys with
  | [] => Ok None
  | k :: keys' =>
      v <-- py_get (if py_truthy candidate then candidate else JDict []) k JNull ;;
      if py_truthy v then Ok (Some (py_str v))
      else first_chat_id keys' candidate
  end.

Definition _get_chat_key (ctx_or_msg : PyObject) : string :=
  match first_chat_id CHAT_KEYS (chat_candidate ctx_or_msg) with
  | Ok (Some chat) => chat
  | Ok None => "global"
  | Raise _ => "global"
  end.

Definition help_text : string :=
  String.concat PyStr.nl
    [ "Steam 插件帮助";
      "- /steam help 查看帮助";
      "- /steam link <别名> <steamid|vanity> 绑定别名";
      "- /steam unlink <别名> 解绑别名";
      "- /steam list 查看本群所有绑定";
      "- /steam status <别名|steamid|vanity> 查询在线状态";
      "- /steam whois <别名> 查看绑定详情";
      "请在配置中填写 steam.api_key（https://steamcommunity.com/dev/apikey），并将 plugin.enabled = true。" ].

Definition MSG_USAGE : string := "用法不正确。输入 /steam help 查看帮助。".

(** The command object when [execute] starts: it has an attribute
    [context], or it has not and may have an attribute [event]. *)
Inductive CommandSelf : Type :=
| WithContext (context : PyObject)
| WithEvent (event : option json).

(** [self.context] after the [if not hasattr(self, "context")] of
    [execute]. *)
Definition self_context (self : CommandSelf) : res PyObject :=
  match self with
  | WithContext c => Ok c
  | WithEvent None => Ok (Value (JDict []))
  | WithEvent (Some event) =>
      c <-- py_get event "context" (JDict []) ;; Ok (Value c)
  end.

(** [x or ""] for a group of [matched_groups] *)
Definition or_empty (x : option string) : string :=
  match x with
  | Some s => s
  | None => PyStr.empty
  end.

Definition RESULT_OK : bool * string * bool := (true, "ok", true).
Definition RESULT_BAD_ARGS : bool * string * bool := (false, "bad-args", true).

(** [execute]: the text given to [send_text] and the tuple returned.
    [config_key] is [self.get_config("steam.api_key", "")]; [sub], [a], [b]
    are the groups of [self.matched_groups]. *)
Definition execute (remote : Remote) (now : Z) (self : CommandSelf)
    (config_key : string) (sub a b : option string)
  : World -> res (string * (bool * string * bool)) * World :=
  let service := new_service config_key in
  let sub := str_lower (or_empty sub) in
  let a := or_empty a in
  let b := or_empty b in
  bind (lift (self_context self)) (fun context =>
  let chat := _get_chat_key context in
  if String.eqb sub "help" || negb (PyStr.truthy sub)
  then ret (help_text, RESULT_OK)
  else if String.eqb sub "list"
  then bind (do_list chat) (fun text => ret (text, RESULT_OK))
  else if String.eqb sub "unlink" && PyStr.truthy a
  then bind (do_unlink chat a) (fun text => ret (text, RESULT_OK))
  else if String.eqb sub "whois" && PyStr.truthy a
  then bind (do_whois remote chat a service) (fun text => ret (text, RESULT_OK))
  else if String.eqb sub "link" && PyStr.truthy a && PyStr.truthy b
  then bind (do_link remote now chat a b service)
         (fun text => ret (text, RESULT_OK))
  else if String.eqb sub "status" && PyStr.truthy a
  then bind (do_status remote chat a service)
         (fun text => ret (text, RESULT_OK))
  else ret (MSG_USAGE, RESULT_BAD_ARGS)).

End ChatKey.

(** The subcommands of [execute] and the arguments each needs. *)
Definition request_accepted (sub a b : string) : bool :=
  String.eqb sub "help" || PyStr.is_empty sub || String.eqb sub "list"
  || (String.eqb sub "unlink" || String.eqb sub "whois"
      || String.eqb sub "status") && PyStr.truthy a
  || String.eqb sub "link" && PyStr.truthy a && PyStr.truthy b.

(** The credential a request carries. *)
Definition request_key (req : Request) : string :=
  match req with
  | ResolveVanityURL key _ => key
  | GetPlayerSummaries key _ => key
  end.

(** The requests sent between the world [w] and the later world [w'], the
    latest first. *)
Definition sent_between {RT : Runtime} (w w' : World) (l : list Request)
  : Prop :=
  http_requests (trace w') = (l ++ http_requests (trace w))%list.

(** From [w] to [w'] the requests [l] were sent (the latest first) and
    nothing else happened: no write, [DATA_FILE] as it was. *)
Definition requested {RT : Runtime} (w w' : World) (l : list Request) : Prop :=
  disk w' = disk w /\ trace w' = (map HttpGet l ++ trace w)%list.

(** The request carries the credential of the service, which is set. *)
Definition carries_key (service : SteamService) (req : Request) : Prop :=
  request_key req = api_key service /\ api_key service <> EmptyString.

(** The replies with which [do_link] reports a failure. *)
Definition link_failure_reply (ident reply : string) : Prop :=
  reply = MSG_NO_API_KEY \/ reply = msg_unresolved ident \/
  exists sid, reply = msg_bind_failed sid.

(** A remote API whose player list holds a string where a player object
    is expected. *)
Definition string_players_remote : Remote :=
  fun _ => Some (JDict [ ("response", JDict [ ("players",
                   JList [ JStr "unexpected" ]) ]) ]).

(** An ASCII upper-case letter. *)
Definition is_upper_char (c : ascii) : bool :=
  let n := nat_of_ascii c in ((65 <=? n) && (n <=? 90))%nat.

(** No character of [s] is an ASCII whitespace: for an ASCII [s], what a
    group matched by [\S+] is. *)
Definition no_whitespace (s : string) : bool :=
  PyStr.all_chars (fun c => negb (PyStr.ascii_isspace c)) s.

(** The first character of [s] is not '@'. *)
Definition no_leading_at (s : string) : bool :=
  match s with
  | EmptyString => true
  | String c _ => negb (Ascii.eqb c "@")
  end.

(** The stores the plugin writes, in full: shaped, and every alias is
    bound to a dict with a "steamid". *)
Definition record_wf (v : json) : Prop :=
  exists r sid, v = JDict r /\ PyDict.get "steamid" r = Some sid.

Definition store_wf (store : json) : Prop :=
  store_shaped store /\
  forall chat d, chat_aliases store chat = Ok (JDict d) ->
    forall a v, PyDict.get a d = Some v -> record_wf v.

(** The line of [do_list] for a binding whose record is the dict [r]. *)
Definition list_entry {RT : Runtime} (a : string) (r : list (string * json))
  : string :=
  "- " ++ a ++ " -> "
    ++ py_str (match PyDict.get "personaname" r with
               | Some v => v
               | None => JStr "-"
               end)
    ++ " (" ++ py_str (field "steamid" r) ++ ")".

(* ================================================================== *)
(** ** Decimal numerals *)
(* ================================================================== *)

Lemma of_uint_acc_value (d : uint) (p : positive) :
  Z.pos (Pos.of_uint_acc d p) = uint_value (Z.pos p) d.
Proof.
  revert p.
  induction d; intro p; cbn [Pos.of_uint_acc uint_value];
    try reflexivity; rewrite IHd; f_equal; lia.
Qed.

Lemma of_uint_value (d : uint) : Z.of_uint d = uint_value 0 d.
Proof.
  unfold Z.of_uint.
  induction d; simpl; try reflexivity; try apply IHd;
    apply of_uint_acc_value.
Qed.

Lemma int_acc_string_of_uint (d : uint) (acc : Z) :
  PyStr.decimal_acc acc (NilEmpty.string_of_uint d) = Some (uint_value acc d).
Proof.
  revert acc.
  induction d; intro acc; simpl; try reflexivity; apply IHd.
Qed.

Lemma digit_char_cases (c : ascii) :
  PyStr.is_decimal_char c = true ->
  exists f : uint -> uint,
    (forall d, uint_of_char c (Some d) = Some (f d)) /\
    (forall acc d, uint_value acc (f d)
                   = uint_value (10 * acc + PyStr.digit_value c) d).
Proof.
  destruct c as [[|] [|] [|] [|] [|] [|] [|] [|]]; intro H;
    try discriminate H.
  all: first
    [ exists D0; split; reflexivity | exists D1; split; reflexivity
    | exists D2; split; reflexivity | exists D3; split; reflexivity
    | exists D4; split; reflexivity | exists D5; split; reflexivity
    | exists D6; split; reflexivity | exists D7; split; reflexivity
    | exists D8; split; reflexivity | exists D9; split; reflexivity ].
Qed.

Lemma int_acc_digits (s : string) :
  PyStr.all_chars PyStr.is_decimal_char s = true ->
  exists d, NilEmpty.uint_of_string s = Some d /\
            forall acc, PyStr.decimal_acc acc s = Some (uint_value acc d).
Proof.
  induction s as [|c s IH]; simpl.
  - intros _. exists Nil. split; reflexivity.
  - intro H. apply andb_prop in H. destruct H as [Hc Hs].
    destruct (IH Hs) as [d [Hd Hacc]].
    destruct (digit_char_cases c Hc) as [f [Hf Hv]].
    exists (f d). split.
    + rewrite Hd. apply Hf.
    + intro acc. rewrite Hc, Hacc, Hv. reflexivity.
Qed.

(** [int(s)] succeeds on every string of decimal digits, with the value
    the numeral denotes. *)
Lemma int_decimal_value (s : string) :
  decimal_digits s -> PyStr.decimal_int s = Some (decimal_value s).
Proof.
  intros [Hne Hall].
  destruct (int_acc_digits s Hall) as [d [Hd Hacc]].
  unfold PyStr.decimal_int, decimal_value, NilZero.uint_of_string.
  destruct s as [|c s]; [congruence|].
  simpl PyStr.is_empty. cbv iota.
  rewrite Hd, Hacc, of_uint_value. reflexivity.
Qed.

Lemma string_of_uint_nonnil (d : uint) :
  d <> Nil ->
  NilZero.string_of_uint d = NilEmpty.string_of_uint d /\
  PyStr.is_empty (NilEmpty.string_of_uint d) = false.
Proof.
  destruct d; intro H; try congruence; split; reflexivity.
Qed.

(** [str] and [int] are inverse on the naturals: [str(n)] is the decimal
    numeral of [n]. *)
Lemma int_of_int (n : Z) : 0 <= n -> PyStr.decimal_int (PyStr.of_int n) = Some n.
Proof.
  intro Hn. unfold PyStr.of_int.
  destruct n as [|p|p]; [reflexivity| |lia].
  cbn [Z.to_int NilZero.string_of_int].
  destruct (string_of_uint_nonnil _ (DecimalPos.Unsigned.to_uint_nonnil p))
    as [Heq Hne].
  unfold PyStr.decimal_int. rewrite Heq, Hne.
  rewrite int_acc_string_of_uint, <- of_uint_value.
  unfold Z.of_uint. rewrite DecimalPos.Unsigned.of_to. reflexivity.
Qed.

Lemma decimal_value_nonneg (s : string) : 0 <= decimal_value s.
Proof.
  unfold decimal_value.
  destruct (NilZero.uint_of_string s); [|lia].
  unfold Z.of_uint. apply N2Z.is_nonneg.
Qed.

Lemma decimal_digits_isdigit (s : string) :
  decimal_digits s -> PyStr.is_empty s = false /\ PyStr.ascii_isdigit s = true.
Proof.
  intros [Hne Hall]. unfold PyStr.ascii_isdigit.
  destruct s; [congruence|]. rewrite Hall. split; reflexivity.
Qed.

(* ================================================================== *)
(** ** Dictionaries *)
(* ================================================================== *)

Module PyDictFacts.

Import PyDict.

Lemma get_set_same k v d : get k (set k v d) = Some v.
Proof.
  induction d as [|[k' v'] d IH]; simpl.
  - rewrite String.eqb_refl. reflexivity.
  - destruct (String.eqb k k') eqn:E; simpl.
    + rewrite String.eqb_refl. reflexivity.
    + rewrite E. exact IH.
Qed.

Lemma get_set_other k k' v d : k' <> k -> get k' (set k v d) = get k' d.
Proof.
  intro Hne.
  induction d as [|[k0 v0] d IH]; simpl.
  - apply String.eqb_neq in Hne. rewrite Hne. reflexivity.
  - destruct (String.eqb k k0) eqn:E; simpl.
    + apply String.eqb_eq in E. subst k0.
      apply String.eqb_neq in Hne. rewrite Hne. reflexivity.
    + rewrite IH. reflexivity.
Qed.

Lemma get_del_same k d : get k (del k d) = None.
Proof.
  unfold del.
  induction d as [|[k' v'] d IH]; simpl; [reflexivity|].
  destruct (String.eqb k k') eqn:E; simpl; [exact IH|].
  rewrite E. exact IH.
Qed.

Lemma get_del_other k k' d : k' <> k -> get k' (del k d) = get k' d.
Proof.
  intro Hne. unfold del.
  induction d as [|[k0 v0] d IH]; simpl; [reflexivity|].
  destruct (String.eqb k k0) eqn:E; simpl.
  - apply String.eqb_eq in E. subst k0.
    apply String.eqb_neq in Hne. rewrite Hne. exact IH.
  - rewrite IH. reflexivity.
Qed.

Lemma count_del k d : count k (del k d) = 0%nat.
Proof.
  unfold count, del.
  induction d as [|[k' v'] d IH]; simpl; [reflexivity|].
  destruct (String.eqb k k') eqn:E; simpl; [exact IH|].
  rewrite E. exact IH.
Qed.


Lemma get_absent k d : ~ In k (map fst d) -> get k d = None.
Proof.
  induction d as [|[k' v'] d IH]; simpl; intro H; [reflexivity|].
  destruct (String.eqb k k') eqn:E.
  - apply String.eqb_eq in E. subst k'. exfalso. apply H. left. reflexivity.
  - apply IH. intro Hin. apply H. right. exact Hin.
Qed.




Lemma unique_keys_del k d : unique_keys d -> unique_keys (del k d).
Proof.
  unfold unique_keys, del.
  induction d as [|[k' v'] d IH]; simpl; intro H; [constructor|].
  inversion H as [|? ? Hnotin Hnd]; subst.
  destruct (String.eqb k k'); simpl; [apply IH; exact Hnd|].
  constructor; [|apply IH; exact Hnd].
  intro Hin. apply Hnotin.
  apply in_map_iff in Hin. destruct Hin as [e [He Hf]].
  apply filter_In in Hf. destruct Hf as [Hf _].
  apply in_map_iff. exists e. split; assumption.
Qed.


End PyDictFacts.

(* ================================================================== *)
(** ** ASCII text *)
(* ================================================================== *)

Lemma lower_char_facts (c : ascii) :
  PyStr.ascii_isspace (PyStr.ascii_lower_char c) = PyStr.ascii_isspace c /\
  Ascii.eqb (PyStr.ascii_lower_char c) "@" = Ascii.eqb c "@" /\
  PyStr.ascii_lower_char (PyStr.ascii_lower_char c) = PyStr.ascii_lower_char c /\
  is_upper_char (PyStr.ascii_lower_char c) = false.
Proof.
  destruct c as [[|] [|] [|] [|] [|] [|] [|] [|]]; repeat split.
Qed.

Lemma lower_is_empty s : PyStr.is_empty (PyStr.ascii_lower s) = PyStr.is_empty s.
Proof. destruct s; reflexivity. Qed.

Lemma lower_idem s : PyStr.ascii_lower (PyStr.ascii_lower s) = PyStr.ascii_lower s.
Proof.
  induction s as [|c s IH]; [reflexivity|]. cbn [PyStr.ascii_lower].
  rewrite IH. destruct (lower_char_facts c) as [_ [_ [-> _]]]. reflexivity.
Qed.

Lemma lower_lstrip s : PyStr.ascii_lstrip (PyStr.ascii_lower s) = PyStr.ascii_lower (PyStr.ascii_lstrip s).
Proof.
  induction s as [|c s IH]; [reflexivity|]. cbn [PyStr.ascii_lower PyStr.ascii_lstrip].
  destruct (lower_char_facts c) as [-> _].
  destruct (PyStr.ascii_isspace c); [exact IH | reflexivity].
Qed.

Lemma lower_rstrip s : PyStr.ascii_rstrip (PyStr.ascii_lower s) = PyStr.ascii_lower (PyStr.ascii_rstrip s).
Proof.
  induction s as [|c s IH]; [reflexivity|]. cbn [PyStr.ascii_lower PyStr.ascii_rstrip].
  cbv zeta. rewrite IH, lower_is_empty.
  destruct (lower_char_facts c) as [-> _].
  destruct (PyStr.ascii_isspace c && PyStr.is_empty (PyStr.ascii_rstrip s)); reflexivity.
Qed.

Lemma lower_lstrip_at s :
  PyStr.lstrip_at (PyStr.ascii_lower s) = PyStr.ascii_lower (PyStr.lstrip_at s).
Proof.
  induction s as [|c s IH]; [reflexivity|]. cbn [PyStr.ascii_lower PyStr.lstrip_at].
  destruct (lower_char_facts c) as [_ [-> _]].
  destruct (Ascii.eqb c "@"); [exact IH | reflexivity].
Qed.

Lemma lstrip_at_no_leading_at s : no_leading_at (PyStr.lstrip_at s) = true.
Proof.
  induction s as [|c s IH]; [reflexivity|]. cbn [PyStr.lstrip_at].
  destruct (Ascii.eqb c "@") eqn:E; [exact IH|]. cbn [no_leading_at].
  rewrite E. reflexivity.
Qed.

Lemma lower_no_leading_at s :
  no_leading_at (PyStr.ascii_lower s) = no_leading_at s.
Proof.
  destruct s as [|c s]; [reflexivity|]. cbn [PyStr.ascii_lower no_leading_at].
  destruct (lower_char_facts c) as [_ [-> _]]. reflexivity.
Qed.

Lemma lower_no_upper s :
  PyStr.all_chars (fun c => negb (is_upper_char c)) (PyStr.ascii_lower s) = true.
Proof.
  induction s as [|c s IH]; [reflexivity|]. cbn [PyStr.ascii_lower PyStr.all_chars].
  destruct (lower_char_facts c) as [_ [_ [_ ->]]]. exact IH.
Qed.

Lemma no_whitespace_lstrip s : no_whitespace s = true -> PyStr.ascii_lstrip s = s.
Proof.
  destruct s as [|c s]; [reflexivity|]. unfold no_whitespace.
  cbn [PyStr.all_chars PyStr.ascii_lstrip]. intro H.
  apply andb_prop in H. destruct H as [Hc _].
  destruct (PyStr.ascii_isspace c); [discriminate Hc | reflexivity].
Qed.

Lemma no_whitespace_rstrip s : no_whitespace s = true -> PyStr.ascii_rstrip s = s.
Proof.
  unfold no_whitespace.
  induction s as [|c s IH]; [reflexivity|].
  cbn [PyStr.all_chars PyStr.ascii_rstrip]. intro H.
  apply andb_prop in H. destruct H as [Hc Hs]. cbv zeta. rewrite (IH Hs).
  destruct (PyStr.ascii_isspace c); [discriminate Hc | reflexivity].
Qed.

Lemma no_whitespace_strip s : no_whitespace s = true -> PyStr.ascii_strip s = s.
Proof.
  intro H. unfold PyStr.ascii_strip.
  rewrite (no_whitespace_lstrip s H). apply no_whitespace_rstrip. exact H.
Qed.

Lemma no_whitespace_lstrip_at s :
  no_whitespace s = true -> no_whitespace (PyStr.lstrip_at s) = true.
Proof.
  unfold no_whitespace.
  induction s as [|c s IH]; [reflexivity|].
  cbn [PyStr.all_chars PyStr.lstrip_at]. intro H.
  destruct (Ascii.eqb c "@"); [|exact H].
  apply andb_prop in H. apply IH. apply H.
Qed.

Lemma no_whitespace_lower s :
  no_whitespace (PyStr.ascii_lower s) = no_whitespace s.
Proof.
  unfold no_whitespace.
  induction s as [|c s IH]; [reflexivity|].
  cbn [PyStr.ascii_lower PyStr.all_chars].
  destruct (lower_char_facts c) as [-> _]. rewrite IH. reflexivity.
Qed.

Lemma no_leading_at_lstrip_at s :
  no_leading_at s = true -> PyStr.lstrip_at s = s.
Proof.
  destruct s as [|c s]; [reflexivity|]. cbn [no_leading_at PyStr.lstrip_at].
  destruct (Ascii.eqb c "@"); [discriminate | reflexivity].
Qed.

Lemma digit_char_plain (c : ascii) :
  PyStr.is_decimal_char c = true ->
  PyStr.ascii_isspace c = false /\ Ascii.eqb c "@" = false /\
  0 <= PyStr.digit_value c <= 9.
Proof.
  destruct c as [[|] [|] [|] [|] [|] [|] [|] [|]]; intro H;
    try discriminate H; repeat split; unfold PyStr.digit_value; simpl; lia.
Qed.

Lemma digits_no_whitespace s :
  PyStr.all_chars PyStr.is_decimal_char s = true -> no_whitespace s = true.
Proof.
  unfold no_whitespace.
  induction s as [|c s IH]; [reflexivity|]. cbn [PyStr.all_chars].
  intro H. apply andb_prop in H. destruct H as [Hc Hs].
  destruct (digit_char_plain c Hc) as [-> _]. exact (IH Hs).
Qed.

Lemma digits_no_leading_at s :
  PyStr.all_chars PyStr.is_decimal_char s = true -> no_leading_at s = true.
Proof.
  destruct s as [|c s]; [reflexivity|]. cbn [PyStr.all_chars no_leading_at].
  intro H. apply andb_prop in H. destruct H as [Hc _].
  destruct (digit_char_plain c Hc) as [_ [-> _]]. reflexivity.
Qed.

(** A string of digits is what [strip] and [lstrip("@")] leave of it. *)
Lemma digits_stripped s :
  PyStr.all_chars PyStr.is_decimal_char s = true ->
  PyStr.lstrip_at (PyStr.ascii_strip s) = s.
Proof.
  intro H. rewrite (no_whitespace_strip s (digits_no_whitespace s H)).
  apply no_leading_at_lstrip_at, digits_no_leading_at. exact H.
Qed.

Lemma all_chars_lstrip p s :
  PyStr.all_chars p s = true -> PyStr.all_chars p (PyStr.ascii_lstrip s) = true.
Proof.
  induction s as [|c s IH]; [reflexivity|]. cbn [PyStr.ascii_lstrip].
  intro H. destruct (PyStr.ascii_isspace c); [|exact H].
  cbn [PyStr.all_chars] in H. apply andb_prop in H. apply IH, H.
Qed.

Lemma all_chars_rstrip p s :
  PyStr.all_chars p s = true -> PyStr.all_chars p (PyStr.ascii_rstrip s) = true.
Proof.
  induction s as [|c s IH]; [reflexivity|].
  cbn [PyStr.ascii_rstrip PyStr.all_chars]. cbv zeta. intro H.
  apply andb_prop in H. destruct H as [Hc Hs].
  destruct (PyStr.ascii_isspace c && PyStr.is_empty (PyStr.ascii_rstrip s));
    [reflexivity|].
  cbn [PyStr.all_chars]. rewrite Hc. exact (IH Hs).
Qed.

Lemma all_chars_lstrip_at p s :
  PyStr.all_chars p s = true -> PyStr.all_chars p (PyStr.lstrip_at s) = true.
Proof.
  induction s as [|c s IH]; [reflexivity|]. cbn [PyStr.lstrip_at].
  intro H. destruct (Ascii.eqb c "@"); [|exact H].
  cbn [PyStr.all_chars] in H. apply andb_prop in H. apply IH, H.
Qed.

Lemma is_ascii_strip s :
  PyStr.is_ascii s = true -> PyStr.is_ascii (PyStr.ascii_strip s) = true.
Proof.
  intro H. unfold PyStr.is_ascii, PyStr.ascii_strip.
  apply all_chars_rstrip, all_chars_lstrip. exact H.
Qed.

Lemma decimal_char_ascii (c : ascii) :
  PyStr.is_decimal_char c = true ->
  PyStr.is_ascii_char c = true /\ PyStr.is_continuation c = false.
Proof.
  destruct c as [[|] [|] [|] [|] [|] [|] [|] [|]]; intro H;
    try discriminate H; split; reflexivity.
Qed.

Lemma digits_ascii s :
  PyStr.all_chars PyStr.is_decimal_char s = true -> PyStr.is_ascii s = true.
Proof.
  unfold PyStr.is_ascii.
  induction s as [|c s IH]; [reflexivity|]. cbn [PyStr.all_chars].
  intro H. apply andb_prop in H. destruct H as [Hc Hs].
  destruct (decimal_char_ascii c Hc) as [-> _]. exact (IH Hs).
Qed.

(** A string of digits has as many characters as bytes. *)
Lemma digits_len s :
  PyStr.all_chars PyStr.is_decimal_char s = true ->
  PyStr.len s = Z.of_nat (String.length s).
Proof.
  unfold PyStr.len. intro H. f_equal.
  induction s as [|c s IH]; [reflexivity|].
  cbn [PyStr.all_chars] in H. apply andb_prop in H. destruct H as [Hc Hs].
  cbn [PyStr.code_points String.length].
  destruct (decimal_char_ascii c Hc) as [_ ->]. rewrite (IH Hs). reflexivity.
Qed.

Lemma append_assoc (a b c : string) : (a ++ b) ++ c = a ++ (b ++ c).
Proof.
  induction a as [|x a IH]; [reflexivity|]. cbn [String.append].
  rewrite IH. reflexivity.
Qed.

Lemma all_chars_app p a b :
  PyStr.all_chars p (a ++ b) = PyStr.all_chars p a && PyStr.all_chars p b.
Proof.
  induction a as [|x a IH]; [reflexivity|].
  cbn [String.append PyStr.all_chars]. rewrite IH. apply andb_assoc.
Qed.

Lemma all_chars_weaken (p q : ascii -> bool) s :
  (forall c, p c = true -> q c = true) ->
  PyStr.all_chars p s = true -> PyStr.all_chars q s = true.
Proof.
  intro Hpq. induction s as [|c s IH]; [reflexivity|].
  cbn [PyStr.all_chars]. intro H. apply andb_prop in H. destruct H as [Hc Hs].
  rewrite (Hpq c Hc). exact (IH Hs).
Qed.

Lemma space_char_ascii (c : ascii) :
  PyStr.ascii_isspace c = true -> PyStr.is_ascii_char c = true.
Proof.
  destruct c as [[|] [|] [|] [|] [|] [|] [|] [|]]; intro H;
    try discriminate H; reflexivity.
Qed.

Lemma at_char_plain (c : ascii) :
  Ascii.eqb c "@" = true ->
  PyStr.is_ascii_char c = true /\ PyStr.ascii_isspace c = false.
Proof.
  intro H. apply Ascii.eqb_eq in H. subst c. split; reflexivity.
Qed.

Lemma lstrip_app_space l s :
  PyStr.all_chars PyStr.ascii_isspace l = true ->
  PyStr.ascii_lstrip (l ++ s) = PyStr.ascii_lstrip s.
Proof.
  induction l as [|c l IH]; [reflexivity|].
  cbn [PyStr.all_chars String.append PyStr.ascii_lstrip]. intro H.
  apply andb_prop in H. destruct H as [-> Hl]. exact (IH Hl).
Qed.

Lemma lstrip_space r :
  PyStr.all_chars PyStr.ascii_isspace r = true ->
  PyStr.ascii_lstrip r = EmptyString.
Proof.
  induction r as [|c r IH]; [reflexivity|].
  cbn [PyStr.all_chars PyStr.ascii_lstrip]. intro H.
  apply andb_prop in H. destruct H as [-> Hr]. exact (IH Hr).
Qed.

Lemma rstrip_space r :
  PyStr.all_chars PyStr.ascii_isspace r = true ->
  PyStr.ascii_rstrip r = EmptyString.
Proof.
  induction r as [|c r IH]; [reflexivity|].
  cbn [PyStr.all_chars PyStr.ascii_rstrip]. intro H.
  apply andb_prop in H. destruct H as [Hc Hr]. cbv zeta.
  rewrite (IH Hr), Hc. reflexivity.
Qed.

Lemma rstrip_app_space y r :
  PyStr.all_chars PyStr.ascii_isspace r = true ->
  PyStr.ascii_rstrip (y ++ r) = PyStr.ascii_rstrip y.
Proof.
  intro H. induction y as [|c y IH]; [apply rstrip_space; exact H|].
  cbn [String.append PyStr.ascii_rstrip]. cbv zeta. rewrite IH. reflexivity.
Qed.

(** [strip] removes the whitespace around a text that holds none. *)
Lemma strip_padded l y r :
  PyStr.all_chars PyStr.ascii_isspace l = true ->
  no_whitespace y = true ->
  PyStr.all_chars PyStr.ascii_isspace r = true ->
  PyStr.ascii_strip (l ++ y ++ r) = y.
Proof.
  intros Hl Hy Hr. unfold PyStr.ascii_strip. rewrite (lstrip_app_space l _ Hl).
  destruct y as [|c y].
  - cbn [String.append]. rewrite (lstrip_space r Hr). reflexivity.
  - assert (Hc : PyStr.ascii_isspace c = false).
    { unfold no_whitespace in Hy. cbn [PyStr.all_chars] in Hy.
      apply andb_prop in Hy. destruct Hy as [Hc _].
      destruct (PyStr.ascii_isspace c); [discriminate Hc | reflexivity]. }
    cbn [String.append PyStr.ascii_lstrip]. rewrite Hc.
    change (String c (y ++ r)) with (String c y ++ r).
    rewrite (rstrip_app_space _ r Hr). apply no_whitespace_rstrip. exact Hy.
Qed.

Lemma lstrip_at_app ats x :
  PyStr.all_chars (fun c => Ascii.eqb c "@") ats = true ->
  PyStr.lstrip_at (ats ++ x) = PyStr.lstrip_at x.
Proof.
  induction ats as [|c ats IH]; [reflexivity|].
  cbn [PyStr.all_chars String.append PyStr.lstrip_at]. intro H.
  apply andb_prop in H. destruct H as [-> Ha]. exact (IH Ha).
Qed.

(** The ASCII methods satisfy what is assumed of Python's. *)
Lemma sample_laws : RuntimeLaws sample_runtime.
Proof.
  constructor; cbn [str_strip str_lower str_isdigit str_int sample_runtime];
    intros; try reflexivity.
  apply lower_idem.
Qed.

#[export] Existing Instance sample_laws.

Section Text.

Context {RT : Runtime} {LAWS : RuntimeLaws RT}.

Lemma str_isdigit_digits (s : string) :
  decimal_digits s -> PyStr.is_empty s = false /\ str_isdigit s = true.
Proof.
  intro Hd. destruct (decimal_digits_isdigit s Hd) as [Hne Hdig].
  split; [exact Hne|].
  rewrite str_isdigit_ascii by (apply digits_ascii, Hd). exact Hdig.
Qed.

(** On the numerals the program converts, [int] gives the value the
    numeral denotes. *)
Lemma str_int_digits (s : string) :
  decimal_digits s -> PyStr.len s < 16 -> str_int s = Some (decimal_value s).
Proof.
  intros Hd Hlen. destruct (decimal_digits_isdigit s Hd) as [_ Hdig].
  rewrite (digits_len s (proj2 Hd)) in Hlen.
  rewrite str_int_decimal by (assumption || lia).
  apply int_decimal_value. exact Hd.
Qed.

(** A string of digits is what [strip] and [lstrip("@")] leave of it. *)
Lemma digits_str_stripped (s : string) :
  PyStr.all_chars PyStr.is_decimal_char s = true ->
  PyStr.lstrip_at (str_strip s) = s.
Proof.
  intro H. rewrite str_strip_ascii by (apply digits_ascii, H).
  apply digits_stripped. exact H.
Qed.

(** On ASCII text the key of an alias is computed by the ASCII methods. *)
Lemma norm_alias_ascii (s : string) :
  PyStr.is_ascii s = true ->
  norm_alias s = PyStr.ascii_lower (PyStr.lstrip_at (PyStr.ascii_strip s)).
Proof.
  intro H. unfold norm_alias. rewrite (str_strip_ascii s H).
  apply str_lower_ascii. apply all_chars_lstrip_at, is_ascii_strip. exact H.
Qed.

(** A name padded with whitespace and led by '@' signs. *)
Lemma padded_alias (l ats x r : string) :
  PyStr.all_chars PyStr.ascii_isspace l = true ->
  PyStr.all_chars (fun c => Ascii.eqb c "@") ats = true ->
  PyStr.is_ascii x = true ->
  no_whitespace x = true ->
  no_leading_at x = true ->
  PyStr.all_chars PyStr.ascii_isspace r = true ->
  norm_alias (l ++ ats ++ x ++ r) = PyStr.ascii_lower x.
Proof.
  intros Hl Hats Hx Hws Hat Hr.
  assert (Hascii : PyStr.is_ascii (l ++ ats ++ x ++ r) = true).
  { unfold PyStr.is_ascii. rewrite !all_chars_app.
    rewrite (all_chars_weaken _ _ l space_char_ascii Hl).
    rewrite (all_chars_weaken _ _ ats (fun c H => proj1 (at_char_plain c H)) Hats).
    rewrite (all_chars_weaken _ _ r space_char_ascii Hr).
    unfold PyStr.is_ascii in Hx. rewrite Hx. reflexivity. }
  assert (Hy : no_whitespace (ats ++ x) = true).
  { unfold no_whitespace in *. rewrite all_chars_app, Hws.
    rewrite (all_chars_weaken (fun c => Ascii.eqb c "@") _ ats); [reflexivity| |exact Hats].
    intros c H. destruct (at_char_plain c H) as [_ ->]. reflexivity. }
  rewrite (norm_alias_ascii _ Hascii).
  rewrite <- (append_assoc ats x r).
  rewrite (strip_padded l (ats ++ x) r Hl Hy Hr).
  rewrite (lstrip_at_app ats x Hats), (no_leading_at_lstrip_at x Hat).
  reflexivity.
Qed.

End Text.

(* ================================================================== *)
(** ** Identifier normalisation *)
(* ================================================================== *)

Section Identifier.

Context {RT : Runtime} {LAWS : RuntimeLaws RT}.

(** C1.  When the input, stripped of surrounding whitespace and of leading
    '@', is a non-empty string of decimal digits: [norm_identifier] returns
    that string unchanged if it has 16 characters or more, and otherwise
    the decimal numeral of its integer value plus 76561197960265728 (a
    numeral that reads back as that sum); no remote call is made.  The
    input "1" gives "76561197960265729". *)
Theorem norm_identifier_digits :
  (forall (remote : Remote) (service : SteamService) (s : string) (w : World),
      let t := PyStr.lstrip_at (str_strip s) in
      decimal_digits t ->
      exists r : string,
        norm_identifier remote service s w = (Ok (Some r), w) /\
        (16 <= PyStr.len t -> r = t) /\
        (PyStr.len t < 16 ->
           r = PyStr.of_int (decimal_value t + STEAMID64_BASE) /\
           PyStr.decimal_int r = Some (decimal_value t + STEAMID64_BASE))) /\
  (forall (remote : Remote) (service : SteamService) (w : World),
      norm_identifier remote service "1" w
      = (Ok (Some "76561197960265729"), w)).
Proof.
  split.
  - intros remote service s w t Hd.
    destruct (str_isdigit_digits t Hd) as [Hne Hdig].
    unfold norm_identifier. fold t. cbv zeta. rewrite Hne, Hdig.
    destruct (16 <=? PyStr.len t) eqn:Hlen.
    + exists t. split; [reflexivity|]. apply Z.leb_le in Hlen.
      split; [auto|lia].
    + apply Z.leb_gt in Hlen. rewrite (str_int_digits t Hd Hlen).
      exists (PyStr.of_int (decimal_value t + STEAMID64_BASE)).
      split; [reflexivity|]. split; [lia|].
      intros _. split; [reflexivity|].
      apply int_of_int.
      pose proof (decimal_value_nonneg t). unfold STEAMID64_BASE. lia.
  - intros remote service w.
    assert (Hd : decimal_digits "1") by (split; [discriminate | reflexivity]).
    destruct (str_isdigit_digits "1" Hd) as [_ Hdig].
    unfold norm_identifier.
    rewrite (digits_str_stripped "1" eq_refl). cbv zeta.
    cbn [PyStr.is_empty]. rewrite Hdig.
    rewrite (str_int_digits "1" Hd eq_refl). reflexivity.
Qed.

End Identifier.

Lemma norm_identifier_digits_witness :
  exists r : string,
    norm_identifier (RT := sample_runtime) (fun _ => None)
      (sample_service "key") " @0042 " (mkWorld None [])
    = (Ok (Some r), mkWorld None []) /\
    (16 <= 4 -> r = "0042") /\
    (4 < 16 -> r = "76561197960265770" /\
               PyStr.decimal_int r = Some 76561197960265770).
Proof.
  apply (proj1 (norm_identifier_digits (RT := sample_runtime))
           (fun _ => None) (sample_service "key") " @0042 " (mkWorld None [])).
  split; [discriminate | reflexivity].
Defined.

(* ================================================================== *)
(** ** Effects of the service calls *)
(* ================================================================== *)

Section Effects.

Context {RT : Runtime}.

Lemma reads_only_refl (w : World) : reads_only w w.
Proof. split; reflexivity. Qed.

Lemma reads_only_trans (w1 w2 w3 : World) :
  reads_only w1 w2 -> reads_only w2 w3 -> reads_only w1 w3.
Proof.
  intros [Hd1 Hw1] [Hd2 Hw2]. split; congruence.
Qed.

Lemma reads_only_store (w w' : World) :
  reads_only w w' -> current_store w' = current_store w.
Proof.
  intros [Hd _]. unfold current_store. rewrite Hd. reflexivity.
Qed.

Lemma bind_ok {A B : Type} (m : M A) (k : A -> M B) w a w' :
  m w = (Ok a, w') -> bind m k w = k a w'.
Proof. intro H. unfold bind. rewrite H. reflexivity. Qed.

Lemma bind_lift_ok {A B : Type} (r : res A) (k : A -> M B) w a :
  r = Ok a -> bind (lift r) k w = k a w.
Proof. intros ->. reflexivity. Qed.

Lemma load_store_eq (w : World) : _load_store w = (Ok (current_store w), w).
Proof.
  unfold _load_store, current_store.
  destruct (disk w) as [doc|]; [|reflexivity].
  destruct (json_load doc); reflexivity.
Qed.

Lemma resolve_vanity_total remote service vanity w :
  exists x w',
    resolve_vanity remote service vanity w = (Ok x, w') /\
    reads_only w w' /\
    (api_key service = EmptyString -> x = None /\ w' = w).
Proof.
  unfold resolve_vanity.
  destruct (api_key service) as [|c k] eqn:Hk; simpl.
  - exists None, w. repeat split.
  - unfold bind, http_get, ret.
    eexists _, _. split; [reflexivity|].
    split; [split; reflexivity | discriminate].
Qed.

Lemma get_summary_total remote service steamid w :
  exists info w',
    get_summary remote service steamid w = (Ok info, w') /\
    reads_only w w' /\
    filter is_vanity_request (http_requests (trace w'))
      = filter is_vanity_request (http_requests (trace w)) /\
    (api_key service = EmptyString -> info = JDict [] /\ w' = w).
Proof.
  unfold get_summary.
  destruct (api_key service) as [|c k] eqn:Hk; simpl.
  - exists (JDict []), w. repeat split.
  - unfold bind, http_get, ret.
    eexists _, _. split; [reflexivity|].
    split; [split; reflexivity|]. split; [reflexivity | discriminate].
Qed.

Lemma norm_identifier_total remote service s w :
  exists x w',
    norm_identifier remote service s w = (Ok x, w') /\
    reads_only w w' /\
    (api_key service = EmptyString -> w' = w).
Proof.
  unfold norm_identifier. cbv zeta.
  destruct (PyStr.is_empty _).
  { exists None, w. repeat split. }
  destruct (str_isdigit _).
  { destruct (16 <=? _).
    - eexists _, w. repeat split.
    - destruct (str_int _); eexists _, w; repeat split. }
  destruct (resolve_vanity_total remote service
              (PyStr.lstrip_at (str_strip s)) w) as [x [w' [E [R K]]]].
  exists x, w'. split; [exact E|]. split; [exact R|].
  intro H. apply K. exact H.
Qed.

End Effects.

(* ================================================================== *)
(** ** Missing credential *)
(* ================================================================== *)

Section Credential.

Context {RT : Runtime}.

Lemma status_of_no_key remote target service sid w :
  api_key service = EmptyString ->
  exists m,
    status_of remote target service sid w = (Ok m, w) /\
    (m = msg_unresolved target \/ exists t, m = msg_status_unavailable t).
Proof.
  intro Hk. unfold status_of.
  destruct (py_truthy sid); simpl.
  - unfold bind.
    destruct (get_summary_total remote service sid w) as [i [w' [E [_ [_ K]]]]].
    destruct (K Hk) as [-> ->]. rewrite E. simpl.
    eexists. split; [reflexivity|]. right. eexists. reflexivity.
  - eexists. split; [reflexivity|]. left. reflexivity.
Qed.

(** C2 (amended).  When the configured credential is empty after
    stripping, [do_link] returns the configuration-error message, and
    [do_link], [do_status] and [do_whois] leave the world as it is: no
    remote call is made.  [do_status] and [do_whois] answer with their own
    messages (cannot resolve or no user information; alias not found or no
    detail), not with a configuration error. *)
Theorem no_credential_no_remote_call :
  forall (remote : Remote) (now : Z) (chat a b key : string) (w : World),
    str_strip key = EmptyString ->
    let service := new_service key in
    do_link remote now chat a b service w = (Ok MSG_NO_API_KEY, w) /\
    (exists r, do_status remote chat a service w = (r, w) /\
       forall m, r = Ok m ->
         m = msg_unresolved a \/ exists sid, m = msg_status_unavailable sid) /\
    (exists r, do_whois remote chat a service w = (r, w) /\
       forall m, r = Ok m ->
         m = msg_alias_not_found (norm_alias a) \/
         exists sid, m = msg_whois_unavailable (norm_alias a) sid).
Proof.
  intros remote now chat a b key w Hkey service.
  assert (Hk : api_key service = EmptyString) by exact Hkey.
  split; [|split].
  - unfold do_link. rewrite Hk. reflexivity.
  - unfold do_status, bind. rewrite load_store_eq.
    destruct (lookup_alias (current_store w) chat (norm_alias a)) as [rec|e];
      simpl; [|eexists; split; [reflexivity|discriminate]].
    destruct (py_truthy rec).
    + unfold lift.
      destruct (py_getitem rec "steamid") as [sid|e];
        [|eexists; split; [reflexivity|discriminate]].
      destruct (status_of_no_key remote a service sid w Hk) as [m [E Hm]].
      rewrite E. eexists. split; [reflexivity|].
      intros m' [= <-]. exact Hm.
    + destruct (norm_identifier_total remote service a w) as [x [w' [E [_ K]]]].
      rewrite E, (K Hk). unfold ret.
      destruct (status_of_no_key remote a service (of_optional x) w Hk)
        as [m [E' Hm]].
      rewrite E'. eexists. split; [reflexivity|].
      intros m' [= <-]. exact Hm.
  - unfold do_whois, bind. cbv zeta. fold (norm_alias a).
    rewrite load_store_eq.
    destruct (lookup_alias (current_store w) chat (norm_alias a)) as [rec|e];
      simpl; [|eexists; split; [reflexivity|discriminate]].
    destruct (py_truthy rec); simpl.
    + destruct (py_getitem rec "steamid") as [sid|e];
        [|eexists; split; [reflexivity|discriminate]].
      destruct (get_summary_total remote service sid w) as [i [w' [E [_ [_ K]]]]].
      destruct (K Hk) as [-> ->]. rewrite E. simpl.
      eexists. split; [reflexivity|].
      intros m' [= <-]. right. eexists. reflexivity.
    + eexists. split; [reflexivity|].
      intros m' [= <-]. left. reflexivity.
Qed.

End Credential.

Lemma no_credential_no_remote_call_witness :
  let w := mkWorld (RT := sample_runtime) None [] in
  do_link (fun _ => None) 0 "global" "me" "1" (sample_service "  ") w
    = (Ok MSG_NO_API_KEY, w) /\
  (exists r, do_status (fun _ => None) "global" "me" (sample_service "  ") w = (r, w) /\
     forall m, r = Ok m ->
       m = msg_unresolved "me" \/ exists sid, m = msg_status_unavailable sid) /\
  (exists r, do_whois (fun _ => None) "global" "me" (sample_service "  ") w = (r, w) /\
     forall m, r = Ok m ->
       m = msg_alias_not_found "me" \/
       exists sid, m = msg_whois_unavailable "me" sid).
Proof.
  exact (no_credential_no_remote_call (RT := sample_runtime)
           (fun _ => None) 0 "global" "me" "1" "  " (mkWorld None [])
           eq_refl).
Defined.

(** C2 as stated fails for [do_status]: without a credential, the target
    "1" is answered with the no-user-information message, which is not the
    configuration-error message. *)
Lemma status_without_credential_counterexample :
  api_key (sample_service "  ") = EmptyString /\
  do_status (RT := sample_runtime) (fun _ => None) "global" "1"
    (sample_service "  ") (mkWorld None [])
  = (Ok (msg_status_unavailable "76561197960265729"), mkWorld None []) /\
  msg_status_unavailable "76561197960265729" <> MSG_NO_API_KEY.
Proof.
  split; [reflexivity|]. split; [reflexivity|]. discriminate.
Qed.

(* ================================================================== *)
(** ** Failed link, unreadable store, unlink *)
(* ================================================================== *)

Section Failures.

Context {RT : Runtime}.

(** C3.  When the identifier does not resolve to a SteamID64, or the
    summary fetched for it is empty, [do_link] returns a failure message
    (configuration error, cannot resolve, or bind failed) and the store is
    as before: [data.json] is unchanged and nothing was written. *)
Theorem do_link_failure_keeps_store :
  forall (remote : Remote) (now : Z) (chat alias ident : string)
         (service : SteamService) (w w1 : World) (x : option string),
    norm_identifier remote service ident w = (Ok x, w1) ->
    (opt_truthy x = false \/
     exists sid info w2,
       x = Some sid /\
       get_summary remote service (JStr sid) w1 = (Ok info, w2) /\
       py_truthy info = false) ->
    exists msg w',
      do_link remote now chat alias ident service w = (Ok msg, w') /\
      (msg = MSG_NO_API_KEY \/ msg = msg_unresolved ident \/
       exists sid, msg = msg_bind_failed sid) /\
      disk w' = disk w /\
      file_writes (trace w') = file_writes (trace w).
Proof.
  intros remote now chat alias ident service w w1 x Hn Hfail.
  unfold do_link.
  destruct (negb (PyStr.truthy (api_key service))).
  { exists MSG_NO_API_KEY, w. repeat split. left. reflexivity. }
  destruct (norm_identifier_total remote service ident w)
    as [x' [w1' [E [[Hd Hw] _]]]].
  rewrite Hn in E. injection E as <- <-.
  unfold bind at 1. rewrite Hn.
  destruct Hfail as [Hx | [sid [info [w2 [-> [Hs Hi]]]]]].
  - rewrite Hx. simpl. exists (msg_unresolved ident), w1.
    split; [reflexivity|]. split; [right; left; reflexivity|].
    split; assumption.
  - destruct (opt_truthy (Some sid)); simpl.
    + destruct (get_summary_total remote service (JStr sid) w1)
        as [i' [w2' [E [[Hd2 Hw2] _]]]].
      rewrite Hs in E. injection E as <- <-.
      unfold bind. rewrite Hs, Hi. simpl.
      exists (msg_bind_failed sid), w2.
      split; [reflexivity|]. split; [right; right; exists sid; reflexivity|].
      split; congruence.
    + exists (msg_unresolved ident), w1.
      split; [reflexivity|]. split; [right; left; reflexivity|].
      split; assumption.
Qed.

(** C4.  When [data.json] does not exist, or its content does not parse,
    [_load_store] returns the empty store without raising, and [do_list]
    on any chat answers with the no-bindings message. *)
Theorem load_unreadable_store_is_empty :
  forall (chat : string) (w : World),
    (disk w = None \/
     exists doc, disk w = Some doc /\ json_load doc = None) ->
    _load_store w = (Ok (JDict []), w) /\
    do_list chat w = (Ok MSG_NO_BINDINGS, w).
Proof.
  intros chat w H.
  assert (Hl : _load_store w = (Ok (JDict []), w)).
  { unfold _load_store.
    destruct H as [-> | [doc [-> ->]]]; reflexivity. }
  split; [exact Hl|].
  unfold do_list, bind. rewrite Hl. reflexivity.
Qed.

Lemma chat_aliases_bound store chat a d v :
  chat_aliases store chat = Ok (JDict d) ->
  PyDict.get a d = Some v ->
  exists sd cd,
    store = JDict sd /\
    PyDict.get chat sd = Some (JDict cd) /\
    PyDict.get "aliases" cd = Some (JDict d).
Proof.
  intros Hc Hg. unfold chat_aliases, py_get in Hc.
  destruct store as [| | | | |sd]; try discriminate Hc. simpl in Hc.
  destruct (PyDict.get chat sd) as [scope|] eqn:Hs.
  - destruct scope as [| | | | |cd]; try discriminate Hc.
    destruct (PyDict.get "aliases" cd) as [al|] eqn:Ha.
    + injection Hc as ->. exists sd, cd. repeat split; assumption.
    + injection Hc as <-. discriminate Hg.
  - simpl in Hc. injection Hc as <-. discriminate Hg.
Qed.

(** C5 (amended).  On a store in which the aliases of the chat are a dict
    (a store file that is missing or does not parse, a store without the
    chat or without its aliases, and every store the plugin wrote):
    [do_unlink] on an alias whose normalized form has no binding in the
    chat's scope answers with the not-found message, does not raise and
    leaves the world as it is: nothing is written.  When the binding
    exists, the reply is the unbound message, the entry is removed from the
    chat's scope (the other aliases stay), and the resulting store is
    written to [data.json].  On a store that parses and in which the scope
    of the chat cannot be read as a dict, [do_unlink] raises, and nothing
    is written. *)
Theorem do_unlink_spec :
  forall (chat alias : string) (w : World),
    let a := norm_alias alias in
    (disk w = None ->
       do_unlink chat alias w = (Ok (msg_alias_not_found a), w)) /\
    (forall doc, disk w = Some doc -> json_load doc = None ->
       do_unlink chat alias w = (Ok (msg_alias_not_found a), w)) /\
    (forall e,
       chat_aliases (current_store w) chat = Raise e ->
       do_unlink chat alias w = (Raise e, w)) /\
    (forall d,
       chat_aliases (current_store w) chat = Ok (JDict d) ->
       PyDict.get a d = None ->
       do_unlink chat alias w = (Ok (msg_alias_not_found a), w)) /\
    (forall d v,
       chat_aliases (current_store w) chat = Ok (JDict d) ->
       PyDict.get a d = Some v ->
       exists store',
         do_unlink chat alias w
         = (Ok (msg_unbound a),
            mkWorld (Some (json_dump store'))
                    (FileWrite (json_dump store') :: trace w)) /\
         chat_aliases store' chat = Ok (JDict (PyDict.del a d)) /\
         PyDict.get a (PyDict.del a d) = None /\
         (forall b, b <> a -> PyDict.get b (PyDict.del a d) = PyDict.get b d)).
Proof.
  intros chat alias w a.
  assert (Hnf : forall d,
             chat_aliases (current_store w) chat = Ok (JDict d) ->
             PyDict.get a d = None ->
             do_unlink chat alias w = (Ok (msg_alias_not_found a), w)).
  { intros d Hc Hg.
    unfold do_unlink, bind. cbv zeta. fold (norm_alias alias). fold a.
    rewrite load_store_eq. unfold lift. rewrite Hc. simpl. rewrite Hg.
    reflexivity. }
  split; [|split; [|split; [|split]]].
  - intro Hd. apply (Hnf []); [|reflexivity].
    unfold current_store. rewrite Hd. reflexivity.
  - intros doc Hd Hl. apply (Hnf []); [|reflexivity].
    unfold current_store. rewrite Hd, Hl. reflexivity.
  - intros e Hc.
    unfold do_unlink, bind. cbv zeta.
    rewrite load_store_eq. unfold lift. rewrite Hc. reflexivity.
  - exact Hnf.
  - intros d v Hc Hg.
    destruct (chat_aliases_bound _ _ _ _ _ Hc Hg) as [sd [cd [Hs [Hsc Hal]]]].
    exists (JDict (PyDict.set chat
              (JDict (PyDict.set "aliases" (JDict (PyDict.del a d)) cd)) sd)).
    split; [|split; [|split]].
    + unfold do_unlink, bind. cbv zeta. fold (norm_alias alias). fold a.
      rewrite load_store_eq. unfold lift. rewrite Hc. simpl. rewrite Hg.
      simpl. rewrite Hs. simpl. rewrite Hsc, Hal. simpl. rewrite Hg.
      reflexivity.
    + unfold chat_aliases, py_get. simpl.
      rewrite PyDictFacts.get_set_same. simpl.
      rewrite PyDictFacts.get_set_same. reflexivity.
    + apply PyDictFacts.get_del_same.
    + intros b Hb. apply PyDictFacts.get_del_other. exact Hb.
Qed.

End Failures.

Lemma do_link_failure_keeps_store_witness :
  exists msg w',
    do_link (RT := sample_runtime) (fun _ => None) 7 "global" "me" "gabe"
      (sample_service "key") (mkWorld None []) = (Ok msg, w') /\
    (msg = MSG_NO_API_KEY \/ msg = msg_unresolved "gabe" \/
     exists sid, msg = msg_bind_failed sid) /\
    disk w' = None /\
    file_writes (trace w') = [].
Proof.
  apply (do_link_failure_keeps_store (RT := sample_runtime)
           (fun _ => None) 7 "global" "me" "gabe" (sample_service "key")
           (mkWorld None [])
           (mkWorld None [HttpGet (ResolveVanityURL "key" "gabe")]) None).
  - reflexivity.
  - left. reflexivity.
Defined.

Lemma load_unreadable_store_is_empty_witness :
  let w := mkWorld (RT := sample_runtime) (Some sample_garbage) [] in
  _load_store w = (Ok (JDict []), w) /\
  do_list "global" w = (Ok MSG_NO_BINDINGS, w).
Proof.
  apply (load_unreadable_store_is_empty (RT := sample_runtime) "global"
           (mkWorld (Some sample_garbage) [])).
  right. exists sample_garbage. split; reflexivity.
Defined.

Lemma do_unlink_spec_witness :
  do_unlink (RT := sample_runtime) "g" "@Bar"
      (mkWorld (Some sample_garbage) [])
    = (Ok (msg_alias_not_found "bar"), mkWorld (Some sample_garbage) []) /\
  do_unlink (RT := sample_runtime) "g" "@Bar"
      (mkWorld (Some (json_dump (JList []))) [])
    = (Raise AttributeError, mkWorld (Some (json_dump (JList []))) []) /\
  do_unlink (RT := sample_runtime) "g" "@Bar" sample_world
    = (Ok (msg_alias_not_found "bar"), sample_world) /\
  exists store',
    do_unlink (RT := sample_runtime) "g" " @FOO " sample_world
    = (Ok (msg_unbound "foo"),
       mkWorld (Some (json_dump store'))
               (FileWrite (json_dump store') :: [])) /\
    chat_aliases store' "g" = Ok (JDict []) /\
    PyDict.get "foo" [] = None /\
    (forall b, b <> "foo" -> PyDict.get b [] = PyDict.get b
       [ ("foo", alias_record "76561197960265729"
                   (JStr "https://steamcommunity.com/id/foo/")
                   (JStr "Foo") 100) ]).
Proof.
  split; [|split; [|split]].
  - apply (proj1 (proj2 (do_unlink_spec (RT := sample_runtime)
                           "g" "@Bar" (mkWorld (Some sample_garbage) [])))
             sample_garbage); reflexivity.
  - apply (proj1 (proj2 (proj2 (do_unlink_spec (RT := sample_runtime)
                           "g" "@Bar"
                           (mkWorld (Some (json_dump (JList []))) []))))).
    reflexivity.
  - apply (proj1 (proj2 (proj2 (proj2 (do_unlink_spec (RT := sample_runtime)
                           "g" "@Bar" sample_world))))
             [ ("foo", alias_record "76561197960265729"
                         (JStr "https://steamcommunity.com/id/foo/")
                         (JStr "Foo") 100) ]); reflexivity.
  - apply (proj2 (proj2 (proj2 (proj2 (do_unlink_spec (RT := sample_runtime)
                           "g" " @FOO " sample_world))))
             [ ("foo", alias_record "76561197960265729"
                         (JStr "https://steamcommunity.com/id/foo/")
                         (JStr "Foo") 100) ]
             (alias_record "76561197960265729"
                (JStr "https://steamcommunity.com/id/foo/")
                (JStr "Foo") 100)); reflexivity.
Defined.

(** C5 as stated fails: a store file that holds the JSON list [[]] parses,
    no alias is bound in it, and [do_unlink] raises instead of answering
    that the alias was not found. *)
Lemma do_unlink_malformed_store_counterexample :
  json_load (Runtime := sample_runtime) (json_dump (JList [])) = Some (JList []) /\
  _load_store (RT := sample_runtime) (mkWorld (Some (json_dump (JList []))) [])
  = (Ok (JList []), mkWorld (Some (json_dump (JList []))) []) /\
  do_unlink (RT := sample_runtime) "g" "foo"
    (mkWorld (Some (json_dump (JList []))) [])
  = (Raise AttributeError, mkWorld (Some (json_dump (JList []))) []).
Proof.
  repeat split.
Qed.

(* ================================================================== *)
(** ** Successful link *)
(* ================================================================== *)

Section Link.

Context {RT : Runtime} {LAWS : RuntimeLaws RT}.

Lemma store_bind_ok store chat a rec d :
  chat_aliases store chat = Ok (JDict d) ->
  exists store',
    store_bind store chat a (Ok rec) = Ok store' /\
    chat_aliases store' chat = Ok (JDict (PyDict.set a rec d)).
Proof.
  intro Hc. unfold chat_aliases, py_get in Hc. unfold store_bind.
  destruct store as [| | | | |sd]; try discriminate Hc. simpl in Hc.
  assert (Hout : forall cd al,
    chat_aliases
      (JDict (PyDict.set chat (JDict (PyDict.set "aliases" (JDict al) cd)) sd))
      chat = Ok (JDict al)).
  { intros cd al. unfold chat_aliases, py_get. simpl.
    rewrite PyDictFacts.get_set_same. simpl.
    rewrite PyDictFacts.get_set_same. reflexivity. }
  destruct (PyDict.get chat sd) as [scope|].
  - destruct scope as [| | | | |cd]; try discriminate Hc.
    destruct (PyDict.get "aliases" cd) as [al|].
    + injection Hc as ->.
      eexists. split; [reflexivity|]. exact (Hout cd (PyDict.set a rec d)).
    + injection Hc as <-.
      eexists. split; [reflexivity|]. exact (Hout cd (PyDict.set a rec [])).
  - simpl in Hc. injection Hc as <-.
    eexists. split; [reflexivity|]. exact (Hout [] (PyDict.set a rec [])).
Qed.

(** What [do_link] does once the identifier resolved and the summary came
    back as a non-empty dict. *)
Lemma do_link_success remote now chat alias ident service w w1 w2 sid i d :
  PyStr.truthy (api_key service) = true ->
  norm_identifier remote service ident w = (Ok (Some sid), w1) ->
  PyStr.truthy sid = true ->
  get_summary remote service (JStr sid) w1 = (Ok (JDict i), w2) ->
  i <> [] ->
  chat_aliases (current_store w) chat = Ok (JDict d) ->
  exists store',
    do_link remote now chat alias ident service w
    = (Ok (msg_bound (norm_alias alias)
             (py_str (summary_field "personaname" i)) sid),
       mkWorld (Some (json_dump store'))
               (FileWrite (json_dump store') :: trace w2)) /\
    chat_aliases store' chat
    = Ok (JDict (PyDict.set (norm_alias alias)
                   (alias_record sid (summary_field "profileurl" i)
                      (summary_field "personaname" i) now) d)).
Proof.
  intros Hk Hn Hsid Hs Hi Hc.
  destruct (norm_identifier_total remote service ident w)
    as [x' [w1' [E [R1 _]]]].
  rewrite Hn in E. injection E as <- <-.
  destruct (get_summary_total remote service (JStr sid) w1)
    as [i' [w2' [E [R2 _]]]].
  rewrite Hs in E. injection E as <- <-.
  pose proof (reads_only_store _ _ (reads_only_trans _ _ _ R1 R2)) as Hst.
  rewrite <- Hst in Hc.
  destruct (store_bind_ok _ chat (norm_alias alias)
              (alias_record sid (summary_field "profileurl" i)
                 (summary_field "personaname" i) now) d Hc)
    as [store' [Hb Hc']].
  exists store'. split; [|exact Hc'].
  assert (Ht : py_truthy (JDict i) = true)
    by (destruct i; [congruence|reflexivity]).
  unfold do_link. rewrite Hk. cbn [negb]. cbv zeta.
  rewrite (bind_ok _ _ _ _ _ Hn). cbn [opt_truthy]. rewrite Hsid. cbn [negb].
  rewrite (bind_ok _ _ _ _ _ Hs). rewrite Ht. cbn [negb].
  rewrite (bind_ok _ _ _ _ _ (load_store_eq w2)).
  assert (Hr : link_record sid (JDict i) now
               = Ok (alias_record sid (summary_field "profileurl" i)
                       (summary_field "personaname" i) now)) by reflexivity.
  rewrite Hr. rewrite (bind_lift_ok _ _ _ _ Hb).
  reflexivity.
Qed.

Lemma lookup_alias_after_set store store' chat a rec d :
  chat_aliases store chat = Ok (JDict d) ->
  chat_aliases store' chat = Ok (JDict (PyDict.set a rec d)) ->
  lookup_alias store' chat a = Ok rec /\
  (forall b, b <> a -> lookup_alias store' chat b = lookup_alias store chat b).
Proof.
  intros Hc Hc'. unfold lookup_alias. rewrite Hc, Hc'. simpl. split.
  - rewrite PyDictFacts.get_set_same. reflexivity.
  - intros b Hb. rewrite (PyDictFacts.get_set_other a b rec d Hb). reflexivity.
Qed.

(** C6.  [norm_alias] strips surrounding whitespace, then leading '@',
    then lowercases: "@Foo", "foo" and " FOO " all give the key "foo", and
    every ASCII name, padded with whitespace and led by '@' signs, gives
    the name in lower case.  A successful [do_link] answers that the alias
    is bound and writes a store in which the chat's scope holds, under the
    normalized alias, the record made of the SteamID, of the profile URL
    and persona name of the summary and of the time of the call, whatever
    was bound to the alias before, and every other alias of the scope as
    it was. *)
Theorem link_stores_under_normalized_alias :
  (norm_alias "@Foo" = "foo" /\ norm_alias "foo" = "foo" /\
   norm_alias " FOO " = "foo") /\
  (forall (l ats x r : string),
      PyStr.all_chars PyStr.ascii_isspace l = true ->
      PyStr.all_chars (fun c => Ascii.eqb c "@") ats = true ->
      PyStr.is_ascii x = true ->
      no_whitespace x = true ->
      no_leading_at x = true ->
      PyStr.all_chars PyStr.ascii_isspace r = true ->
      norm_alias (l ++ ats ++ x ++ r) = PyStr.ascii_lower x) /\
  (forall (remote : Remote) (now : Z) (chat alias ident : string)
          (service : SteamService) (w w1 w2 : World) (sid : string)
          (i d : list (string * json)),
      PyStr.truthy (api_key service) = true ->
      norm_identifier remote service ident w = (Ok (Some sid), w1) ->
      PyStr.truthy sid = true ->
      get_summary remote service (JStr sid) w1 = (Ok (JDict i), w2) ->
      i <> [] ->
      chat_aliases (current_store w) chat = Ok (JDict d) ->
      exists store',
        do_link remote now chat alias ident service w
        = (Ok (msg_bound (norm_alias alias)
                 (py_str (summary_field "personaname" i)) sid),
           mkWorld (Some (json_dump store'))
                   (FileWrite (json_dump store') :: trace w2)) /\
        lookup_alias store' chat (norm_alias alias)
        = Ok (JDict [ ("steamid", JStr sid);
                      ("profileurl", summary_field "profileurl" i);
                      ("personaname", summary_field "personaname" i);
                      ("created_at", JInt now) ]) /\
        (forall b, b <> norm_alias alias ->
           lookup_alias store' chat b
           = lookup_alias (current_store w) chat b)).
Proof.
  split; [|split].
  - repeat split; rewrite norm_alias_ascii; reflexivity.
  - intros l ats x r Hl Hats Hx Hws Hat Hr. apply padded_alias; assumption.
  - intros remote now chat alias ident service w w1 w2 sid i d
           Hk Hn Hsid Hs Hi Hc.
    destruct (do_link_success remote now chat alias ident service
                w w1 w2 sid i d Hk Hn Hsid Hs Hi Hc) as [store' [E Hc']].
    destruct (lookup_alias_after_set _ _ _ _ _ _ Hc Hc') as [Hl Ho].
    exists store'. split; [exact E|]. split; [exact Hl | exact Ho].
Qed.


End Link.

Lemma link_stores_under_normalized_alias_witness :
  norm_alias (RT := sample_runtime) (" " ++ "@@" ++ "Gabe_N" ++ "  ")
  = "gabe_n" /\
  exists store',
    do_link (RT := sample_runtime) sample_remote 100 "g" " @FOO " "gabe"
      (sample_service "key") sample_world
    = (Ok "已绑定：foo -> Gabe (76561197960287930)",
       mkWorld (Some (json_dump store'))
         [ FileWrite (json_dump store');
           HttpGet (GetPlayerSummaries "key" (JStr "76561197960287930"));
           HttpGet (ResolveVanityURL "key" "gabe") ]) /\
    lookup_alias store' "g" "foo"
    = Ok (JDict [ ("steamid", JStr "76561197960287930");
                  ("profileurl", JStr "https://steamcommunity.com/id/gabe/");
                  ("personaname", JStr "Gabe");
                  ("created_at", JInt 100) ]) /\
    (forall b, b <> "foo" ->
       lookup_alias store' "g" b = lookup_alias sample_store "g" b).
Proof.
  split.
  - apply (proj1 (proj2 (link_stores_under_normalized_alias
                           (RT := sample_runtime)))
             " " "@@" "Gabe_N" "  "); reflexivity.
  - apply (proj2 (proj2 (link_stores_under_normalized_alias
                            (RT := sample_runtime)))
              sample_remote 100 "g" " @FOO " "gabe"
              (sample_service "key")
              sample_world
              (mkWorld (disk sample_world)
                 [ HttpGet (ResolveVanityURL "key" "gabe") ])
              (mkWorld (disk sample_world)
                 [ HttpGet (GetPlayerSummaries "key" (JStr "76561197960287930"));
                   HttpGet (ResolveVanityURL "key" "gabe") ])
              "76561197960287930"
              (sample_player (JStr "76561197960287930"))
              [ ("foo", alias_record "76561197960265729"
                          (JStr "https://steamcommunity.com/id/foo/")
                          (JStr "Foo") 100) ]).
    + reflexivity.
    + reflexivity.
    + reflexivity.
    + reflexivity.
    + discriminate.
    + reflexivity.
Defined.



(* ================================================================== *)
(** ** Status *)
(* ================================================================== *)

Section Status.

Context {RT : Runtime}.

Lemma persona_label_table (code : Z) (default : string) :
  default = "未知状态(" ++ PyStr.of_int code ++ ")" ->
  match table_get code PERSONA_STATE with
  | Some t => t
  | None => default
  end = persona_label code.
Proof.
  intros ->.
  destruct code as [|p|p]; [reflexivity| |reflexivity].
  destruct p as [[[?|?|]|[?|?|]|]|[[?|?|]|[?|?|]|]|]; reflexivity.
Qed.

Lemma persona_label_in_table (code : Z) :
  0 <= code <= 6 -> In (code, persona_label code) PERSONA_STATE.
Proof.
  intro H.
  assert (C : code = 0 \/ code = 1 \/ code = 2 \/ code = 3 \/
              code = 4 \/ code = 5 \/ code = 6) by lia.
  simpl.
  destruct C as [->|[->|[->|[->|[->|[->| ->]]]]]]; tauto.
Qed.

Lemma persona_label_outside (code : Z) :
  ~ 0 <= code <= 6 ->
  persona_label code = "未知状态(" ++ PyStr.of_int code ++ ")".
Proof.
  intro H.
  destruct code as [|p|p]; [lia| |reflexivity].
  destruct p as [[[?|?|]|[?|?|]|]|[[?|?|]|[?|?|]|]|]; try reflexivity; lia.
Qed.

Lemma field_truthy_eq k d : py_truthy (field k d) = field_truthy k d.
Proof.
  unfold field, field_truthy. destruct (PyDict.get k d); reflexivity.
Qed.

(** What [status_of] answers once the summary is a non-empty dict. *)
Lemma status_of_summary remote target service sid info w w' :
  py_truthy sid = true ->
  get_summary remote service sid w = (Ok info, w') ->
  py_truthy info = true ->
  status_of remote target service sid w
  = (match status_parts sid info with
     | Ok parts => Ok (String.concat PyStr.nl parts)
     | Raise e => Raise e
     end, w').
Proof.
  intros Hsid Hs Hi. unfold status_of. rewrite Hsid. cbn [negb].
  rewrite (bind_ok _ _ _ _ _ Hs). rewrite Hi. cbn [negb].
  unfold bind, lift, ret. destruct (status_parts sid info); reflexivity.
Qed.

(** The parts of [do_status] for a summary with an integer persona
    state. *)
Lemma status_parts_state sid d code :
  PyDict.get "personastate" d = Some (JInt code) ->
  status_parts sid (JDict d)
  = Ok (("玩家: " ++ py_str (match PyDict.get "personaname" d with
                              | Some v => v
                              | None => JStr "<未公开昵称>"
                              end) ++ "（" ++ py_str sid ++ "）")
        :: (LINE_STATE ++ persona_label code)
        :: List.app
             (if field_truthy "gameextrainfo" d
              then [LINE_PLAYING ++ py_str (field "gameextrainfo" d)] else [])
             (List.app
                (if (code =? 0) && field_truthy "lastlogoff" d
                 then [LINE_LAST_LOGOFF ++ fmt_ts (field "lastlogoff" d)] else [])
                (List.app
                   (if field_truthy "profileurl" d
                    then ["档案: " ++ py_str (field "profileurl" d)] else [])
                   (if negb (py_eq_int (field "communityvisibilitystate" d) 3)
                    then [STATUS_PRIVACY] else [])))).
Proof.
  intro Hst. unfold status_parts, py_get, rbind. rewrite Hst.
  cbn [persona_state_get].
  rewrite (persona_label_table code
             ("未知状态(" ++ py_str (JInt code) ++ ")") eq_refl).
  unfold LINE_STATE, LINE_PLAYING, LINE_LAST_LOGOFF.
  fold (field "gameextrainfo" d). fold (field "lastlogoff" d).
  fold (field "profileurl" d). fold (field "communityvisibilitystate" d).
  rewrite !field_truthy_eq. cbn [py_eq_int].
  destruct (py_eq_int (field "communityvisibilitystate" d) 3); reflexivity.
Qed.

(** [do_status] goes on from the SteamID it resolved. *)
Lemma do_status_resolved remote chat target service w sid w1 :
  resolves_target remote chat target service w sid w1 ->
  do_status remote chat target service w
  = status_of remote target service sid w1.
Proof.
  intros [[r [Hl [Hg ->]]] | [recv [x [Hl [Ht [Hn ->]]]]]]; unfold do_status;
    rewrite (bind_ok _ _ _ _ _ (load_store_eq w)), (bind_lift_ok _ _ _ _ Hl).
  - assert (Ht : py_truthy (JDict r) = true)
      by (destruct r; [discriminate Hg | reflexivity]).
    rewrite Ht.
    assert (Hi : py_getitem (JDict r) "steamid" = Ok sid)
      by (unfold py_getitem; rewrite Hg; reflexivity).
    rewrite (bind_lift_ok _ _ _ _ Hi). reflexivity.
  - rewrite Ht. unfold bind at 1. unfold bind at 1. rewrite Hn. reflexivity.
Qed.





(** C7 (amended).  When [do_status] has resolved its target to a SteamID
    (the one bound to the alias, or the one [norm_identifier] gives) and the
    summary fetched for it holds an integer persona state, the reply is the
    lines of [parts] joined by newlines, where: the second line is the
    state line with the label of the table for a code in 0..6 and
    "未知状态(<code>)" for any other code; a last-logoff line appears if and
    only if the code is 0 and [lastlogoff] is present with a truthy
    (non-zero, non-empty) value; a currently-playing line appears if and
    only if [gameextrainfo] is present with a truthy (non-empty) value. *)
Theorem status_persona_state_lines :
  forall (remote : Remote) (chat target : string) (service : SteamService)
         (sid : json) (d : list (string * json)) (code : Z)
         (w w1 w' : World),
    resolves_target remote chat target service w sid w1 ->
    py_truthy sid = true ->
    get_summary remote service sid w1 = (Ok (JDict d), w') ->
    PyDict.get "personastate" d = Some (JInt code) ->
    exists parts,
      do_status remote chat target service w
      = (Ok (String.concat PyStr.nl parts), w') /\
      status_parts sid (JDict d) = Ok parts /\
      nth_error parts 1 = Some (LINE_STATE ++ persona_label code) /\
      (0 <= code <= 6 -> In (code, persona_label code) PERSONA_STATE) /\
      (~ 0 <= code <= 6 ->
         persona_label code = "未知状态(" ++ PyStr.of_int code ++ ")") /\
      (has_line LINE_LAST_LOGOFF parts = true <->
         code = 0 /\ field_truthy "lastlogoff" d = true) /\
      (has_line LINE_PLAYING parts = true <->
         field_truthy "gameextrainfo" d = true).
Proof.
  intros remote chat target service sid d code w w1 w' Hres Hsid Hs Hst.
  assert (Hi : py_truthy (JDict d) = true)
    by (destruct d; [discriminate Hst | reflexivity]).
  pose proof (status_of_summary remote target service sid _ w1 w' Hsid Hs Hi)
    as Hof.
  rewrite <- (do_status_resolved remote chat target service w sid w1 Hres)
    in Hof.
  rewrite (status_parts_state sid d code Hst) in Hof.
  eexists. split; [exact Hof|].
  split; [apply status_parts_state; exact Hst|].
  split; [reflexivity|].
  split; [apply persona_label_in_table|].
  split; [apply persona_label_outside|].
  split.
  - rewrite <- (Z.eqb_eq code 0), <- andb_true_iff.
    match goal with
    | |- ?lhs = true <-> ?rhs = true =>
        assert (Hb : lhs = rhs); [|rewrite Hb; reflexivity]
    end.
    destruct (field_truthy "gameextrainfo" d), (code =? 0),
      (field_truthy "lastlogoff" d), (field_truthy "profileurl" d),
      (negb (py_eq_int (field "communityvisibilitystate" d) 3));
      reflexivity.
  - match goal with
    | |- ?lhs = true <-> ?rhs = true =>
        assert (Hb : lhs = rhs); [|rewrite Hb; reflexivity]
    end.
    destruct (field_truthy "gameextrainfo" d), (code =? 0),
      (field_truthy "lastlogoff" d), (field_truthy "profileurl" d),
      (negb (py_eq_int (field "communityvisibilitystate" d) 3));
      reflexivity.
Qed.



End Status.

Lemma status_persona_state_lines_witness :
  let sid := JStr "76561197960287930" in
  let d := sample_player sid in
  let w := mkWorld (RT := sample_runtime) None [] in
  let w' := mkWorld (RT := sample_runtime) None
              [ HttpGet (GetPlayerSummaries "key" sid);
                HttpGet (ResolveVanityURL "key" "gabe") ] in
  exists parts,
    do_status sample_remote "g" "gabe"
      (sample_service "key") w
    = (Ok (String.concat PyStr.nl parts), w') /\
    status_parts (RT := sample_runtime) sid (JDict d) = Ok parts /\
    nth_error parts 1 = Some (LINE_STATE ++ persona_label 0) /\
    (0 <= 0 <= 6 -> In (0, persona_label 0) PERSONA_STATE) /\
    (~ 0 <= 0 <= 6 ->
       persona_label 0 = "未知状态(" ++ PyStr.of_int 0 ++ ")") /\
    (has_line LINE_LAST_LOGOFF parts = true <->
       0 = 0 /\ field_truthy "lastlogoff" d = true) /\
    (has_line LINE_PLAYING parts = true <->
       field_truthy "gameextrainfo" d = true).
Proof.
  apply (status_persona_state_lines (RT := sample_runtime) sample_remote
           "g" "gabe" (sample_service "key")
           (JStr "76561197960287930")
           (sample_player (JStr "76561197960287930")) 0
           (mkWorld None [])
           (mkWorld None [ HttpGet (ResolveVanityURL "key" "gabe") ])
           (mkWorld None
              [ HttpGet (GetPlayerSummaries "key" (JStr "76561197960287930"));
                HttpGet (ResolveVanityURL "key" "gabe") ])).
  - right. exists JNull, (Some "76561197960287930"). repeat split.
  - reflexivity.
  - reflexivity.
  - reflexivity.
Defined.

(** C7 as stated fails: for an offline player (state 0) whose summary
    holds [lastlogoff] = 0 and [gameextrainfo] = the empty string, both
    fields are present, and [do_status] prints neither a last-logoff line
    nor a currently-playing line. *)
Lemma status_present_fields_counterexample :
  PyDict.get "personastate" blank_player = Some (JInt 0) /\
  PyDict.get "lastlogoff" blank_player = Some (JInt 0) /\
  PyDict.get "gameextrainfo" blank_player = Some (JStr EmptyString) /\
  let parts := [ "玩家: Gabe（76561197960265729）"; "状态: 离线";
                 "该用户的个人资料未公开，可用信息受限。" ] in
  fst (do_status (RT := sample_runtime) blank_remote "g" "1"
         (sample_service "key") (mkWorld None []))
  = Ok (String.concat PyStr.nl parts) /\
  status_parts (RT := sample_runtime) (JStr "76561197960265729")
    (JDict blank_player) = Ok parts /\
  has_line LINE_LAST_LOGOFF parts = false /\
  has_line LINE_PLAYING parts = false.
Proof.
  repeat split.
Qed.



(* ================================================================== *)
(** ** Shape of the stores the plugin writes *)
(* ================================================================== *)

Section Shape.

Context {RT : Runtime}.

Lemma get_set_inv k k' v x d :
  PyDict.get k' (PyDict.set k v d) = Some x ->
  (k' = k /\ x = v) \/ (k' <> k /\ PyDict.get k' d = Some x).
Proof.
  intro H. destruct (string_dec k' k) as [->|Hne].
  - rewrite PyDictFacts.get_set_same in H. injection H as <-. left. auto.
  - rewrite (PyDictFacts.get_set_other k k' v d Hne) in H. right. auto.
Qed.

Lemma store_shaped_empty : store_shaped (JDict []).
Proof. exists []. split; [reflexivity|]. intros chat scope H. discriminate H. Qed.

(** In a shaped store the alias mapping of every chat is a dict. *)
Lemma store_shaped_aliases store chat :
  store_shaped store -> exists d, chat_aliases store chat = Ok (JDict d).
Proof.
  intros [sd [-> Hsd]]. unfold chat_aliases, py_get, rbind.
  destruct (PyDict.get chat sd) as [scope|] eqn:Hs.
  - destruct (Hsd chat scope Hs) as [cd [-> Hcd]].
    destruct (PyDict.get "aliases" cd) as [al|] eqn:Ha.
    + destruct (Hcd al eq_refl) as [d ->]. exists d. reflexivity.
    + exists []. reflexivity.
  - exists []. reflexivity.
Qed.

Lemma store_shaped_set sd chat cd d :
  store_shaped (JDict sd) ->
  store_shaped
    (JDict (PyDict.set chat (JDict (PyDict.set "aliases" (JDict d) cd)) sd)).
Proof.
  intros [sd' [[= <-] Hsd]]. eexists. split; [reflexivity|].
  intros c scope H. apply get_set_inv in H.
  destruct H as [[-> ->] | [_ H]]; [|exact (Hsd c scope H)].
  eexists. split; [reflexivity|].
  intros al Ha. rewrite PyDictFacts.get_set_same in Ha.
  injection Ha as <-. exists d. reflexivity.
Qed.

Lemma store_bind_shaped store chat a record store' :
  store_shaped store ->
  store_bind store chat a record = Ok store' ->
  store_shaped store'.
Proof.
  intros Hsh Hb. pose proof Hsh as [sd [-> Hsd]]. unfold store_bind in Hb.
  destruct (match PyDict.get chat sd with Some v => v | None => JDict [] end)
    as [| | | | |cd]; try discriminate Hb.
  destruct record as [rec|e]; [|discriminate Hb]. simpl in Hb.
  destruct (match PyDict.get "aliases" cd with Some v => v | None => JDict [] end)
    as [| | | | |ad]; try discriminate Hb.
  injection Hb as <-. apply store_shaped_set. exact Hsh.
Qed.

Lemma store_unbind_shaped store chat a store' :
  store_shaped store ->
  store_unbind store chat a = Ok store' ->
  store_shaped store'.
Proof.
  intros Hsh Hb. pose proof Hsh as [sd [-> Hsd]]. unfold store_unbind in Hb.
  destruct (PyDict.get chat sd) as [scope|]; [|discriminate Hb].
  destruct scope as [| | | | |cd]; try discriminate Hb.
  destruct (PyDict.get "aliases" cd) as [al|]; [|discriminate Hb].
  unfold py_delitem in Hb.
  destruct al as [| | | | |d]; try discriminate Hb.
  destruct (PyDict.get a d); [|discriminate Hb].
  simpl in Hb. injection Hb as <-. apply store_shaped_set. exact Hsh.
Qed.

(** Every handler leaves a shaped store shaped: starting without a store
    file, the plugin only ever reads shaped stores. *)
Theorem handlers_keep_store_shaped :
  (forall j, json_load (json_dump j) = Some j) ->
  forall (w : World),
    store_shaped (current_store w) ->
    (forall remote now chat alias ident service,
        store_shaped
          (current_store (snd (do_link remote now chat alias ident service w)))) /\
    (forall chat alias,
        store_shaped (current_store (snd (do_unlink chat alias w)))).
Proof.
  intros Hrt w Hsh. split.
  - intros remote now chat alias ident service. unfold do_link.
    destruct (negb (PyStr.truthy (api_key service))); [exact Hsh|].
    destruct (norm_identifier_total remote service ident w)
      as [x [w1 [E1 [R1 _]]]].
    rewrite (bind_ok _ _ _ _ _ E1).
    assert (H1 : store_shaped (current_store w1))
      by (rewrite (reads_only_store _ _ R1); exact Hsh).
    destruct (negb (opt_truthy x)); [exact H1|].
    match goal with
    | |- context [get_summary remote service ?s] =>
        destruct (get_summary_total remote service s w1)
          as [i [w2 [E2 [R2 _]]]]
    end.
    rewrite (bind_ok _ _ _ _ _ E2).
    assert (H2 : store_shaped (current_store w2))
      by (rewrite (reads_only_store _ _ R2); exact H1).
    destruct (negb (py_truthy i)); [exact H2|].
    rewrite (bind_ok _ _ _ _ _ (load_store_eq w2)).
    match goal with
    | |- context [lift ?r] => destruct r as [store'|e] eqn:Hb
    end.
    + rewrite (bind_lift_ok _ _ _ _ eq_refl).
      pose proof (store_bind_shaped _ _ _ _ _ H2 Hb) as H3.
      unfold bind, _save_store, lift, ret.
      destruct (py_get i "personaname" (JStr PyStr.empty));
        unfold current_store; simpl; rewrite Hrt; exact H3.
    + exact H2.
  - intros chat alias. unfold do_unlink. cbv zeta.
    rewrite (bind_ok _ _ _ _ _ (load_store_eq w)).
    destruct (chat_aliases (current_store w) chat) as [al|e]; [|exact Hsh].
    rewrite (bind_lift_ok _ _ _ _ eq_refl).
    match goal with
    | |- context [lift ?r] => destruct r as [present|e]
    end; [|exact Hsh].
    rewrite (bind_lift_ok _ _ _ _ eq_refl).
    destruct present; cbn [negb]; [|exact Hsh].
    match goal with
    | |- context [lift ?r] => destruct r as [store'|e] eqn:Hb
    end; [|exact Hsh].
    rewrite (bind_lift_ok _ _ _ _ eq_refl).
    pose proof (store_unbind_shaped _ _ _ _ Hsh Hb) as H3.
    unfold bind, _save_store, ret.
    unfold current_store; simpl; rewrite Hrt; exact H3.
Qed.

End Shape.

(* ================================================================== *)
(** ** Scenarios *)
(* ================================================================== *)

Example strip_at_foo : PyStr.lstrip_at (PyStr.ascii_strip "  @@Foo  ") = "Foo".
Proof. reflexivity. Qed.

Example int_leading_zeros : PyStr.decimal_int "0042" = Some 42.
Proof. reflexivity. Qed.

Example passthrough_16_digits :
  fst (norm_identifier (RT := sample_runtime) (fun _ => None)
         (sample_service "key") "0000000000000001" (mkWorld None []))
  = Ok (Some "0000000000000001").
Proof. reflexivity. Qed.

Example vanity_unresolved :
  norm_identifier (RT := sample_runtime) sample_remote (sample_service "key")
    "nobody" (mkWorld None [])
  = (Ok None, mkWorld None [HttpGet (ResolveVanityURL "key" "nobody")]).
Proof. reflexivity. Qed.

Example status_offline_with_lastlogoff :
  fst (do_status (RT := sample_runtime) sample_remote "g" "gabe"
         (sample_service "key") (mkWorld None []))
  = Ok (String.concat PyStr.nl
          [ "玩家: Gabe（76561197960287930）"; "状态: 离线";
            "最后下线时间: t=1700000000";
            "档案: https://steamcommunity.com/id/gabe/" ]).
Proof. reflexivity. Qed.

Example list_after_link :
  fst (do_list (RT := sample_runtime) "g" sample_world)
  = Ok (String.concat PyStr.nl
          [ "本群绑定列表："; "- foo -> Foo (76561197960265729)" ]).
Proof. reflexivity. Qed.

Example unlink_on_malformed_store_raises :
  fst (do_unlink (RT := sample_runtime) "g" "foo"
         (mkWorld (Some (json_dump (JList []))) []))
  = Raise AttributeError.
Proof. reflexivity. Qed.

(* ================================================================== *)
(** ** Chat key *)
(* ================================================================== *)

Section ChatKeyFacts.

Context {RT : Runtime}.

Lemma first_chat_id_none keys d :
  (forall k, In k keys -> field_truthy k d = false) ->
  first_chat_id keys (JDict d) = Ok None.
Proof.
  induction keys as [|k keys IH]; intro H; [reflexivity|].
  assert (Hk : field_truthy k d = false) by (apply H; left; reflexivity).
  assert (IH' : first_chat_id keys (JDict d) = Ok None)
    by (apply IH; intros k' Hin; apply H; right; exact Hin).
  cbn [first_chat_id].
  destruct d as [|e d']; cbn [py_truthy py_get rbind].
  - cbn [PyDict.get py_truthy]. exact IH'.
  - fold (field k (e :: d')). rewrite field_truthy_eq, Hk. exact IH'.
Qed.

Lemma first_chat_id_hit pre k post d v :
  (forall k', In k' pre -> field_truthy k' d = false) ->
  PyDict.get k d = Some v ->
  py_truthy v = true ->
  first_chat_id (pre ++ k :: post) (JDict d) = Ok (Some (py_str v)).
Proof.
  intros Hpre Hk Hv.
  assert (Hd : py_truthy (JDict d) = true)
    by (destruct d; [discriminate Hk | reflexivity]).
  induction pre as [|k0 pre IH];
    [rewrite List.app_nil_l | rewrite <- List.app_comm_cons];
    cbn [first_chat_id]; rewrite Hd; cbn [py_get rbind].
  - rewrite Hk, Hv. reflexivity.
  - fold (field k0 d). rewrite field_truthy_eq.
    rewrite (Hpre k0 (or_introl eq_refl)).
    apply IH. intros k' Hin. apply Hpre. right. exact Hin.
Qed.

Lemma first_chat_id_some keys cand chat :
  first_chat_id keys cand = Ok (Some chat) ->
  exists d k v,
    cand = JDict d /\ In k keys /\ PyDict.get k d = Some v /\
    py_truthy v = true /\ chat = py_str v.
Proof.
  induction keys as [|k keys IH]; cbn [first_chat_id]; [discriminate|].
  destruct (py_truthy cand) eqn:Hc.
  - destruct cand as [| | | | |d]; try discriminate.
    cbn [py_get rbind]. fold (field k d).
    destruct (py_truthy (field k d)) eqn:Hv.
    + intros [= <-]. unfold field in *.
      destruct (PyDict.get k d) as [v|] eqn:Hk; [|discriminate Hv].
      exists d, k, v. repeat split; auto. left. reflexivity.
    + intro H. destruct (IH H) as [d' [k' [v [E [Hin Hrest]]]]].
      exists d', k', v. split; [exact E|]. split; [right; exact Hin|exact Hrest].
  - cbn [py_get rbind PyDict.get py_truthy]. intro H.
    destruct (IH H) as [d' [k' [v [E [Hin Hrest]]]]].
    exists d', k', v. split; [exact E|]. split; [right; exact Hin|exact Hrest].
Qed.

(** [_get_chat_key] answers "global" whenever its candidate is not a dict
    holding a truthy value under one of the six keys: a context that is not
    a dict, an object without [context], an empty dict, a dict whose ids
    are missing, null, 0 or empty, and a truthy candidate without [get]
    (the exception is swallowed).  Any other answer is [str] of a truthy
    value held under one of the six keys. *)
Theorem chat_key_global_fallback :
  forall (c : PyObject),
    ((forall d, chat_candidate c = JDict d ->
        forall k, In k CHAT_KEYS -> field_truthy k d = false) ->
     _get_chat_key c = "global") /\
    (_get_chat_key c = "global" \/
     exists d k v,
       chat_candidate c = JDict d /\ In k CHAT_KEYS /\
       PyDict.get k d = Some v /\ py_truthy v = true /\
       _get_chat_key c = py_str v).
Proof.
  intro c. unfold _get_chat_key.
  destruct (first_chat_id CHAT_KEYS (chat_candidate c)) as [[chat|]|e] eqn:E.
  - destruct (first_chat_id_some _ _ _ E) as [d [k [v [Hc [Hin [Hk [Hv ->]]]]]]].
    split.
    + intro H. specialize (H d Hc k Hin). unfold field_truthy in H.
      rewrite Hk in H. congruence.
    + right. exists d, k, v. repeat split; assumption.
  - split; [reflexivity | left; reflexivity].
  - split; [reflexivity | left; reflexivity].
Qed.

(** The six keys are tried in their fixed order: the chat key is [str] of
    the value under the first key whose value is truthy, whatever the
    later keys hold. *)
Theorem chat_key_first_truthy :
  forall (c : PyObject) (d : list (string * json)) (pre post : list string)
         (k : string) (v : json),
    chat_candidate c = JDict d ->
    CHAT_KEYS = (pre ++ k :: post)%list ->
    (forall k', In k' pre -> field_truthy k' d = false) ->
    PyDict.get k d = Some v ->
    py_truthy v = true ->
    _get_chat_key c = py_str v.
Proof.
  intros c d pre post k v Hc Hkeys Hpre Hk Hv.
  unfold _get_chat_key. rewrite Hc, Hkeys.
  rewrite (first_chat_id_hit pre k post d v Hpre Hk Hv). reflexivity.
Qed.

End ChatKeyFacts.

Lemma chat_key_global_fallback_witness :
  _get_chat_key (RT := sample_runtime) (Instance (Some (JStr "room 7")))
  = "global".
Proof.
  apply (proj1 (chat_key_global_fallback (RT := sample_runtime)
                  (Instance (Some (JStr "room 7"))))).
  intros d H. discriminate H.
Defined.

Lemma chat_key_first_truthy_witness :
  _get_chat_key (RT := sample_runtime)
    (Value (JDict [ ("chat_id", JStr EmptyString); ("conversation_id", JStr "c9");
                    ("group_id", JInt 42) ]))
  = "42".
Proof.
  apply (chat_key_first_truthy (RT := sample_runtime)
           (Value (JDict [ ("chat_id", JStr EmptyString);
                           ("conversation_id", JStr "c9");
                           ("group_id", JInt 42) ]))
           [ ("chat_id", JStr EmptyString); ("conversation_id", JStr "c9");
             ("group_id", JInt 42) ]
           [ "chat_id"; "chat" ]
           [ "room_id"; "channel_id"; "conversation_id" ]
           "group_id" (JInt 42)).
  - reflexivity.
  - reflexivity.
  - intros k' [<-|[<-|[]]]; reflexivity.
  - reflexivity.
  - reflexivity.
Defined.

(* ================================================================== *)
(** ** Alias normalisation *)
(* ================================================================== *)

Lemma lower_char_ascii (c : ascii) :
  PyStr.is_ascii_char c = true ->
  PyStr.is_ascii_char (PyStr.ascii_lower_char c) = true.
Proof.
  destruct c as [[|] [|] [|] [|] [|] [|] [|] [|]]; intro H;
    try discriminate H; reflexivity.
Qed.

Lemma is_ascii_lower s :
  PyStr.is_ascii s = true -> PyStr.is_ascii (PyStr.ascii_lower s) = true.
Proof.
  unfold PyStr.is_ascii.
  induction s as [|c s IH]; [reflexivity|].
  cbn [PyStr.ascii_lower PyStr.all_chars]. intro H.
  apply andb_prop in H. destruct H as [Hc Hs].
  rewrite (lower_char_ascii c Hc). exact (IH Hs).
Qed.

(** Lowering first or last gives the same key. *)
Lemma lower_commutes s :
  PyStr.ascii_lower (PyStr.lstrip_at (PyStr.ascii_strip s))
  = PyStr.lstrip_at (PyStr.ascii_strip (PyStr.ascii_lower s)).
Proof.
  unfold PyStr.ascii_strip.
  rewrite lower_lstrip, lower_rstrip, lower_lstrip_at. reflexivity.
Qed.

Section AliasKeys.

Context {RT : Runtime} {LAWS : RuntimeLaws RT}.

(** The stored key of an ASCII alias is canonical: it holds no upper-case
    letter and does not start with '@'; two ASCII aliases that differ only
    in the case of their letters get the same key. *)
Theorem norm_alias_canonical :
  forall (s1 s2 : string),
    PyStr.is_ascii s1 = true ->
    PyStr.is_ascii s2 = true ->
    PyStr.ascii_lower s1 = PyStr.ascii_lower s2 ->
    norm_alias s1 = norm_alias s2 /\
    PyStr.all_chars (fun c => negb (is_upper_char c)) (norm_alias s1) = true /\
    no_leading_at (norm_alias s1) = true.
Proof.
  intros s1 s2 H1 H2 H.
  rewrite (norm_alias_ascii s1 H1), (norm_alias_ascii s2 H2). split; [|split].
  - rewrite !lower_commutes, H. reflexivity.
  - apply lower_no_upper.
  - rewrite lower_no_leading_at. apply lstrip_at_no_leading_at.
Qed.

(** For an ASCII argument without whitespace (a group matched by [\S+]),
    normalizing twice is normalizing once, and one more leading '@' does
    not change the key. *)
Theorem norm_alias_stable :
  forall (s : string),
    PyStr.is_ascii s = true ->
    no_whitespace s = true ->
    norm_alias (norm_alias s) = norm_alias s /\
    norm_alias (String "@" s) = norm_alias s.
Proof.
  intros s Ha H.
  assert (Hn : norm_alias s = PyStr.ascii_lower (PyStr.lstrip_at s))
    by (rewrite (norm_alias_ascii s Ha), (no_whitespace_strip s H);
        reflexivity).
  split.
  - rewrite Hn.
    assert (Ha' : PyStr.is_ascii (PyStr.ascii_lower (PyStr.lstrip_at s)) = true)
      by (apply is_ascii_lower, all_chars_lstrip_at; exact Ha).
    assert (Hw : no_whitespace (PyStr.ascii_lower (PyStr.lstrip_at s)) = true)
      by (rewrite no_whitespace_lower; apply no_whitespace_lstrip_at; exact H).
    assert (Hat : no_leading_at (PyStr.ascii_lower (PyStr.lstrip_at s)) = true)
      by (rewrite lower_no_leading_at; apply lstrip_at_no_leading_at).
    rewrite (norm_alias_ascii _ Ha').
    rewrite (no_whitespace_strip _ Hw), (no_leading_at_lstrip_at _ Hat).
    apply lower_idem.
  - assert (Ha' : PyStr.is_ascii (String "@" s) = true) by exact Ha.
    assert (H' : no_whitespace (String "@" s) = true) by exact H.
    rewrite (norm_alias_ascii _ Ha'), (no_whitespace_strip _ H'), Hn.
    reflexivity.
Qed.

End AliasKeys.

Lemma norm_alias_canonical_witness :
  norm_alias (RT := sample_runtime) " @GabeN "
  = norm_alias (RT := sample_runtime) " @gaben " /\
  PyStr.all_chars (fun c => negb (is_upper_char c))
    (norm_alias (RT := sample_runtime) " @GabeN ") = true /\
  no_leading_at (norm_alias (RT := sample_runtime) " @GabeN ") = true.
Proof.
  apply (norm_alias_canonical (RT := sample_runtime) " @GabeN " " @gaben ");
    reflexivity.
Defined.

Lemma norm_alias_stable_witness :
  norm_alias (RT := sample_runtime) (norm_alias (RT := sample_runtime) "@@Gabe@N")
  = norm_alias (RT := sample_runtime) "@@Gabe@N" /\
  norm_alias (RT := sample_runtime) (String "@" "@@Gabe@N")
  = norm_alias (RT := sample_runtime) "@@Gabe@N".
Proof.
  apply (norm_alias_stable (RT := sample_runtime) "@@Gabe@N"); reflexivity.
Defined.

(* ================================================================== *)
(** ** Numeric identifiers *)
(* ================================================================== *)

Lemma int_acc_bounds s :
  PyStr.all_chars PyStr.is_decimal_char s = true ->
  forall acc v, 0 <= acc -> PyStr.decimal_acc acc s = Some v ->
    acc * 10 ^ Z.of_nat (String.length s) <= v
    < (acc + 1) * 10 ^ Z.of_nat (String.length s).
Proof.
  induction s as [|c s IH]; cbn [PyStr.all_chars PyStr.decimal_acc String.length].
  - intros _ acc v Hacc [= <-]. simpl. lia.
  - intros H acc v Hacc. apply andb_prop in H. destruct H as [Hc Hs].
    rewrite Hc. intro Hv.
    destruct (digit_char_plain c Hc) as [_ [_ Hd]].
    assert (H0 : 0 <= 10 * acc + PyStr.digit_value c) by lia.
    specialize (IH Hs _ _ H0 Hv).
    rewrite Nat2Z.inj_succ, Z.pow_succ_r by lia.
    assert (Hp : 0 < 10 ^ Z.of_nat (String.length s))
      by (apply Z.pow_pos_nonneg; lia).
    nia.
Qed.

Lemma string_of_uint_digits d :
  PyStr.all_chars PyStr.is_decimal_char (NilEmpty.string_of_uint d) = true.
Proof. induction d; simpl; auto. Qed.

Lemma string_of_uint_length d :
  String.length (NilEmpty.string_of_uint d) = nb_digits d.
Proof. induction d; simpl; auto. Qed.

Lemma of_int_digits n :
  0 <= n -> decimal_digits (PyStr.of_int n).
Proof.
  intro Hn. unfold PyStr.of_int.
  destruct n as [|p|p]; [split; [discriminate|reflexivity]| |lia].
  cbn [Z.to_int NilZero.string_of_int].
  destruct (string_of_uint_nonnil _ (DecimalPos.Unsigned.to_uint_nonnil p))
    as [-> Hne].
  split; [|apply string_of_uint_digits].
  intro E. rewrite E in Hne. discriminate Hne.
Qed.

Lemma bounds_step (n acc k v : Z) :
  0 <= acc -> 0 <= k <= 9 -> 0 < n ->
  (10 * acc + k) * n <= v < (10 * acc + k + 1) * n ->
  acc * (10 * n) <= v < (acc + 1) * (10 * n).
Proof. intros. nia. Qed.

Lemma uint_value_bounds d :
  forall acc, 0 <= acc ->
    acc * 10 ^ Z.of_nat (nb_digits d) <= uint_value acc d
    < (acc + 1) * 10 ^ Z.of_nat (nb_digits d).
Proof.
  induction d as [ | d IHd | d IHd | d IHd | d IHd | d IHd | d IHd | d IHd
                   | d IHd | d IHd | d IHd ];
    intros acc Hacc; cbn [nb_digits uint_value];
    [ change (Z.of_nat 0) with 0; rewrite Z.pow_0_r; lia | .. ];
    rewrite Nat2Z.inj_succ, Z.pow_succ_r by lia;
    match goal with
    | |- _ <= uint_value (10 * acc + ?k) _ < _ =>
        apply (bounds_step _ acc k);
          [ lia | lia | apply Z.pow_pos_nonneg; lia | apply IHd; lia ]
    end.
Qed.

(** The numeral of a positive number has no leading zero, so its length
    is bounded by its value. *)
Lemma to_uint_length_bound p :
  10 ^ (Z.of_nat (nb_digits (Pos.to_uint p)) - 1) <= Z.pos p.
Proof.
  pose proof (DecimalPos.Unsigned.of_to p) as Hot.
  assert (Hv : Z.pos p = uint_value 0 (Pos.to_uint p)).
  { rewrite <- of_uint_value. unfold Z.of_uint. rewrite Hot. reflexivity. }
  pose proof (DecimalPos.Unsigned.to_of (Pos.to_uint p)) as Hto.
  rewrite Hot in Hto. change (N.to_uint (N.pos p)) with (Pos.to_uint p) in Hto.
  pose proof (DecimalPos.Unsigned.to_uint_nonzero p) as Hnz.
  rewrite Hv. revert Hto Hnz. generalize (Pos.to_uint p). intros d Hn Hnz.
  assert (Hstep : forall k d', 1 <= k ->
            10 ^ (Z.of_nat (S (nb_digits d')) - 1) <= uint_value k d').
  { intros k d' Hk. rewrite Nat2Z.inj_succ.
    replace (Z.succ (Z.of_nat (nb_digits d')) - 1)
      with (Z.of_nat (nb_digits d')) by lia.
    assert (Hk0 : 0 <= k) by lia.
    pose proof (uint_value_bounds d' k Hk0) as Hb.
    assert (Hp : 0 < 10 ^ Z.of_nat (nb_digits d'))
      by (apply Z.pow_pos_nonneg; lia).
    nia. }
  destruct d as [ | d | d | d | d | d | d | d | d | d | d ];
    cbn [nb_digits uint_value].
  - discriminate Hn.
  - (* a leading zero: not the numeral of a positive number *)
    exfalso. change (unorm (D0 d)) with (unorm d) in Hn.
    destruct (uint_eq_dec d Nil) as [->|Hd]; [apply Hnz; reflexivity|].
    pose proof (nb_digits_unorm d Hd) as Hlen.
    rewrite <- Hn in Hlen. cbn [nb_digits] in Hlen. lia.
  - apply Hstep. lia.
  - apply Hstep. lia.
  - apply Hstep. lia.
  - apply Hstep. lia.
  - apply Hstep. lia.
  - apply Hstep. lia.
  - apply Hstep. lia.
  - apply Hstep. lia.
  - apply Hstep. lia.
Qed.

Lemma of_int_length (n : Z) :
  0 < n ->
  10 ^ (Z.of_nat (String.length (PyStr.of_int n)) - 1) <= n
  < 10 ^ Z.of_nat (String.length (PyStr.of_int n)).
Proof.
  intro Hn. destruct n as [|p|p]; try lia.
  pose proof (of_int_digits (Z.pos p) ltac:(lia)) as [Hne Hall].
  pose proof (int_of_int (Z.pos p) ltac:(lia)) as Hint.
  split.
  - unfold PyStr.of_int. cbn [Z.to_int NilZero.string_of_int].
    destruct (string_of_uint_nonnil _ (DecimalPos.Unsigned.to_uint_nonnil p))
      as [-> _].
    rewrite string_of_uint_length. apply to_uint_length_bound.
  - unfold PyStr.decimal_int in Hint.
    destruct (PyStr.is_empty (PyStr.of_int (Z.pos p))); [discriminate Hint|].
    pose proof (int_acc_bounds _ Hall 0 (Z.pos p) ltac:(lia) Hint). lia.
Qed.

Section NumericIdentifier.

Context {RT : Runtime} {LAWS : RuntimeLaws RT}.

Lemma short_digits_result remote service s w :
  let t := PyStr.lstrip_at (str_strip s) in
  decimal_digits t ->
  PyStr.len t < 16 ->
  exists (r : string) (n : Z),
    norm_identifier remote service s w = (Ok (Some r), w) /\
    decimal_digits r /\
    PyStr.decimal_int r = Some n /\
    STEAMID64_BASE <= n < STEAMID64_BASE + 10 ^ 15 /\
    String.length r = 17%nat.
Proof.
  intros t Hd Hlen.
  destruct (str_isdigit_digits t Hd) as [Hne Hdig].
  pose proof (int_decimal_value t Hd) as Hint.
  pose proof (str_int_digits t Hd Hlen) as Hstr.
  assert (Hv : 0 <= decimal_value t < 10 ^ 15).
  { destruct Hd as [_ Hall]. unfold PyStr.decimal_int in Hint. rewrite Hne in Hint.
    pose proof (int_acc_bounds t Hall 0 _ ltac:(lia) Hint) as Hb.
    rewrite (digits_len t Hall) in Hlen.
    assert (Hm : 10 ^ Z.of_nat (String.length t) <= 10 ^ 15)
      by (apply Z.pow_le_mono_r; lia).
    lia. }
  set (n := decimal_value t + STEAMID64_BASE).
  assert (Hn : STEAMID64_BASE <= n < STEAMID64_BASE + 10 ^ 15)
    by (unfold n; lia).
  assert (Hpos : 0 < n) by (unfold STEAMID64_BASE in Hn; lia).
  exists (PyStr.of_int n), n.
  split.
  { unfold norm_identifier. fold t. cbv zeta. rewrite Hne, Hdig.
    apply Z.ltb_lt in Hlen. rewrite Z.leb_antisym, Hlen. cbn [negb].
    rewrite Hstr. reflexivity. }
  split; [apply of_int_digits; lia|].
  split; [apply int_of_int; lia|].
  split; [exact Hn|].
  pose proof (of_int_length n Hpos) as [Hlo Hhi].
  unfold STEAMID64_BASE in Hn.
  set (k := String.length (PyStr.of_int n)) in *.
  assert (H17 : ~ (Z.of_nat k <= 16)).
  { intro Hk.
    assert (10 ^ Z.of_nat k <= 10 ^ 16) by (apply Z.pow_le_mono_r; lia).
    lia. }
  assert (H18 : ~ (18 <= Z.of_nat k)).
  { intro Hk.
    assert (10 ^ 17 <= 10 ^ (Z.of_nat k - 1)) by (apply Z.pow_le_mono_r; lia).
    lia. }
  lia.
Qed.

(** A numeric input of fewer than 16 digits is read as an account number
    without any range check: the result is always a numeral of exactly 17
    digits whose value lies between 76561197960265728 and
    76561197960265728 + 10^15 (exclusive). *)
Theorem norm_identifier_short_digits_range :
  forall (remote : Remote) (service : SteamService) (s : string) (w : World),
    let t := PyStr.lstrip_at (str_strip s) in
    decimal_digits t ->
    PyStr.len t < 16 ->
    exists (r : string) (n : Z),
      norm_identifier remote service s w = (Ok (Some r), w) /\
      decimal_digits r /\
      PyStr.decimal_int r = Some n /\
      STEAMID64_BASE <= n < STEAMID64_BASE + 10 ^ 15 /\
      String.length r = 17%nat.
Proof.
  intros remote service s w. apply short_digits_result.
Qed.

(** The SteamID64 returned for a numeric input is a fixed point: given
    back to [norm_identifier], with any credential and any remote API, it
    is returned unchanged and no request is sent. *)
Theorem norm_identifier_numeric_fixpoint :
  forall (remote : Remote) (service : SteamService) (s : string) (w : World),
    decimal_digits (PyStr.lstrip_at (str_strip s)) ->
    exists r : string,
      norm_identifier remote service s w = (Ok (Some r), w) /\
      forall (remote' : Remote) (service' : SteamService) (w' : World),
        norm_identifier remote' service' r w' = (Ok (Some r), w').
Proof.
  intros remote service s w Hd.
  set (t := PyStr.lstrip_at (str_strip s)) in *.
  assert (Hfix : forall r, decimal_digits r -> 16 <= PyStr.len r ->
            forall remote' service' w',
              norm_identifier remote' service' r w' = (Ok (Some r), w')).
  { intros r Hr Hl remote' service' w'.
    destruct (str_isdigit_digits r Hr) as [Hne Hdig].
    unfold norm_identifier. cbv zeta.
    rewrite (digits_str_stripped r (proj2 Hr)), Hne, Hdig.
    apply Z.leb_le in Hl. rewrite Hl. reflexivity. }
  destruct (Z_lt_le_dec (PyStr.len t) 16) as [Hlt|Hge].
  - destruct (short_digits_result remote service s w Hd Hlt)
      as [r [n [E [Hr [_ [_ Hlen]]]]]].
    exists r. split; [exact E|].
    apply Hfix; [exact Hr|]. rewrite (digits_len r (proj2 Hr)), Hlen. lia.
  - exists t. split.
    + destruct (str_isdigit_digits t Hd) as [Hne Hdig].
      unfold norm_identifier. fold t. cbv zeta. rewrite Hne, Hdig.
      apply Z.leb_le in Hge. rewrite Hge. reflexivity.
    + apply Hfix; assumption.
Qed.

(** An input that is not numeric: [isdigit()] is false of what [strip] and
    [lstrip("@")] leave of it.  Stripped to nothing it gives [None] without
    a request, as does any name when no credential is configured.  Otherwise
    exactly one vanity request is sent, for the stripped name with the
    configured credential, and a SteamID comes back exactly when the
    response is a JSON object whose "response" is an object with
    [success == 1] and a truthy "steamid": the result is [str] of that
    value.  A failed request and any other response give [None];
    nothing is raised. *)
Theorem norm_identifier_vanity :
  forall (remote : Remote) (service : SteamService) (s : string) (w : World),
    let t := PyStr.lstrip_at (str_strip s) in
    let key := api_key service in
    str_isdigit t = false ->
    (PyStr.is_empty t = true \/ key = EmptyString ->
       norm_identifier remote service s w = (Ok None, w)) /\
    (PyStr.is_empty t = false -> key <> EmptyString ->
       exists x,
         norm_identifier remote service s w
         = (Ok x, mkWorld (disk w)
                    (HttpGet (ResolveVanityURL key t) :: trace w)) /\
         forall sid,
           x = Some sid <->
           exists body resp success v,
             remote (ResolveVanityURL key t) = Some (JDict body) /\
             PyDict.get "response" body = Some (JDict resp) /\
             PyDict.get "success" resp = Some success /\
             py_eq_int success 1 = true /\
             PyDict.get "steamid" resp = Some v /\
             py_truthy v = true /\
             sid = py_str v).
Proof.
  intros remote service s w t key Hnd. split.
  - intros [He|Hk]; unfold norm_identifier; fold t; cbv zeta.
    + rewrite He. reflexivity.
    + destruct (PyStr.is_empty t); [reflexivity|]. rewrite Hnd.
      unfold resolve_vanity. fold key. rewrite Hk. reflexivity.
  - intros He Hk. unfold norm_identifier; fold t; cbv zeta.
    rewrite He, Hnd. unfold resolve_vanity. fold key.
    destruct key as [|c k'] eqn:Ekey; [congruence|]. rewrite <- Ekey.
    assert (Htr : PyStr.truthy key = true) by (rewrite Ekey; reflexivity).
    rewrite Htr. cbn [negb]. unfold bind, http_get, ret.
    eexists. split; [reflexivity|].
    intro sid. destruct (remote (ResolveVanityURL key t)) as [body|].
    2:{ split; [discriminate|]. intros [b [r [su [v [H _]]]]]. discriminate H. }
    split.
    + unfold vanity_of_response, py_get, rbind.
      destruct body as [| | | | |bd]; try discriminate.
      destruct (PyDict.get "response" bd) as [resp|] eqn:Hr;
        [|cbn; discriminate].
      destruct resp as [| | | | |rd]; try discriminate.
      destruct (PyDict.get "success" rd) as [su|] eqn:Hs;
        [|cbn; discriminate].
      destruct (py_eq_int su 1) eqn:Hsu; [|cbn; discriminate].
      destruct (PyDict.get "steamid" rd) as [v|] eqn:Hv;
        [|cbn; discriminate].
      destruct (py_truthy v) eqn:Htv; [|cbn; discriminate].
      cbn [andb py_getitem]. rewrite Hv. intros [= <-].
      exists bd, rd, su, v. repeat split; auto.
    + intros [bd [rd [su [v [[= ->] [Hr [Hs [Hsu [Hv [Htv ->]]]]]]]]]].
      unfold vanity_of_response, py_get, rbind. rewrite Hr, Hs, Hv, Hsu, Htv.
      cbn [andb py_getitem]. rewrite Hv. reflexivity.
Qed.

End NumericIdentifier.

Lemma norm_identifier_short_digits_range_witness :
  exists (r : string) (n : Z),
    norm_identifier (RT := sample_runtime) (fun _ => None) (sample_service "key")
      "999999999999999" (mkWorld None []) = (Ok (Some r), mkWorld None []) /\
    decimal_digits r /\
    PyStr.decimal_int r = Some n /\
    STEAMID64_BASE <= n < STEAMID64_BASE + 10 ^ 15 /\
    String.length r = 17%nat.
Proof.
  apply (norm_identifier_short_digits_range (RT := sample_runtime)
           (fun _ => None) (sample_service "key") "999999999999999"
           (mkWorld None [])).
  - split; [discriminate | reflexivity].
  - reflexivity.
Defined.

Lemma norm_identifier_numeric_fixpoint_witness :
  exists r : string,
    norm_identifier (RT := sample_runtime) (fun _ => None) (sample_service "key")
      " @42 " (mkWorld None []) = (Ok (Some r), mkWorld None []) /\
    forall (remote' : Remote) (service' : SteamService)
           (w' : World (RT := sample_runtime)),
      norm_identifier remote' service' r w' = (Ok (Some r), w').
Proof.
  apply (norm_identifier_numeric_fixpoint (RT := sample_runtime)
           (fun _ => None) (sample_service "key") " @42 " (mkWorld None [])).
  split; [discriminate | reflexivity].
Defined.

Lemma norm_identifier_vanity_witness :
  let w := mkWorld (RT := sample_runtime) None [] in
  norm_identifier sample_remote (sample_service " ") " @gabe" w = (Ok None, w) /\
  exists x,
    norm_identifier sample_remote (sample_service "key") " @gabe" w
    = (Ok x, mkWorld None [HttpGet (ResolveVanityURL "key" "gabe")]) /\
    forall sid,
      x = Some sid <->
      exists body resp success v,
        sample_remote (ResolveVanityURL "key" "gabe") = Some (JDict body) /\
        PyDict.get "response" body = Some (JDict resp) /\
        PyDict.get "success" resp = Some success /\
        py_eq_int success 1 = true /\
        PyDict.get "steamid" resp = Some v /\
        py_truthy v = true /\
        sid = py_str (RT := sample_runtime) v.
Proof.
  split.
  - apply (proj1 (norm_identifier_vanity (RT := sample_runtime) sample_remote
                    (sample_service " ") " @gabe" (mkWorld None []) eq_refl)).
    right. reflexivity.
  - apply (proj2 (norm_identifier_vanity (RT := sample_runtime) sample_remote
                    (sample_service "key") " @gabe" (mkWorld None []) eq_refl)).
    + reflexivity.
    + discriminate.
Defined.

(* ================================================================== *)
(** ** Requests and writes of the handlers *)
(* ================================================================== *)

Section Outcomes.

Context {RT : Runtime}.

Lemma requested_refl (w : World) : requested w w [].
Proof. split; reflexivity. Qed.

Lemma requested_trans (w1 w2 w3 : World) l1 l2 :
  requested w1 w2 l1 -> requested w2 w3 l2 -> requested w1 w3 (l2 ++ l1)%list.
Proof.
  intros [Hd1 Ht1] [Hd2 Ht2]. split; [congruence|].
  rewrite Ht2, Ht1, map_app, List.app_assoc. reflexivity.
Qed.

Lemma http_requests_app l t :
  http_requests (map HttpGet l ++ t)%list = (l ++ http_requests t)%list.
Proof. induction l as [|r l IH]; simpl; [reflexivity|]. rewrite IH. reflexivity. Qed.

Lemma file_writes_app l t :
  file_writes (map HttpGet l ++ t)%list = file_writes t.
Proof. induction l as [|r l IH]; simpl; [reflexivity | exact IH]. Qed.

Lemma requested_reads_only (w w' : World) l :
  requested w w' l -> reads_only w w' /\ sent_between w w' l.
Proof.
  intros [Hd Ht]. unfold reads_only, sent_between. rewrite Ht.
  rewrite file_writes_app, http_requests_app. auto.
Qed.

Lemma resolve_vanity_requested remote service vanity w :
  exists x w' l,
    resolve_vanity remote service vanity w = (Ok x, w') /\
    requested w w' l /\ (List.length l <= 1)%nat /\
    Forall (carries_key service) l.
Proof.
  unfold resolve_vanity.
  destruct (api_key service) as [|c k] eqn:Hk.
  - exists None, w, []. repeat split; auto.
  - rewrite <- Hk. assert (Ht : PyStr.truthy (api_key service) = true)
      by (rewrite Hk; reflexivity).
    rewrite Ht. cbn [negb]. unfold bind, http_get, ret.
    eexists _, _, [ResolveVanityURL (api_key service) vanity].
    split; [reflexivity|]. split; [split; reflexivity|].
    split; [simpl; lia|]. constructor; [|constructor].
    split; [reflexivity | rewrite Hk; discriminate].
Qed.

Lemma get_summary_requested remote service steamid w :
  exists info w' l,
    get_summary remote service steamid w = (Ok info, w') /\
    requested w w' l /\ (List.length l <= 1)%nat /\
    Forall (carries_key service) l.
Proof.
  unfold get_summary.
  destruct (api_key service) as [|c k] eqn:Hk.
  - exists (JDict []), w, []. repeat split; auto.
  - rewrite <- Hk. assert (Ht : PyStr.truthy (api_key service) = true)
      by (rewrite Hk; reflexivity).
    rewrite Ht. cbn [negb]. unfold bind, http_get, ret.
    eexists _, _, [GetPlayerSummaries (api_key service) steamid].
    split; [reflexivity|]. split; [split; reflexivity|].
    split; [simpl; lia|]. constructor; [|constructor].
    split; [reflexivity | rewrite Hk; discriminate].
Qed.

Lemma norm_identifier_requested remote service s w :
  exists x w' l,
    norm_identifier remote service s w = (Ok x, w') /\
    requested w w' l /\ (List.length l <= 1)%nat /\
    Forall (carries_key service) l.
Proof.
  unfold norm_identifier. cbv zeta.
  destruct (PyStr.is_empty _).
  { exists None, w, []. repeat split; auto. }
  destruct (str_isdigit _).
  { destruct (16 <=? _).
    - eexists _, w, []. repeat split; auto.
    - destruct (str_int _); eexists _, w, []; repeat split; auto. }
  apply resolve_vanity_requested.
Qed.

Lemma store_bind_raise store chat a e :
  exists e', store_bind store chat a (Raise e) = Raise e'.
Proof.
  unfold store_bind.
  destruct store as [| | | | |sd]; try (eexists; reflexivity).
  destruct (match PyDict.get chat sd with Some v => v | None => JDict [] end);
    eexists; reflexivity.
Qed.

(** Every run of [do_link] is one of two: nothing is written, and the
    reply is a failure message or an exception; or the reply is the bound
    message and the store, with the new record, is written exactly once,
    after the requests.  At most two requests are sent in either case. *)
Lemma do_link_outcome remote now chat alias ident service w :
  exists r w' l,
    do_link remote now chat alias ident service w = (r, w') /\
    (List.length l <= 2)%nat /\ Forall (carries_key service) l /\
    ((requested w w' l /\
      ((exists e, r = Raise e) \/
       exists reply, r = Ok reply /\ link_failure_reply ident reply))
     \/
     (exists w2 store' record name sid,
        requested w w2 l /\
        store_bind (current_store w) chat (norm_alias alias) (Ok record)
        = Ok store' /\
        record_wf record /\
        w' = mkWorld (Some (json_dump store'))
                     (FileWrite (json_dump store') :: trace w2) /\
        r = Ok (msg_bound (norm_alias alias) name sid))).
Proof.
  unfold do_link.
  destruct (negb (PyStr.truthy (api_key service))).
  { exists (Ok MSG_NO_API_KEY), w, []. split; [reflexivity|].
    split; [simpl; lia|]. split; [constructor|]. left.
    split; [apply requested_refl|]. right. eexists. split; [reflexivity|].
    left. reflexivity. }
  cbv zeta.
  destruct (norm_identifier_requested remote service ident w)
    as [x [w1 [l1 [E1 [R1 [L1 K1]]]]]].
  rewrite (bind_ok _ _ _ _ _ E1).
  destruct (negb (opt_truthy x)) eqn:Hx.
  { exists (Ok (msg_unresolved ident)), w1, l1. split; [reflexivity|].
    split; [lia|]. split; [exact K1|]. left. split; [exact R1|].
    right. eexists. split; [reflexivity|]. right. left. reflexivity. }
  set (sid := match x with Some s0 => s0 | None => PyStr.empty end).
  destruct (get_summary_requested remote service (JStr sid) w1)
    as [info [w2 [l2 [E2 [R2 [L2 K2]]]]]].
  rewrite (bind_ok _ _ _ _ _ E2).
  pose proof (requested_trans _ _ _ _ _ R1 R2) as R12.
  assert (L12 : (List.length (l2 ++ l1) <= 2)%nat)
    by (rewrite List.length_app; lia).
  assert (K12 : Forall (carries_key service) (l2 ++ l1)%list)
    by (apply Forall_app; split; assumption).
  destruct (negb (py_truthy info)) eqn:Hi.
  { exists (Ok (msg_bind_failed sid)), w2, (l2 ++ l1)%list.
    split; [reflexivity|]. split; [exact L12|]. split; [exact K12|].
    left. split; [exact R12|]. right. eexists. split; [reflexivity|].
    right. right. exists sid. reflexivity. }
  rewrite (bind_ok _ _ _ _ _ (load_store_eq w2)).
  destruct (requested_reads_only _ _ _ R12) as [Hro _].
  rewrite (reads_only_store _ _ Hro).
  destruct (link_record sid info now) as [record|e] eqn:Hrec.
  2:{ destruct (store_bind_raise (current_store w) chat (norm_alias alias) e)
        as [e' He'].
      rewrite He'. eexists (Raise e'), w2, (l2 ++ l1)%list.
      split; [reflexivity|]. split; [exact L12|]. split; [exact K12|].
      left. split; [exact R12|]. left. eexists. reflexivity. }
  destruct (store_bind (current_store w) chat (norm_alias alias) (Ok record))
    as [store'|e] eqn:Hb.
  2:{ eexists (Raise e), w2, (l2 ++ l1)%list.
      split; [reflexivity|]. split; [exact L12|]. split; [exact K12|].
      left. split; [exact R12|]. left. eexists. reflexivity. }
  rewrite (bind_lift_ok _ _ _ _ eq_refl).
  unfold link_record, py_get, rbind in Hrec.
  destruct info as [| | | | |i]; try discriminate Hrec.
  injection Hrec as <-.
  eexists _, _, (l2 ++ l1)%list.
  split; [reflexivity|]. split; [exact L12|]. split; [exact K12|].
  right. eexists w2, store', _, _, sid.
  split; [exact R12|]. split; [exact Hb|].
  split; [eexists _, _; split; reflexivity|].
  split; reflexivity.
Qed.

Lemma bound_reply_not_failure ident a name sid :
  ~ link_failure_reply ident (msg_bound a name sid).
Proof.
  intros [H|[H|[x H]]]; discriminate H.
Qed.

(** [do_link] writes the store exactly when it answers with the bound
    message, and then once, as its last effect, after its requests; with
    any other reply, and with any exception, its requests are all it did:
    [data.json] is as it was and nothing was written.  It sends at most two
    requests, each with the configured credential. *)
Theorem do_link_writes_iff_bound :
  forall (remote : Remote) (now : Z) (chat alias ident : string)
         (service : SteamService) (w : World),
    exists r w' l,
      do_link remote now chat alias ident service w = (r, w') /\
      (List.length l <= 2)%nat /\ Forall (carries_key service) l /\
      ((disk w' = disk w /\
        trace w' = (map HttpGet l ++ trace w)%list /\
        forall a name sid, r <> Ok (msg_bound a name sid))
       \/
       (exists store' name sid,
          r = Ok (msg_bound (norm_alias alias) name sid) /\
          disk w' = Some (json_dump store') /\
          trace w'
          = (FileWrite (json_dump store') :: map HttpGet l ++ trace w)%list /\
          exists record,
            lookup_alias store' chat (norm_alias alias) = Ok record /\
            record_wf record)).
Proof.
  intros remote now chat alias ident service w.
  destruct (do_link_outcome remote now chat alias ident service w)
    as [r [w' [l [E [L [K H]]]]]].
  exists r, w', l. split; [exact E|].
  destruct H as [[R Hr] | [w2 [store' [record [name [sid [R [Hb [Hwf [-> ->]]]]]]]]]].
  - destruct R as [Hd Ht].
    split; [exact L|]. split; [exact K|].
    left. split; [exact Hd|]. split; [exact Ht|]. intros a name sid Hbound.
    destruct Hr as [[e ->] | [reply [-> Hf]]]; [discriminate Hbound|].
    injection Hbound as ->. exact (bound_reply_not_failure _ _ _ _ Hf).
  - destruct R as [Hd Ht].
    split; [exact L|]. split; [exact K|].
    right. exists store', name, sid. split; [reflexivity|].
    split; [reflexivity|]. split; [cbn [trace]; rewrite Ht; reflexivity|].
    exists record. split; [|exact Hwf].
    unfold store_bind in Hb.
    destruct (current_store w) as [| | | | |sd]; try discriminate Hb.
    destruct (match PyDict.get chat sd with Some v => v | None => JDict [] end)
      as [| | | | |cd]; try discriminate Hb.
    cbn [rbind] in Hb.
    destruct (match PyDict.get "aliases" cd with Some v => v | None => JDict [] end)
      as [| | | | |ad]; try discriminate Hb.
    injection Hb as <-.
    unfold lookup_alias, chat_aliases, py_get, rbind.
    rewrite !PyDictFacts.get_set_same. reflexivity.
Qed.

Lemma status_of_requested remote target service sid w :
  exists r w' l,
    status_of remote target service sid w = (r, w') /\
    requested w w' l /\ (List.length l <= 1)%nat /\
    Forall (carries_key service) l.
Proof.
  unfold status_of.
  destruct (negb (py_truthy sid)).
  { eexists _, w, []. split; [reflexivity|].
    split; [apply requested_refl|]. split; [simpl; lia | constructor]. }
  destruct (get_summary_requested remote service sid w)
    as [info [w1 [l [E [R [L K]]]]]].
  rewrite (bind_ok _ _ _ _ _ E).
  destruct (negb (py_truthy info)).
  { eexists _, w1, l. repeat split; try reflexivity; try apply R; assumption. }
  unfold bind, lift, ret.
  destruct (status_parts sid info);
    eexists _, w1, l; repeat split; try reflexivity; try apply R; assumption.
Qed.

(** The query handlers never write.  [do_list] leaves the world exactly as
    it is; [do_status] sends at most two requests and [do_whois] at most
    one, each with the configured credential, and does nothing else: this
    holds for every input, store and remote answer, also when the handler
    raises. *)
Theorem query_handlers_read_only :
  forall (remote : Remote) (chat arg : string) (service : SteamService)
         (w : World),
    snd (do_list chat w) = w /\
    (exists l, requested w (snd (do_status remote chat arg service w)) l /\
               (List.length l <= 2)%nat /\ Forall (carries_key service) l) /\
    (exists l, requested w (snd (do_whois remote chat arg service w)) l /\
               (List.length l <= 1)%nat /\ Forall (carries_key service) l).
Proof.
  intros remote chat arg service w. split; [|split].
  - unfold do_list. rewrite (bind_ok _ _ _ _ _ (load_store_eq w)).
    unfold bind, lift, ret.
    destruct (chat_aliases (current_store w) chat) as [al|e]; [|reflexivity].
    destruct (negb (py_truthy al)); [reflexivity|].
    destruct (py_items al) as [items|e]; [|reflexivity].
    destruct (rmap list_line items); reflexivity.
  - unfold do_status. rewrite (bind_ok _ _ _ _ _ (load_store_eq w)).
    destruct (lookup_alias (current_store w) chat (norm_alias arg)) as [rec|e].
    2:{ exists []. split; [apply requested_refl|].
        split; [simpl; lia | constructor]. }
    rewrite (bind_lift_ok _ _ _ _ eq_refl).
    destruct (py_truthy rec).
    + destruct (py_getitem rec "steamid") as [sid|e].
      2:{ exists []. split; [apply requested_refl|].
          split; [simpl; lia | constructor]. }
      rewrite (bind_lift_ok _ _ _ _ eq_refl).
      destruct (status_of_requested remote arg service sid w)
        as [r [w' [l [E [R [L K]]]]]].
      rewrite E. exists l. split; [exact R|]. split; [lia | exact K].
    + destruct (norm_identifier_requested remote service arg w)
        as [x [w1 [l1 [E1 [R1 [L1 K1]]]]]].
      unfold bind at 1. unfold bind at 1. rewrite E1. unfold ret.
      destruct (status_of_requested remote arg service (of_optional x) w1)
        as [r [w' [l [E [R [L K]]]]]].
      rewrite E. exists (l ++ l1)%list.
      split; [exact (requested_trans _ _ _ _ _ R1 R)|].
      split; [rewrite List.length_app; simpl; lia|].
      apply Forall_app. split; assumption.
  - unfold do_whois. cbv zeta.
    rewrite (bind_ok _ _ _ _ _ (load_store_eq w)).
    destruct (lookup_alias (current_store w) chat _) as [rec|e].
    2:{ exists []. split; [apply requested_refl|].
        split; [simpl; lia | constructor]. }
    rewrite (bind_lift_ok _ _ _ _ eq_refl).
    destruct (negb (py_truthy rec)).
    { exists []. split; [apply requested_refl|].
      split; [simpl; lia | constructor]. }
    destruct (py_getitem rec "steamid") as [sid|e].
    2:{ exists []. split; [apply requested_refl|].
        split; [simpl; lia | constructor]. }
    rewrite (bind_lift_ok _ _ _ _ eq_refl).
    destruct (get_summary_requested remote service sid w)
      as [info [w1 [l [E [R [L K]]]]]].
    rewrite (bind_ok _ _ _ _ _ E).
    destruct (negb (py_truthy info)).
    { exists l. split; [exact R|]. split; assumption. }
    unfold bind, lift, ret.
    destruct (whois_lines _ sid info);
      exists l; (split; [exact R|]; split; assumption).
Qed.

End Outcomes.

(* ================================================================== *)
(** ** Unlink, and how link and unlink compose *)
(* ================================================================== *)

Section Unlink.

Context {RT : Runtime}.

Lemma del_set_absent a v d :
  PyDict.get a d = None -> PyDict.del a (PyDict.set a v d) = d.
Proof.
  unfold PyDict.del.
  induction d as [|[k x] d IH]; simpl; intro H.
  - rewrite String.eqb_refl. reflexivity.
  - destruct (String.eqb a k) eqn:E; [discriminate H|].
    simpl. rewrite E. simpl. rewrite (IH H). reflexivity.
Qed.

Lemma do_unlink_missing chat alias w d :
  chat_aliases (current_store w) chat = Ok (JDict d) ->
  PyDict.get (norm_alias alias) d = None ->
  do_unlink chat alias w = (Ok (msg_alias_not_found (norm_alias alias)), w).
Proof.
  intros Hc Hg. unfold do_unlink. cbv zeta. fold (norm_alias alias).
  rewrite (bind_ok _ _ _ _ _ (load_store_eq w)).
  rewrite (bind_lift_ok _ _ _ _ Hc).
  unfold py_contains. rewrite Hg.
  rewrite (bind_lift_ok _ _ _ _ eq_refl). reflexivity.
Qed.

Lemma do_unlink_found chat alias w d v :
  chat_aliases (current_store w) chat = Ok (JDict d) ->
  PyDict.get (norm_alias alias) d = Some v ->
  exists store',
    do_unlink chat alias w
    = (Ok (msg_unbound (norm_alias alias)),
       mkWorld (Some (json_dump store'))
               (FileWrite (json_dump store') :: trace w)) /\
    chat_aliases store' chat = Ok (JDict (PyDict.del (norm_alias alias) d)).
Proof.
  intros Hc Hg.
  destruct (chat_aliases_bound _ _ _ _ _ Hc Hg) as [sd [cd [Hs [Hsc Hal]]]].
  eexists. split.
  - unfold do_unlink. cbv zeta. fold (norm_alias alias).
    rewrite (bind_ok _ _ _ _ _ (load_store_eq w)).
    rewrite (bind_lift_ok _ _ _ _ Hc).
    unfold py_contains. rewrite Hg.
    rewrite (bind_lift_ok _ _ _ _ eq_refl). cbn [negb].
    unfold store_unbind. rewrite Hs, Hsc, Hal.
    unfold py_delitem. rewrite Hg. cbn [rbind].
    rewrite (bind_lift_ok _ _ _ _ eq_refl). reflexivity.
  - unfold chat_aliases, py_get, rbind.
    rewrite !PyDictFacts.get_set_same. reflexivity.
Qed.

Lemma unbound_reply_not_missing a b : msg_unbound a <> msg_alias_not_found b.
Proof. discriminate. Qed.

Lemma do_unlink_outcome chat alias w :
  exists r w',
    do_unlink chat alias w = (r, w') /\
    sent_between w w' [] /\
    ((w' = w /\ r <> Ok (msg_unbound (norm_alias alias)))
     \/
     (exists store',
        r = Ok (msg_unbound (norm_alias alias)) /\
        store_unbind (current_store w) chat (norm_alias alias) = Ok store' /\
        w' = mkWorld (Some (json_dump store'))
                     (FileWrite (json_dump store') :: trace w))).
Proof.
  unfold do_unlink. cbv zeta. fold (norm_alias alias).
  rewrite (bind_ok _ _ _ _ _ (load_store_eq w)).
  assert (Hsame : forall r, r <> Ok (msg_unbound (norm_alias alias)) ->
            exists r0 w', (r, w) = (r0, w') /\ sent_between w w' [] /\
              ((w' = w /\ r0 <> Ok (msg_unbound (norm_alias alias))) \/
               (exists store',
                  r0 = Ok (msg_unbound (norm_alias alias)) /\
                  store_unbind (current_store w) chat (norm_alias alias)
                  = Ok store' /\
                  w' = mkWorld (Some (json_dump store'))
                         (FileWrite (json_dump store') :: trace w)))).
  { intros r Hr. exists r, w. split; [reflexivity|].
    split; [reflexivity|]. left. split; [reflexivity | exact Hr]. }
  destruct (chat_aliases (current_store w) chat) as [al|e];
    [|apply Hsame; discriminate].
  rewrite (bind_lift_ok _ _ _ _ eq_refl).
  destruct (py_contains (norm_alias alias) al) as [present|e];
    [|apply Hsame; discriminate].
  rewrite (bind_lift_ok _ _ _ _ eq_refl).
  destruct present; cbn [negb].
  2:{ apply Hsame. intro H.
      apply (unbound_reply_not_missing (norm_alias alias) (norm_alias alias)).
      congruence. }
  destruct (store_unbind (current_store w) chat (norm_alias alias))
    as [store'|e] eqn:Hu; [|apply Hsame; discriminate].
  rewrite (bind_lift_ok _ _ _ _ eq_refl).
  eexists _, _. split; [reflexivity|]. split; [reflexivity|].
  right. exists store'. repeat split; reflexivity.
Qed.

(** [do_unlink] sends no request.  It writes the store exactly when it
    answers with the unbound message, and then once; with the not-found
    reply, and when it raises, the world is exactly as before. *)
Theorem do_unlink_writes_iff_unbound :
  forall (chat alias : string) (w : World),
    exists r w',
      do_unlink chat alias w = (r, w') /\
      sent_between w w' [] /\
      ((w' = w /\ r <> Ok (msg_unbound (norm_alias alias)))
       \/
       (exists store',
          r = Ok (msg_unbound (norm_alias alias)) /\
          store_unbind (current_store w) chat (norm_alias alias) = Ok store' /\
          w' = mkWorld (Some (json_dump store'))
                       (FileWrite (json_dump store') :: trace w))).
Proof.
  intros chat alias w. apply do_unlink_outcome.
Qed.

(** Unlinking twice: after a successful unlink, unlinking the same alias
    again answers not-found and changes nothing. *)
Theorem do_unlink_twice :
  forall (chat alias : string) (w : World) (d : list (string * json))
         (v : json),
    (forall j, json_load (json_dump j) = Some j) ->
    chat_aliases (current_store w) chat = Ok (JDict d) ->
    PyDict.get (norm_alias alias) d = Some v ->
    let w1 := snd (do_unlink chat alias w) in
    fst (do_unlink chat alias w) = Ok (msg_unbound (norm_alias alias)) /\
    do_unlink chat alias w1 = (Ok (msg_alias_not_found (norm_alias alias)), w1).
Proof.
  intros chat alias w d v Hrt Hc Hg w1.
  destruct (do_unlink_found chat alias w d v Hc Hg) as [store' [E Hc']].
  unfold w1. rewrite E. split; [reflexivity|]. cbn [snd].
  apply (do_unlink_missing chat alias _ (PyDict.del (norm_alias alias) d)).
  - unfold current_store. cbn [disk]. rewrite Hrt. exact Hc'.
  - apply PyDictFacts.get_del_same.
Qed.

(** Link then unlink: binding an alias that was not bound and unlinking it
    (under any spelling with the same normal form) gives the chat's alias
    mapping back exactly as it was before the link. *)
Theorem link_then_unlink_restores :
  forall (remote : Remote) (now : Z) (chat alias alias' ident : string)
         (service : SteamService) (w w1 w2 : World) (sid : string)
         (i d : list (string * json)),
    (forall j, json_load (json_dump j) = Some j) ->
    PyStr.truthy (api_key service) = true ->
    norm_identifier remote service ident w = (Ok (Some sid), w1) ->
    PyStr.truthy sid = true ->
    get_summary remote service (JStr sid) w1 = (Ok (JDict i), w2) ->
    i <> [] ->
    chat_aliases (current_store w) chat = Ok (JDict d) ->
    PyDict.get (norm_alias alias) d = None ->
    norm_alias alias' = norm_alias alias ->
    let wl := snd (do_link remote now chat alias ident service w) in
    let wu := snd (do_unlink chat alias' wl) in
    fst (do_unlink chat alias' wl) = Ok (msg_unbound (norm_alias alias)) /\
    chat_aliases (current_store wu) chat = Ok (JDict d).
Proof.
  intros remote now chat alias alias' ident service w w1 w2 sid i d
         Hrt Hk Hn Hsid Hs Hi Hc Hg Ha wl wu.
  destruct (do_link_success remote now chat alias ident service
              w w1 w2 sid i d Hk Hn Hsid Hs Hi Hc) as [s1 [E1 Hc1]].
  assert (Hwl : chat_aliases (current_store wl) chat
                = Ok (JDict (PyDict.set (norm_alias alias)
                               (alias_record sid (summary_field "profileurl" i)
                                  (summary_field "personaname" i) now) d))).
  { unfold wl. rewrite E1. unfold current_store. cbn [snd disk].
    rewrite Hrt. exact Hc1. }
  assert (Hgl : PyDict.get (norm_alias alias')
                  (PyDict.set (norm_alias alias)
                     (alias_record sid (summary_field "profileurl" i)
                        (summary_field "personaname" i) now) d)
                = Some (alias_record sid (summary_field "profileurl" i)
                          (summary_field "personaname" i) now))
    by (rewrite Ha; apply PyDictFacts.get_set_same).
  destruct (do_unlink_found chat alias' wl _ _ Hwl Hgl) as [s2 [E2 Hc2]].
  unfold wu. rewrite E2. cbn [fst snd]. rewrite Ha. split; [reflexivity|].
  unfold current_store. cbn [disk]. rewrite Hrt.
  rewrite Ha in Hc2. rewrite (del_set_absent _ _ _ Hg) in Hc2. exact Hc2.
Qed.

End Unlink.

Lemma do_unlink_twice_witness :
  let w1 := snd (do_unlink (RT := sample_runtime) "g" "@Foo" sample_world) in
  fst (do_unlink (RT := sample_runtime) "g" "@Foo" sample_world)
  = Ok (msg_unbound "foo") /\
  do_unlink "g" "@Foo" w1 = (Ok (msg_alias_not_found "foo"), w1).
Proof.
  apply (do_unlink_twice (RT := sample_runtime) "g" "@Foo" sample_world
           [ ("foo", alias_record "76561197960265729"
                       (JStr "https://steamcommunity.com/id/foo/")
                       (JStr "Foo") 100) ]
           (alias_record "76561197960265729"
              (JStr "https://steamcommunity.com/id/foo/") (JStr "Foo") 100));
    reflexivity.
Defined.

Lemma link_then_unlink_restores_witness :
  let wl := snd (do_link (RT := sample_runtime) sample_remote 7 "g" "Gabe"
                   "gabe" (sample_service "key") sample_world) in
  let wu := snd (do_unlink "g" " @GABE " wl) in
  fst (do_unlink "g" " @GABE " wl) = Ok (msg_unbound "gabe") /\
  chat_aliases (current_store wu) "g"
  = Ok (JDict [ ("foo", alias_record "76561197960265729"
                          (JStr "https://steamcommunity.com/id/foo/")
                          (JStr "Foo") 100) ]).
Proof.
  eapply (link_then_unlink_restores (RT := sample_runtime) sample_remote 7
            "g" "Gabe" " @GABE " "gabe" (sample_service "key") sample_world
            _ _ "76561197960287930"
            (sample_player (JStr "76561197960287930"))).
  - reflexivity.
  - reflexivity.
  - reflexivity.
  - reflexivity.
  - reflexivity.
  - discriminate.
  - reflexivity.
  - reflexivity.
  - reflexivity.
Defined.

(* ================================================================== *)
(** ** Chats are kept apart; the stores the plugin writes *)
(* ================================================================== *)

Section Isolation.

Context {RT : Runtime}.

Lemma store_bind_inv store chat a rec store' :
  store_bind store chat a (Ok rec) = Ok store' ->
  exists sd cd d,
    store = JDict sd /\
    chat_aliases store chat = Ok (JDict d) /\
    store' = JDict (PyDict.set chat
               (JDict (PyDict.set "aliases" (JDict (PyDict.set a rec d)) cd)) sd).
Proof.
  unfold store_bind, chat_aliases, py_get, rbind. intro H.
  destruct store as [| | | | |sd]; try discriminate H.
  destruct (PyDict.get chat sd) as [scope|].
  - destruct scope as [| | | | |cd]; try discriminate H.
    destruct (PyDict.get "aliases" cd) as [al|].
    + destruct al as [| | | | |d]; try discriminate H.
      injection H as <-. exists sd, cd, d. repeat split.
    + injection H as <-. exists sd, cd, []. repeat split.
  - injection H as <-. exists sd, [], []. repeat split.
Qed.

Lemma store_unbind_inv store chat a store' :
  store_unbind store chat a = Ok store' ->
  exists sd cd d,
    store = JDict sd /\
    chat_aliases store chat = Ok (JDict d) /\
    store' = JDict (PyDict.set chat
               (JDict (PyDict.set "aliases" (JDict (PyDict.del a d)) cd)) sd).
Proof.
  unfold store_unbind, chat_aliases, py_get, rbind, py_delitem. intro H.
  destruct store as [| | | | |sd]; try discriminate H.
  destruct (PyDict.get chat sd) as [scope|]; [|discriminate H].
  destruct scope as [| | | | |cd]; try discriminate H.
  destruct (PyDict.get "aliases" cd) as [al|]; [|discriminate H].
  destruct al as [| | | | |d]; try discriminate H.
  destruct (PyDict.get a d); [|discriminate H].
  injection H as <-. exists sd, cd, d. repeat split.
Qed.

Lemma set_chat_other sd chat scope c dflt :
  c <> chat ->
  py_get (JDict (PyDict.set chat scope sd)) c dflt = py_get (JDict sd) c dflt.
Proof.
  intro H. unfold py_get. rewrite (PyDictFacts.get_set_other chat c scope sd H).
  reflexivity.
Qed.

Lemma set_chat_same sd chat cd al :
  chat_aliases
    (JDict (PyDict.set chat (JDict (PyDict.set "aliases" al cd)) sd)) chat
  = Ok al.
Proof.
  unfold chat_aliases, py_get, rbind.
  rewrite !PyDictFacts.get_set_same. reflexivity.
Qed.

Lemma do_list_same_scope c (w w1 : World) :
  chat_aliases (current_store w1) c = chat_aliases (current_store w) c ->
  fst (do_list c w1) = fst (do_list c w).
Proof.
  intro H. unfold do_list.
  rewrite (bind_ok _ _ _ _ _ (load_store_eq w1)).
  rewrite (bind_ok _ _ _ _ _ (load_store_eq w)).
  unfold bind, lift, ret. rewrite H.
  destruct (chat_aliases (current_store w) c) as [al|e]; [|reflexivity].
  destruct (negb (py_truthy al)); [reflexivity|].
  destruct (py_items al) as [items|e]; [|reflexivity].
  destruct (rmap list_line items); reflexivity.
Qed.

(** The store after [do_link] and after [do_unlink]: as before, or the
    store with one chat's scope replaced. *)
Lemma store_after_link remote now chat alias ident service w :
  (forall j, json_load (json_dump j) = Some j) ->
  let w' := snd (do_link remote now chat alias ident service w) in
  current_store w' = current_store w \/
  exists record,
    record_wf record /\
    store_bind (current_store w) chat (norm_alias alias) (Ok record)
    = Ok (current_store w').
Proof.
  intros Hrt w'. unfold w'.
  destruct (do_link_outcome remote now chat alias ident service w)
    as [r [w1 [l [E [_ [_ H]]]]]].
  rewrite E. cbn [snd].
  destruct H as [[R _] | [w2 [store' [record [name [sid [_ [Hb [Hwf [-> _]]]]]]]]]].
  - left. destruct (requested_reads_only _ _ _ R) as [Hro _].
    apply reads_only_store. exact Hro.
  - right. exists record. split; [exact Hwf|].
    unfold current_store at 2. cbn [disk]. rewrite Hrt. exact Hb.
Qed.

Lemma store_after_unlink chat alias w :
  (forall j, json_load (json_dump j) = Some j) ->
  let w' := snd (do_unlink chat alias w) in
  current_store w' = current_store w \/
  store_unbind (current_store w) chat (norm_alias alias)
  = Ok (current_store w').
Proof.
  intros Hrt w'. unfold w'.
  destruct (do_unlink_outcome chat alias w) as [r [w1 [E [_ H]]]].
  rewrite E. cbn [snd].
  destruct H as [[-> _] | [store' [_ [Hu ->]]]]; [left; reflexivity|].
  right. unfold current_store at 2. cbn [disk]. rewrite Hrt. exact Hu.
Qed.

(** Bindings are kept per chat: whatever [do_link] and [do_unlink] do in
    one chat, the scope of every other chat in the store is the same
    afterwards, and [do_list] in the other chat answers as before. *)
Theorem other_chats_untouched :
  forall (remote : Remote) (now : Z) (chat other alias ident : string)
         (service : SteamService) (w : World),
    (forall j, json_load (json_dump j) = Some j) ->
    other <> chat ->
    let wl := snd (do_link remote now chat alias ident service w) in
    let wu := snd (do_unlink chat alias w) in
    (forall dflt, py_get (current_store wl) other dflt
                  = py_get (current_store w) other dflt) /\
    fst (do_list other wl) = fst (do_list other w) /\
    (forall dflt, py_get (current_store wu) other dflt
                  = py_get (current_store w) other dflt) /\
    fst (do_list other wu) = fst (do_list other w).
Proof.
  intros remote now chat other alias ident service w Hrt Hne wl wu.
  assert (Hl : forall dflt, py_get (current_store wl) other dflt
                            = py_get (current_store w) other dflt).
  { intro dflt.
    destruct (store_after_link remote now chat alias ident service w Hrt)
      as [H | [record [_ H]]]; fold wl in H; [rewrite H; reflexivity|].
    destruct (store_bind_inv _ _ _ _ _ H) as [sd [cd [d [Hs [_ Hs']]]]].
    rewrite Hs', Hs. apply set_chat_other. exact Hne. }
  assert (Hu : forall dflt, py_get (current_store wu) other dflt
                            = py_get (current_store w) other dflt).
  { intro dflt.
    destruct (store_after_unlink chat alias w Hrt) as [H | H];
      fold wu in H; [rewrite H; reflexivity|].
    destruct (store_unbind_inv _ _ _ _ H) as [sd [cd [d [Hs [_ Hs']]]]].
    rewrite Hs', Hs. apply set_chat_other. exact Hne. }
  split; [exact Hl|]. split.
  - apply do_list_same_scope. unfold chat_aliases. rewrite Hl. reflexivity.
  - split; [exact Hu|].
    apply do_list_same_scope. unfold chat_aliases. rewrite Hu. reflexivity.
Qed.

Lemma record_wf_values d a rec :
  (forall k v, PyDict.get k d = Some v -> record_wf v) ->
  record_wf rec ->
  forall k v, PyDict.get k (PyDict.set a rec d) = Some v -> record_wf v.
Proof.
  intros Hd Hr k v H. destruct (get_set_inv _ _ _ _ _ H) as [[_ ->]|[_ H']].
  - exact Hr.
  - exact (Hd k v H').
Qed.

Lemma get_del_some a k v d :
  PyDict.get k (PyDict.del a d) = Some v -> PyDict.get k d = Some v.
Proof.
  destruct (string_dec k a) as [->|Hne].
  - rewrite PyDictFacts.get_del_same. discriminate.
  - rewrite (PyDictFacts.get_del_other a k d Hne). auto.
Qed.

Lemma store_wf_replace sd chat cd d d' :
  store_wf (JDict sd) ->
  chat_aliases (JDict sd) chat = Ok (JDict d) ->
  (forall k v, PyDict.get k d' = Some v -> record_wf v) ->
  store_wf (JDict (PyDict.set chat
              (JDict (PyDict.set "aliases" (JDict d') cd)) sd)).
Proof.
  intros [Hsh Hrec] Hc Hd'. split; [apply store_shaped_set; exact Hsh|].
  intros c dc Hdc k v Hk.
  destruct (string_dec c chat) as [->|Hne].
  - rewrite set_chat_same in Hdc. injection Hdc as <-. exact (Hd' k v Hk).
  - unfold chat_aliases in Hdc. rewrite (set_chat_other _ _ _ _ _ Hne) in Hdc.
    exact (Hrec c dc Hdc k v Hk).
Qed.

(** Every store the plugin writes is well formed: a dict of chat scopes
    whose alias mappings are dicts, each alias bound to a dict with a
    "steamid".  [do_link] and [do_unlink] keep that, so from an absent
    [data.json] on the handlers only ever read well-formed stores. *)
Theorem handlers_keep_store_wf :
  forall (w : World),
    (forall j, json_load (json_dump j) = Some j) ->
    store_wf (current_store w) ->
    (forall remote now chat alias ident service,
        store_wf
          (current_store (snd (do_link remote now chat alias ident service w)))) /\
    (forall chat alias,
        store_wf (current_store (snd (do_unlink chat alias w)))).
Proof.
  intros w Hrt Hwf. split.
  - intros remote now chat alias ident service.
    destruct (store_after_link remote now chat alias ident service w Hrt)
      as [H | [record [Hr H]]]; [rewrite H; exact Hwf|].
    destruct (store_bind_inv _ _ _ _ _ H) as [sd [cd [d [Hs [Hc Hs']]]]].
    rewrite Hs'. rewrite Hs in Hwf, Hc.
    apply (store_wf_replace sd chat cd d); [exact Hwf | exact Hc|].
    apply record_wf_values; [|exact Hr].
    destruct Hwf as [_ Hrec]. exact (Hrec chat d Hc).
  - intros chat alias.
    destruct (store_after_unlink chat alias w Hrt) as [H | H];
      [rewrite H; exact Hwf|].
    destruct (store_unbind_inv _ _ _ _ H) as [sd [cd [d [Hs [Hc Hs']]]]].
    rewrite Hs'. rewrite Hs in Hwf, Hc.
    apply (store_wf_replace sd chat cd d); [exact Hwf | exact Hc|].
    intros k v Hk. destruct Hwf as [_ Hrec].
    exact (Hrec chat d Hc k v (get_del_some _ _ _ _ Hk)).
Qed.

Lemma store_wf_empty : store_wf (JDict []).
Proof.
  split; [apply store_shaped_empty|].
  intros chat d H. injection H as <-. intros a v Ha. discriminate Ha.
Qed.

Lemma rmap_list_line_wf d :
  (forall k v, In (k, v) d -> record_wf v) ->
  exists out, rmap list_line d = Ok out.
Proof.
  induction d as [|[k v] d IH]; intro H; [exists []; reflexivity|].
  destruct (H k v (or_introl eq_refl)) as [r [sid [-> _]]].
  destruct IH as [out Hout]; [intros k' v' Hin; apply (H k' v'); right; exact Hin|].
  cbn [rmap list_line py_get rbind]. rewrite Hout. eexists. reflexivity.
Qed.

Lemma get_of_in (d : list (string * json)) :
  PyDict.unique_keys d ->
  forall k v, In (k, v) d -> PyDict.get k d = Some v.
Proof.
  unfold PyDict.unique_keys.
  induction d as [|[k0 v0] d IH]; intros Hu k v Hin; [destruct Hin|].
  inversion Hu as [|? ? Hnot Hnd]; subst. simpl.
  destruct Hin as [[= -> ->]|Hin].
  - rewrite String.eqb_refl. reflexivity.
  - destruct (String.eqb k k0) eqn:E; [|exact (IH Hnd k v Hin)].
    apply String.eqb_eq in E. subst k0. exfalso. apply Hnot.
    apply in_map_iff. exists (k, v). split; [reflexivity | exact Hin].
Qed.

(** On a well-formed store, [do_list] and [do_unlink] never raise: each
    returns a reply, for every chat and alias. *)
Theorem list_and_unlink_do_not_raise :
  forall (chat alias : string) (w : World) (d : list (string * json)),
    store_wf (current_store w) ->
    chat_aliases (current_store w) chat = Ok (JDict d) ->
    PyDict.unique_keys d ->
    (exists reply, do_list chat w = (Ok reply, w)) /\
    (exists reply w', do_unlink chat alias w = (Ok reply, w')).
Proof.
  intros chat alias w d [_ Hrec] Hc Hu. split.
  - unfold do_list. rewrite (bind_ok _ _ _ _ _ (load_store_eq w)).
    rewrite (bind_lift_ok _ _ _ _ Hc).
    destruct (negb (py_truthy (JDict d))); [eexists; reflexivity|].
    cbn [py_items]. rewrite (bind_lift_ok _ _ _ _ eq_refl).
    destruct (rmap_list_line_wf d) as [out Hout].
    { intros k v Hin. apply (Hrec chat d Hc k v). apply get_of_in; assumption. }
    rewrite (bind_lift_ok _ _ _ _ Hout). eexists. reflexivity.
  - destruct (PyDict.get (norm_alias alias) d) as [v|] eqn:Hg.
    + destruct (do_unlink_found chat alias w d v Hc Hg) as [s' [E _]].
      rewrite E. eexists _, _. reflexivity.
    + rewrite (do_unlink_missing chat alias w d Hc Hg).
      eexists _, _. reflexivity.
Qed.

End Isolation.

Lemma other_chats_untouched_witness :
  let wl := snd (do_link (RT := sample_runtime) sample_remote 7 "h" "Gabe"
                   "gabe" (sample_service "key") sample_world) in
  let wu := snd (do_unlink (RT := sample_runtime) "h" "Gabe" sample_world) in
  (forall dflt, py_get (current_store wl) "g" dflt
                = py_get (current_store sample_world) "g" dflt) /\
  fst (do_list "g" wl) = fst (do_list "g" sample_world) /\
  (forall dflt, py_get (current_store wu) "g" dflt
                = py_get (current_store sample_world) "g" dflt) /\
  fst (do_list "g" wu) = fst (do_list "g" sample_world).
Proof.
  apply (other_chats_untouched (RT := sample_runtime) sample_remote 7 "h" "g"
           "Gabe" "gabe" (sample_service "key") sample_world).
  - reflexivity.
  - discriminate.
Defined.

Lemma handlers_keep_store_wf_witness :
  (forall remote now chat alias ident service,
      store_wf
        (current_store
           (snd (do_link (RT := sample_runtime) remote now chat alias ident
                   service (mkWorld None []))))) /\
  (forall chat alias,
      store_wf
        (current_store
           (snd (do_unlink (RT := sample_runtime) chat alias (mkWorld None []))))).
Proof.
  apply (handlers_keep_store_wf (RT := sample_runtime) (mkWorld None [])).
  - reflexivity.
  - exact store_wf_empty.
Defined.

Lemma sample_store_wf : store_wf sample_store.
Proof.
  split.
  - eexists. split; [reflexivity|]. intros chat scope H. simpl in H.
    destruct (String.eqb chat "g"); [|discriminate H]. injection H as <-.
    eexists. split; [reflexivity|]. intros al Ha. injection Ha as <-.
    eexists. reflexivity.
  - intros chat d H a v Ha. unfold chat_aliases, py_get, rbind in H.
    simpl in H. destruct (String.eqb chat "g").
    + injection H as <-. simpl in Ha.
      destruct (String.eqb a "foo"); [|discriminate Ha]. injection Ha as <-.
      eexists _, _. split; reflexivity.
    + injection H as <-. discriminate Ha.
Qed.

Lemma list_and_unlink_do_not_raise_witness :
  (exists reply, do_list (RT := sample_runtime) "g" sample_world
                 = (Ok reply, sample_world)) /\
  (exists reply w', do_unlink (RT := sample_runtime) "g" "foo" sample_world
                    = (Ok reply, w')).
Proof.
  apply (list_and_unlink_do_not_raise (RT := sample_runtime) "g" "foo"
           sample_world
           [ ("foo", alias_record "76561197960265729"
                       (JStr "https://steamcommunity.com/id/foo/")
                       (JStr "Foo") 100) ]).
  - exact sample_store_wf.
  - reflexivity.
  - constructor; [intros [] | constructor].
Defined.

(* ================================================================== *)
(** ** Listing, whois and malformed summaries *)
(* ================================================================== *)

Section Replies.

Context {RT : Runtime}.

Lemma rmap_list_line_bindings (bindings : list (string * list (string * json))) :
  rmap list_line (map (fun e => (fst e, JDict (snd e))) bindings)
  = Ok (map (fun e => list_entry (fst e) (snd e)) bindings).
Proof.
  induction bindings as [|[a r] bs IH]; [reflexivity|].
  cbn [map rmap list_line fst snd py_get rbind]. rewrite IH. reflexivity.
Qed.

(** [do_list] on a chat with bindings answers with the header line and
    then one line per alias, in the order of the alias mapping, each
    showing the alias, the stored persona name ("-" when there is none)
    and the stored steamid; the world is untouched. *)
Theorem do_list_lines :
  forall (chat : string) (w : World)
         (bindings : list (string * list (string * json))),
    chat_aliases (current_store w) chat
    = Ok (JDict (map (fun e => (fst e, JDict (snd e))) bindings)) ->
    bindings <> [] ->
    do_list chat w
    = (Ok (String.concat PyStr.nl
             ("本群绑定列表：" :: map (fun e => list_entry (fst e) (snd e)) bindings)),
       w).
Proof.
  intros chat w bindings Hc Hne. unfold do_list.
  rewrite (bind_ok _ _ _ _ _ (load_store_eq w)).
  rewrite (bind_lift_ok _ _ _ _ Hc).
  destruct bindings as [|b bs]; [congruence|].
  cbn [map py_truthy negb py_items].
  rewrite (bind_lift_ok _ _ _ _ eq_refl).
  pose proof (rmap_list_line_bindings (b :: bs)) as Hr. cbn [map] in Hr.
  rewrite (bind_lift_ok _ _ _ _ Hr). reflexivity.
Qed.

Lemma keys_set_present a x v d :
  PyDict.get a d = Some v -> map fst (PyDict.set a x d) = map fst d.
Proof.
  induction d as [|[k y] d IH]; simpl; [discriminate|].
  destruct (String.eqb a k) eqn:E; simpl.
  - intros _. apply String.eqb_eq in E. subst k. reflexivity.
  - intro H. rewrite (IH H). reflexivity.
Qed.

Lemma keys_set_absent a x d :
  PyDict.get a d = None -> map fst (PyDict.set a x d) = (map fst d ++ [a])%list.
Proof.
  induction d as [|[k y] d IH]; simpl; [reflexivity|].
  destruct (String.eqb a k) eqn:E; simpl; [discriminate|].
  intro H. rewrite (IH H). reflexivity.
Qed.

(** Order of the listing: a successful link of an alias that is already
    bound keeps the alias where it is among the chat's aliases; a new
    alias goes last.  No other alias moves. *)
Theorem link_keeps_listing_order :
  forall (remote : Remote) (now : Z) (chat alias ident : string)
         (service : SteamService) (w w1 w2 : World) (sid : string)
         (i d : list (string * json)),
    (forall j, json_load (json_dump j) = Some j) ->
    PyStr.truthy (api_key service) = true ->
    norm_identifier remote service ident w = (Ok (Some sid), w1) ->
    PyStr.truthy sid = true ->
    get_summary remote service (JStr sid) w1 = (Ok (JDict i), w2) ->
    i <> [] ->
    chat_aliases (current_store w) chat = Ok (JDict d) ->
    let wl := snd (do_link remote now chat alias ident service w) in
    exists d',
      chat_aliases (current_store wl) chat = Ok (JDict d') /\
      map fst d'
      = match PyDict.get (norm_alias alias) d with
        | Some _ => map fst d
        | None => (map fst d ++ [norm_alias alias])%list
        end.
Proof.
  intros remote now chat alias ident service w w1 w2 sid i d
         Hrt Hk Hn Hsid Hs Hi Hc wl.
  destruct (do_link_success remote now chat alias ident service
              w w1 w2 sid i d Hk Hn Hsid Hs Hi Hc) as [s1 [E1 Hc1]].
  eexists. split.
  - unfold wl. rewrite E1. unfold current_store. cbn [snd disk].
    rewrite Hrt. exact Hc1.
  - destruct (PyDict.get (norm_alias alias) d) as [v|] eqn:Hg.
    + apply (keys_set_present _ _ v). exact Hg.
    + apply keys_set_absent. exact Hg.
Qed.

(** [do_whois] on a bound alias asks the remote API about the stored
    steamid (the alias is not resolved again).  With an empty summary the
    reply is the no-detail message with the stored steamid; with a summary
    object it is the name line, the profile URL when there is one, and the
    privacy caveat unless [communityvisibilitystate] is 3. *)
Theorem do_whois_bound :
  forall (remote : Remote) (chat alias : string) (service : SteamService)
         (w w' : World) (r : list (string * json)) (sid info : json),
    lookup_alias (current_store w) chat (norm_alias alias) = Ok (JDict r) ->
    PyDict.get "steamid" r = Some sid ->
    get_summary remote service sid w = (Ok info, w') ->
    (py_truthy info = false ->
     do_whois remote chat alias service w
     = (Ok (msg_whois_unavailable (norm_alias alias) (py_str sid)), w')) /\
    (forall d, info = JDict d -> d <> [] ->
     do_whois remote chat alias service w
     = (Ok (String.concat PyStr.nl
              ((norm_alias alias ++ " -> "
                  ++ py_str (match PyDict.get "personaname" d with
                             | Some v => v
                             | None => JStr "<未公开>"
                             end)
                  ++ "（" ++ py_str sid ++ "）")
               :: List.app
                    (if field_truthy "profileurl" d
                     then ["档案: " ++ py_str (field "profileurl" d)] else [])
                    (if negb (py_eq_int (field "communityvisibilitystate" d) 3)
                     then ["该用户资料未公开或部分未公开。"] else []))),
        w')).
Proof.
  intros remote chat alias service w w' r sid info Hl Hg Hs.
  assert (Ht : py_truthy (JDict r) = true)
    by (destruct r; [discriminate Hg | reflexivity]).
  assert (Hi : py_getitem (JDict r) "steamid" = Ok sid)
    by (unfold py_getitem; rewrite Hg; reflexivity).
  assert (E :
    do_whois remote chat alias service w
    = (if negb (py_truthy info)
       then ret (msg_whois_unavailable (norm_alias alias) (py_str sid))
       else bind (lift (whois_lines (norm_alias alias) sid info))
              (fun lines => ret (String.concat PyStr.nl lines))) w').
  { unfold do_whois. cbv zeta. fold (norm_alias alias).
    rewrite (bind_ok _ _ _ _ _ (load_store_eq w)).
    rewrite (bind_lift_ok _ _ _ _ Hl). rewrite Ht. cbn [negb].
    rewrite (bind_lift_ok _ _ _ _ Hi).
    rewrite (bind_ok _ _ _ _ _ Hs). reflexivity. }
  split.
  - intro Hf. rewrite E, Hf. reflexivity.
  - intros d -> Hd. rewrite E.
    assert (Htd : py_truthy (JDict d) = true)
      by (destruct d; [congruence | reflexivity]).
    rewrite Htd. cbn [negb].
    unfold whois_lines, py_get, rbind.
    fold (field "profileurl" d). fold (field "communityvisibilitystate" d).
    rewrite field_truthy_eq.
    destruct (py_eq_int (field "communityvisibilitystate" d) 3); reflexivity.
Qed.

Lemma store_bind_attribute_error store chat a :
  store_bind store chat a (Raise AttributeError) = Raise AttributeError.
Proof.
  unfold store_bind.
  destruct store as [| | | | |sd]; try reflexivity.
  destruct (match PyDict.get chat sd with Some v => v | None => JDict [] end);
    reflexivity.
Qed.

(** A summary that is truthy without being an object (the first element of
    "players" is a string or a number, or "players" is itself a non-empty
    string) is not rejected: [do_link] and [do_status] then raise
    [AttributeError] after the request, and nothing is written. *)
Theorem non_object_summary_raises :
  forall (remote : Remote) (now : Z) (chat alias ident target : string)
         (service : SteamService) (w w1 w2 : World) (sid : string)
         (info : json),
    py_truthy info = true ->
    (forall d, info <> JDict d) ->
    get_summary remote service (JStr sid) w1 = (Ok info, w2) ->
    PyStr.truthy sid = true ->
    (PyStr.truthy (api_key service) = true ->
     norm_identifier remote service ident w = (Ok (Some sid), w1) ->
     do_link remote now chat alias ident service w = (Raise AttributeError, w2)) /\
    status_of remote target service (JStr sid) w1 = (Raise AttributeError, w2) /\
    reads_only w1 w2.
Proof.
  intros remote now chat alias ident target service w w1 w2 sid info
         Hi Hnd Hs Hsid.
  assert (Hget : forall k dflt, py_get info k dflt = Raise AttributeError).
  { intros k dflt. destruct info as [| | | | |d]; try reflexivity.
    exfalso. exact (Hnd d eq_refl). }
  split; [|split].
  - intros Hk Hn. unfold do_link. rewrite Hk. cbn [negb]. cbv zeta.
    rewrite (bind_ok _ _ _ _ _ Hn). cbn [opt_truthy]. rewrite Hsid.
    cbn [negb]. rewrite (bind_ok _ _ _ _ _ Hs). rewrite Hi. cbn [negb].
    rewrite (bind_ok _ _ _ _ _ (load_store_eq w2)).
    unfold link_record. rewrite Hget. cbn [rbind].
    rewrite store_bind_attribute_error. reflexivity.
  - unfold status_of. cbn [py_truthy]. rewrite Hsid. cbn [negb].
    rewrite (bind_ok _ _ _ _ _ Hs). rewrite Hi. cbn [negb].
    unfold status_parts. rewrite Hget. reflexivity.
  - destruct (get_summary_total remote service (JStr sid) w1)
      as [i' [w' [E [R _]]]].
    rewrite Hs in E. injection E as <- <-. exact R.
Qed.

End Replies.

Lemma do_list_lines_witness :
  do_list (RT := sample_runtime) "g" sample_world
  = (Ok (String.concat PyStr.nl
           [ "本群绑定列表："; "- foo -> Foo (76561197960265729)" ]),
     sample_world).
Proof.
  apply (do_list_lines (RT := sample_runtime) "g" sample_world
           [ ("foo", [ ("steamid", JStr "76561197960265729");
                       ("profileurl", JStr "https://steamcommunity.com/id/foo/");
                       ("personaname", JStr "Foo");
                       ("created_at", JInt 100) ]) ]).
  - reflexivity.
  - discriminate.
Defined.

Lemma link_keeps_listing_order_witness :
  let wl := snd (do_link (RT := sample_runtime) sample_remote 7 "g" "Gabe"
                   "gabe" (sample_service "key") sample_world) in
  exists d',
    chat_aliases (current_store wl) "g" = Ok (JDict d') /\
    map fst d' = [ "foo"; "gabe" ].
Proof.
  eapply (link_keeps_listing_order (RT := sample_runtime) sample_remote 7
            "g" "Gabe" "gabe" (sample_service "key") sample_world
            _ _ "76561197960287930"
            (sample_player (JStr "76561197960287930"))
            [ ("foo", alias_record "76561197960265729"
                        (JStr "https://steamcommunity.com/id/foo/")
                        (JStr "Foo") 100) ]).
  - reflexivity.
  - reflexivity.
  - reflexivity.
  - reflexivity.
  - reflexivity.
  - discriminate.
  - reflexivity.
Defined.

Lemma do_whois_bound_witness :
  let sid := JStr "76561197960265729" in
  let w' := mkWorld (RT := sample_runtime) (Some (json_dump sample_store))
              [HttpGet (GetPlayerSummaries "key" sid)] in
  do_whois (RT := sample_runtime) (fun _ => None) "g" "@FOO"
    (sample_service "key") sample_world
  = (Ok (msg_whois_unavailable "foo" "76561197960265729"), w') /\
  do_whois (RT := sample_runtime) sample_remote "g" "@FOO"
    (sample_service "key") sample_world
  = (Ok (String.concat PyStr.nl
           [ "foo -> Gabe（76561197960265729）";
             "档案: https://steamcommunity.com/id/gabe/" ]), w').
Proof.
  split.
  - apply (proj1 (do_whois_bound (RT := sample_runtime) (fun _ => None) "g"
                    "@FOO" (sample_service "key") sample_world _
                    [ ("steamid", JStr "76561197960265729");
                      ("profileurl", JStr "https://steamcommunity.com/id/foo/");
                      ("personaname", JStr "Foo");
                      ("created_at", JInt 100) ]
                    (JStr "76561197960265729") (JDict [])
                    eq_refl eq_refl eq_refl)).
    reflexivity.
  - apply (proj2 (do_whois_bound (RT := sample_runtime) sample_remote "g"
                    "@FOO" (sample_service "key") sample_world _
                    [ ("steamid", JStr "76561197960265729");
                      ("profileurl", JStr "https://steamcommunity.com/id/foo/");
                      ("personaname", JStr "Foo");
                      ("created_at", JInt 100) ]
                    (JStr "76561197960265729")
                    (JDict (sample_player (JStr "76561197960265729")))
                    eq_refl eq_refl eq_refl)
             (sample_player (JStr "76561197960265729"))).
    + reflexivity.
    + discriminate.
Defined.

Lemma non_object_summary_raises_witness :
  let w := mkWorld (RT := sample_runtime) None [] in
  let w2 := mkWorld (RT := sample_runtime) None
              [HttpGet (GetPlayerSummaries "key" (JStr "76561197960265729"))] in
  do_link string_players_remote 7 "g" "me" "1" (sample_service "key") w
  = (Raise AttributeError, w2) /\
  status_of string_players_remote "1" (sample_service "key")
    (JStr "76561197960265729") w = (Raise AttributeError, w2) /\
  reads_only w w2.
Proof.
  destruct (non_object_summary_raises (RT := sample_runtime)
              string_players_remote 7 "g" "me" "1" "1" (sample_service "key")
              (mkWorld None []) (mkWorld None [])
              (mkWorld None
                 [HttpGet (GetPlayerSummaries "key" (JStr "76561197960265729"))])
              "76561197960265729" (JStr "unexpected"))
    as [H1 [H2 H3]].
  - reflexivity.
  - discriminate.
  - reflexivity.
  - reflexivity.
  - split; [apply H1; reflexivity|]. split; [exact H2 | exact H3].
Defined.

(* ================================================================== *)
(** ** Dispatch *)
(* ================================================================== *)

Section Dispatch.

Context {RT : Runtime} {LAWS : RuntimeLaws RT}.

Ltac dispatch_cases verb a b :=
  unfold PyStr.truthy;
  destruct (String.eqb verb "help"), (PyStr.is_empty verb),
    (String.eqb verb "list"), (String.eqb verb "unlink"),
    (String.eqb verb "whois"), (String.eqb verb "link"),
    (String.eqb verb "status"), (PyStr.is_empty a), (PyStr.is_empty b);
  cbn [negb andb orb].

(** [execute] answers the usage message with [(False, "bad-args", True)],
    and touches neither the store nor the network, exactly for the
    requests it does not accept: a verb outside the six, [unlink], [whois]
    or [status] without a first argument, [link] without both.  [help] and
    a missing verb give the help text, also without any effect.  For every
    accepted request the tuple is [(True, "ok", True)] whatever the handler
    replied, a failure message included.  The verb is compared in lower
    case.  When [self.context] cannot be set up, [execute] raises before
    anything is sent. *)
Theorem execute_dispatch :
  forall (remote : Remote) (now : Z) (self : CommandSelf)
         (config_key : string) (sub a b : option string) (w : World),
    let verb := str_lower (or_empty sub) in
    let run := execute remote now self config_key in
    (forall context, self_context self = Ok context ->
       (request_accepted verb (or_empty a) (or_empty b) = false ->
          run sub a b w = (Ok (MSG_USAGE, RESULT_BAD_ARGS), w)) /\
       (String.eqb verb "help" || PyStr.is_empty verb = true ->
          run sub a b w = (Ok (help_text, RESULT_OK), w)) /\
       (request_accepted verb (or_empty a) (or_empty b) = true ->
          forall text result w',
            run sub a b w = (Ok (text, result), w') -> result = RESULT_OK)) /\
    (forall e, self_context self = Raise e -> run sub a b w = (Raise e, w)) /\
    run sub a b w = run (Some verb) a b w.
Proof.
  intros remote now self config_key sub a b w verb run.
  split; [|split].
  - intros context Hctx. unfold run, execute. cbv zeta. fold verb.
    rewrite (bind_lift_ok _ _ _ _ Hctx).
    unfold request_accepted.
    split; [|split].
    + dispatch_cases verb (or_empty a) (or_empty b);
        intro H; try discriminate H; reflexivity.
    + dispatch_cases verb (or_empty a) (or_empty b);
        intro H; try discriminate H; reflexivity.
    + dispatch_cases verb (or_empty a) (or_empty b);
        intro H; try discriminate H; intros text result w' E;
        unfold bind, ret in E;
        repeat match type of E with
               | context [match ?h with _ => _ end] =>
                   destruct h as [[?|?] ?]
               end;
        congruence.
  - intros e He. unfold run, execute. cbv zeta.
    unfold bind, lift. rewrite He. reflexivity.
  - assert (Hv : str_lower (or_empty (Some verb)) = verb)
      by (unfold verb; cbn [or_empty]; apply str_lower_idem).
    unfold run, execute. cbv zeta. rewrite Hv. reflexivity.
Qed.

End Dispatch.

Lemma execute_dispatch_witness :
  let self := WithContext (Value (JDict [ ("group_id", JInt 42) ])) in
  let w := mkWorld (RT := sample_runtime) None [] in
  execute sample_remote 7 self "key" (Some "LINK") (Some "me") None w
  = (Ok (MSG_USAGE, RESULT_BAD_ARGS), w) /\
  execute sample_remote 7 self "key" None None None w
  = (Ok (help_text, RESULT_OK), w) /\
  (forall text result w',
     execute sample_remote 7 self "key" (Some "Link") (Some "me")
       (Some "nobody") w = (Ok (text, result), w') -> result = RESULT_OK) /\
  execute sample_remote 7 (WithEvent (Some (JStr "event"))) "key"
    (Some "list") None None w = (Raise AttributeError, w).
Proof.
  split; [|split; [|split]].
  - apply (proj1 (proj1 (execute_dispatch (RT := sample_runtime) sample_remote
                           7 (WithContext (Value (JDict [ ("group_id", JInt 42) ])))
                           "key" (Some "LINK") (Some "me") None
                           (mkWorld None [])) _ eq_refl)).
    reflexivity.
  - apply (proj1 (proj2 (proj1 (execute_dispatch (RT := sample_runtime)
                           sample_remote
                           7 (WithContext (Value (JDict [ ("group_id", JInt 42) ])))
                           "key" None None None
                           (mkWorld None [])) _ eq_refl))).
    reflexivity.
  - apply (proj2 (proj2 (proj1 (execute_dispatch (RT := sample_runtime)
                           sample_remote
                           7 (WithContext (Value (JDict [ ("group_id", JInt 42) ])))
                           "key" (Some "Link") (Some "me") (Some "nobody")
                           (mkWorld None [])) _ eq_refl))).
    reflexivity.
  - apply (proj1 (proj2 (execute_dispatch (RT := sample_runtime)
                           sample_remote 7 (WithEvent (Some (JStr "event")))
                           "key" (Some "list") None None
                           (mkWorld None [])))).
    reflexivity.
Defined.

(* ================================================================== *)
(** ** Player summaries *)
(* ================================================================== *)

Section Summaries.

Context {RT : Runtime}.

(** [get_summary] never raises.  Whatever it returns other than the empty
    dict is the first element of "players" in the "response" object of the
    remote answer (or, when "players" is a string, its first character):
    the steamid asked for is not compared with the player received.
    Conversely, an answer whose "players" is a non-empty list always gives
    its first element, and a failed request gives the empty dict. *)
Theorem get_summary_first_player :
  forall (remote : Remote) (service : SteamService) (steamid : json)
         (w : World),
    let key := api_key service in
    let req := GetPlayerSummaries key steamid in
    exists info w',
      get_summary remote service steamid w = (Ok info, w') /\
      (info = JDict [] \/
       (key <> EmptyString /\
        exists body resp players,
          remote req = Some (JDict body) /\
          PyDict.get "response" body = Some (JDict resp) /\
          PyDict.get "players" resp = Some players /\
          ((exists rest, players = JList (info :: rest)) \/
           (exists s, players = JStr s /\ PyStr.is_empty s = false /\
                      info = JStr (PyStr.first_char s))))) /\
      (key <> EmptyString ->
       (remote req = None -> info = JDict []) /\
       (forall body resp p rest,
          remote req = Some (JDict body) ->
          PyDict.get "response" body = Some (JDict resp) ->
          PyDict.get "players" resp = Some (JList (p :: rest)) ->
          info = p)).
Proof.
  intros remote service steamid w key req. subst key req.
  unfold get_summary.
  destruct (PyStr.truthy (api_key service)) eqn:Ht; cbn [negb].
  2:{ exists (JDict []), w. split; [reflexivity|]. split; [left; reflexivity|].
      intro H. destruct (api_key service); [congruence | discriminate Ht]. }
  assert (Hne : api_key service <> EmptyString)
    by (intro H; rewrite H in Ht; discriminate Ht).
  unfold bind, http_get, ret.
  eexists _, _. split; [reflexivity|].
  destruct (remote (GetPlayerSummaries (api_key service) steamid))
    as [body|] eqn:Hr.
  2:{ split; [left; reflexivity|]. intros _. split; [reflexivity|].
      intros body resp p rest H. discriminate H. }
  unfold summary_of_response, py_get, rbind.
  destruct body as [| | | | |bd];
    try (split; [left; reflexivity|]; intros _; split;
         [discriminate | intros ? ? ? ? H; discriminate H]).
  destruct (PyDict.get "response" bd) as [resp|] eqn:Hresp.
  2:{ cbn. split; [left; reflexivity|]. intros _. split; [discriminate|].
      intros ? ? ? ? [= <-] H. congruence. }
  destruct resp as [| | | | |rd];
    try (split; [left; reflexivity|]; intros _; split;
         [discriminate | intros ? ? ? ? [= <-] H; congruence]).
  destruct (PyDict.get "players" rd) as [players|] eqn:Hp.
  2:{ cbn. split; [left; reflexivity|]. intros _. split; [discriminate|].
      intros ? ? ? ? [= <-] H1 H2. congruence. }
  assert (Hconv : forall info,
    (forall body resp p rest,
       Some (JDict bd) = Some (JDict body) ->
       PyDict.get "response" body = Some (JDict resp) ->
       PyDict.get "players" resp = Some (JList (p :: rest)) ->
       (forall rest', players = JList (p :: rest') -> info = p) ->
       info = p)).
  { intros info body resp p rest [= <-] H1 H2 H3.
    rewrite Hresp in H1. injection H1 as <-. rewrite Hp in H2.
    injection H2 as ->. apply (H3 rest). reflexivity. }
  destruct players as [|pb|pn|ps|pl|pd]; cbn [py_truthy py_index0].
  - split; [left; reflexivity|]. intros _. split; [discriminate|].
    intros body resp p rest H0 H1 H2. apply (Hconv _ body resp p rest H0 H1 H2).
    intros rest' H. discriminate H.
  - destruct pb; (split; [left; reflexivity|]; intros _; split; [discriminate|];
      intros body resp p rest H0 H1 H2;
      apply (Hconv _ body resp p rest H0 H1 H2); intros rest' H; discriminate H).
  - destruct (negb (pn =? 0));
      (split; [left; reflexivity|]; intros _; split; [discriminate|];
       intros body resp p rest H0 H1 H2;
       apply (Hconv _ body resp p rest H0 H1 H2); intros rest' H; discriminate H).
  - unfold PyStr.truthy. destruct (PyStr.is_empty ps) eqn:Hps; cbn [negb].
    + split; [left; reflexivity|]. intros _. split; [discriminate|].
      intros body resp p rest H0 H1 H2.
      apply (Hconv _ body resp p rest H0 H1 H2). intros rest' H. discriminate H.
    + split.
      * right. split; [exact Hne|]. exists bd, rd, (JStr ps).
        repeat split; auto. right. exists ps. repeat split; auto.
      * intros _. split; [discriminate|].
        intros body resp p rest H0 H1 H2.
        apply (Hconv _ body resp p rest H0 H1 H2). intros rest' H.
        discriminate H.
  - destruct pl as [|p0 rest0].
    + split; [left; reflexivity|]. intros _. split; [discriminate|].
      intros body resp p rest H0 H1 H2.
      apply (Hconv _ body resp p rest H0 H1 H2). intros rest' H. discriminate H.
    + split.
      * right. split; [exact Hne|]. exists bd, rd, (JList (p0 :: rest0)).
        repeat split; auto. left. exists rest0. reflexivity.
      * intros _. split; [discriminate|].
        intros body resp p rest H0 H1 H2.
        apply (Hconv _ body resp p rest H0 H1 H2). intros rest' [= -> _].
        reflexivity.
  - destruct pd as [|entry pd'];
      (split; [left; reflexivity|]; intros _; split; [discriminate|];
       intros body resp p rest H0 H1 H2;
       apply (Hconv _ body resp p rest H0 H1 H2); intros rest' H; discriminate H).
Qed.

End Summaries.

Lemma get_summary_first_player_witness :
  exists info w',
    get_summary (RT := sample_runtime) sample_remote (sample_service "key")
      (JStr "76561197960265729") (mkWorld None []) = (Ok info, w') /\
    info = JDict (sample_player (JStr "76561197960265729")).
Proof.
  destruct (get_summary_first_player (RT := sample_runtime) sample_remote
              (sample_service "key") (JStr "76561197960265729")
              (mkWorld None [])) as [info [w' [E [_ H]]]].
  exists info, w'. split; [exact E|].
  assert (Hk : api_key (sample_service "key") <> EmptyString) by discriminate.
  apply (proj2 (H Hk)
           [ ("response", JDict [ ("players",
               JList [ JDict (sample_player (JStr "76561197960265729")) ]) ]) ]
           [ ("players",
               JList [ JDict (sample_player (JStr "76561197960265729")) ]) ]
           (JDict (sample_player (JStr "76561197960265729"))) []);
    reflexivity.
Defined.
